(** * MCP examples: tool servers and clients

    A shallow embedding of the Python example programs of the repository:

    - the math servers ([math_server.py], [mcp-server.py]);
    - the notes server ([full-server/server.py]): [create_note],
      [find_notes], [get_notes_resource], [ideastorm_prompt];
    - the clients ([full-client/client.py], [python-basic-client/client.py]):
      [connect_to_server], [execute_tool], [process_query],
      [handle_resource_commands];
    - the dispatcher of the tool-server library, which the servers only
      call, after its description in the specification.

    Conventions.  Python values that travel as JSON are the type [pyval];
    Python [int] is [Z], Python [float] is the kernel's binary64 [float];
    a Python [str] is a [string], one [ascii] per character: the texts
    modelled are those of code points below 256, and the tables for case,
    white space and word characters are Python's on that range.  A Python
    computation that may raise is a value of [py A]: either [Ret a] or
    [Raise e].  Clock, UUID generator, file system, transport and hosted
    model are inputs of the functions that use them. *)

From Stdlib Require Import ZArith String Ascii List Floats Lia Bool.
From stdpp Require Import base strings list gmap pretty.

#[local] Set Warnings "-register-all".

Local Open Scope string_scope.
Local Open Scope Z_scope.

(** ** Python values, exceptions *)

Module Py.

Inductive pyval : Type :=
| PNone
| PBool (b : bool)
| PInt (z : Z)
| PFloat (f : float)
| PStr (s : string)
| PList (l : list pyval)
| PDict (d : list (string * pyval)).

(** The exception classes the programs raise or catch.  All of them are
    subclasses of [Exception]. *)
Inductive exn_class : Type :=
| ValueError | TypeError | KeyError | AttributeError | IndexError
| OverflowError | RuntimeError | OSError | JSONDecodeError | OtherException.

Record exn : Type := Exn { exn_cls : exn_class; exn_msg : string }.

Inductive py (A : Type) : Type :=
| Ret (a : A)
| Raise (e : exn).
Arguments Ret {A} a.
Arguments Raise {A} e.

#[export] Instance py_ret : MRet py := fun _ a => Ret a.
#[export] Instance py_bind : MBind py := fun _ _ f m =>
  match m with Ret a => f a | Raise e => Raise e end.
#[export] Instance py_fmap : FMap py := fun _ _ f m =>
  match m with Ret a => Ret (f a) | Raise e => Raise e end.

Definition raise {A} (c : exn_class) (msg : string) : py A := Raise (Exn c msg).

(** [try: body / except Exception as e: handler e]. *)
Definition try_except {A} (body : py A) (handler : exn -> py A) : py A :=
  match body with Ret a => Ret a | Raise e => handler e end.

Definition exn_class_eqb (a b : exn_class) : bool :=
  match a, b with
  | ValueError, ValueError | TypeError, TypeError | KeyError, KeyError
  | AttributeError, AttributeError | IndexError, IndexError
  | OverflowError, OverflowError | RuntimeError, RuntimeError
  | OSError, OSError | JSONDecodeError, JSONDecodeError
  | OtherException, OtherException => true
  | _, _ => false
  end.

(** Whether an exception of class [c] is an instance of [target], as
    [except (c1, c2, ...)] tests it; [json.JSONDecodeError] is a subclass
    of [ValueError]. *)
Definition is_instance (c target : exn_class) : bool :=
  exn_class_eqb c target ||
  match c, target with JSONDecodeError, ValueError => true | _, _ => false end.

(** *** [str] methods *)

Definition is_upper (c : ascii) : bool :=
  let n := nat_of_ascii c in (Nat.leb 65 n && Nat.leb n 90)%bool.
Definition is_lower (c : ascii) : bool :=
  let n := nat_of_ascii c in (Nat.leb 97 n && Nat.leb n 122)%bool.
Definition is_digit (c : ascii) : bool :=
  let n := nat_of_ascii c in (Nat.leb 48 n && Nat.leb n 57)%bool.

(** The upper-case letters above U+007F: U+00C0 to U+00DE without the
    multiplication sign U+00D7. *)
Definition is_upper_latin (c : ascii) : bool :=
  let n := nat_of_ascii c in
  (Nat.leb 192 n && Nat.leb n 222 && negb (Nat.eqb n 215))%bool.

(** [c.lower()]: an upper-case letter is 32 below its lower-case
    letter. *)
Definition lower_char (c : ascii) : ascii :=
  if (is_upper c || is_upper_latin c)%bool
  then ascii_of_nat (nat_of_ascii c + 32) else c.

(** [s.lower()] *)
Fixpoint lower (s : string) : string :=
  match s with
  | EmptyString => EmptyString
  | String c r => String (lower_char c) (lower r)
  end.

(** [s.startswith(p)] *)
Definition startswith (s p : string) : bool := String.prefix p s.

(** [s[n:]] and [s[:n]] for a natural [n]. *)
Fixpoint str_drop (n : nat) (s : string) : string :=
  match n, s with
  | O, _ => s
  | S n', String _ r => str_drop n' r
  | S _, EmptyString => EmptyString
  end.
Fixpoint str_take (n : nat) (s : string) : string :=
  match n, s with
  | S n', String c r => String c (str_take n' r)
  | _, _ => EmptyString
  end.

(** [s.endswith(p)] *)
Definition endswith (s p : string) : bool :=
  (Nat.leb (String.length p) (String.length s) &&
   String.eqb (str_drop (String.length s - String.length p) s) p)%bool.

(** [sub in s] for two strings. *)
Fixpoint str_contains (sub s : string) : bool :=
  (String.prefix sub s ||
   match s with
   | EmptyString => false
   | String _ r => str_contains sub r
   end)%bool.

(** [c not in s] for a character [c]. *)
Fixpoint lacks (c : ascii) (s : string) : bool :=
  match s with
  | EmptyString => true
  | String x r => (negb (Ascii.eqb x c) && lacks c r)%bool
  end.

(** [s.split(sep)] for a non-empty [sep]: the pieces between the
    occurrences of [sep], found left to right without overlap.  [skip]
    counts the characters of an occurrence still to be passed over and
    [cur] is the piece being read, reversed. *)
Fixpoint rev_string (acc : string) (s : string) : string :=
  match s with
  | EmptyString => acc
  | String c r => rev_string (String c acc) r
  end.
Fixpoint split_go (sep : string) (skip : nat) (cur : string) (s : string)
    : list string :=
  match s with
  | EmptyString => [rev_string EmptyString cur]
  | String c r =>
      match skip with
      | S k => split_go sep k cur r
      | O =>
          if String.prefix sep s
          then rev_string EmptyString cur
               :: split_go sep (String.length sep - 1) EmptyString r
          else split_go sep O (String c cur) r
      end
  end.
Definition split (s sep : string) : list string := split_go sep O EmptyString s.

(** [c.isspace()]: the white space [strip] and [split] know, U+0009 to
    U+000D, U+001C to U+0020, U+0085 and U+00A0. *)
Definition is_space (c : ascii) : bool :=
  let n := nat_of_ascii c in
  ((Nat.leb 9 n && Nat.leb n 13) || (Nat.leb 28 n && Nat.leb n 32)
   || Nat.eqb n 133 || Nat.eqb n 160)%bool.
(** [s.strip()]: without the white space at both ends. *)
Fixpoint lstrip (s : string) : string :=
  match s with
  | EmptyString => EmptyString
  | String c r => if is_space c then lstrip r else s
  end.
Definition strip (s : string) : string :=
  rev_string "" (lstrip (rev_string "" (lstrip s))).

(** [sep.join(parts)] *)
Fixpoint join (sep : string) (parts : list string) : string :=
  match parts with
  | [] => ""
  | [p] => p
  | p :: rest => p ++ sep ++ join sep rest
  end.

(** *** Numbers *)

(** The integer a finite float is truncated to (toward zero), as [int(f)]
    computes it; [None] for infinities and NaN. *)
Definition float_trunc (f : float) : option Z :=
  match Prim2SF f with
  | S754_zero _ => Some 0
  | S754_finite sg m e =>
      let mag := if 0 <=? e then Z.pos m * 2 ^ e
                 else Z.shiftr (Z.pos m) (- e) in
      Some (if sg then - mag else mag)
  | S754_infinity _ | S754_nan => None
  end.

(** [f == z] for a float and an integer: Python compares the exact values. *)
Definition float_eq_int (f : float) (z : Z) : bool :=
  match Prim2SF f with
  | S754_zero _ => z =? 0
  | S754_finite sg m e =>
      let v := if sg then - Z.pos m else Z.pos m in
      if 0 <=? e then z =? v * 2 ^ e else z * 2 ^ (- e) =? v
  | S754_infinity _ | S754_nan => false
  end.

Definition int_of_bool (b : bool) : Z := if b then 1 else 0.

(** [a == b] on JSON-born values: [bool] is a subclass of [int], numbers of
    different types compare by value, lists compare element by element and
    dicts as mappings. *)
Fixpoint assoc {V} (k : string) (d : list (string * V)) : option V :=
  match d with
  | [] => None
  | (k', v) :: r => if String.eqb k k' then Some v else assoc k r
  end.

Fixpoint py_eq (a b : pyval) {struct a} : bool :=
  match a, b with
  | PNone, PNone => true
  | PBool x, PBool y => Bool.eqb x y
  | PBool x, PInt y => int_of_bool x =? y
  | PInt x, PBool y => x =? int_of_bool y
  | PInt x, PInt y => x =? y
  | PBool x, PFloat y => float_eq_int y (int_of_bool x)
  | PFloat x, PBool y => float_eq_int x (int_of_bool y)
  | PInt x, PFloat y => float_eq_int y x
  | PFloat x, PInt y => float_eq_int x y
  | PFloat x, PFloat y => PrimFloat.eqb x y
  | PStr x, PStr y => String.eqb x y
  | PList l1, PList l2 =>
      (fix go (l1 l2 : list pyval) : bool :=
         match l1, l2 with
         | [], [] => true
         | x :: xs, y :: ys => py_eq x y && go xs ys
         | _, _ => false
         end) l1 l2
  | PDict d1, PDict d2 =>
      Nat.eqb (length d1) (length d2) &&
      (fix go (d : list (string * pyval)) : bool :=
         match d with
         | [] => true
         | (k, v) :: r =>
             match assoc k d2 with
             | Some v' => py_eq v v'
             | None => false
             end && go r
         end) d1
  | _, _ => false
  end.

(** [bool(v)], the truth value an [if] tests. *)
Definition truthy (v : pyval) : bool :=
  match v with
  | PNone => false
  | PBool b => b
  | PInt z => negb (z =? 0)
  | PFloat f => negb (PrimFloat.eqb f 0%float)
  | PStr s => negb (String.eqb s "")
  | PList l => match l with [] => false | _ => true end
  | PDict d => match d with [] => false | _ => true end
  end.

(** [isinstance(v, int)], [isinstance(v, (int, float))],
    [isinstance(v, bool)], [isinstance(v, str)]. *)
Definition isinstance_int (v : pyval) : bool :=
  match v with PBool _ | PInt _ => true | _ => false end.
Definition isinstance_int_float (v : pyval) : bool :=
  match v with PBool _ | PInt _ | PFloat _ => true | _ => false end.
Definition isinstance_bool (v : pyval) : bool :=
  match v with PBool _ => true | _ => false end.
Definition isinstance_str (v : pyval) : bool :=
  match v with PStr _ => true | _ => false end.

(** What the interpreter's own parsers and printers do on strings is
    taken as given: [int(s)] and [float(s)] on a string ([None] when they
    raise [ValueError]), [str(v)] on a value that is not a string,
    [json.loads] on raw text ([None] when it raises [JSONDecodeError]) and
    the text [json.dumps(v, indent=...)] prints. *)
Class Builtins : Type := {
  int_of_str : string -> option Z;
  float_of_str : string -> option float;
  repr : pyval -> string;
  json_parse : string -> option pyval;
  json_dumps : option nat -> pyval -> string
}.

Section WithBuiltins.
Context `{Builtins}.

(** [int(v)] *)
Definition py_int (v : pyval) : py Z :=
  match v with
  | PBool b => Ret (int_of_bool b)
  | PInt z => Ret z
  | PFloat f =>
      match float_trunc f with
      | Some z => Ret z
      | None =>
          if is_nan f
          then raise ValueError "cannot convert float NaN to integer"
          else raise OverflowError "cannot convert float infinity to integer"
      end
  | PStr s =>
      match int_of_str s with
      | Some z => Ret z
      | None => raise ValueError ("invalid literal for int() with base 10: " ++ repr v)
      end
  | PNone | PList _ | PDict _ =>
      raise TypeError "int() argument must be a string, a bytes-like object or a real number"
  end.

(** [float(v)] *)
Definition py_float (v : pyval) : py float :=
  match v with
  | PBool b => Ret (if b then 1%float else 0%float)
  | PInt z =>
      let f := SF2Prim (binary_normalize prec emax z 0 false) in
      if is_infinity f then raise OverflowError "int too large to convert to float"
      else Ret f
  | PFloat f => Ret f
  | PStr s =>
      match float_of_str s with
      | Some f => Ret f
      | None => raise ValueError ("could not convert string to float: " ++ repr v)
      end
  | PNone | PList _ | PDict _ =>
      raise TypeError "float() argument must be a string or a real number"
  end.

(** [str(v)], and [format(v)] inside an f-string. *)
Definition py_str (v : pyval) : string :=
  match v with PStr s => s | _ => repr v end.

End WithBuiltins.

(** *** Operations on values of unknown type

    What a note file holds is whatever [json.load] returned, so the field
    accesses and method calls of the handlers are the dynamic ones. *)

(** [type(v).__name__] *)
Definition type_name (v : pyval) : string :=
  match v with
  | PNone => "NoneType"
  | PBool _ => "bool"
  | PInt _ => "int"
  | PFloat _ => "float"
  | PStr _ => "str"
  | PList _ => "list"
  | PDict _ => "dict"
  end.

(** The [AttributeError] of a method call on a value that has no such
    method. *)
Definition no_attribute {A} (v : pyval) (method : string) : py A :=
  raise AttributeError ("'" ++ type_name v ++ "' object has no attribute '"
                        ++ method ++ "'").

(** [v[key]] for a string [key]. *)
Definition getitem (v : pyval) (key : string) : py pyval :=
  match v with
  | PDict d =>
      match assoc key d with
      | Some x => Ret x
      | None => raise KeyError ("'" ++ key ++ "'")
      end
  | PStr _ => raise TypeError "string indices must be integers"
  | PList _ => raise TypeError "list indices must be integers or slices, not str"
  | PNone | PBool _ | PInt _ | PFloat _ =>
      raise TypeError ("'" ++ type_name v ++ "' object is not subscriptable")
  end.

(** [v.get(key, default)] *)
Definition get_method (v : pyval) (key : string) (default : pyval) : py pyval :=
  match v with
  | PDict d => Ret (match assoc key d with Some x => x | None => default end)
  | _ => no_attribute v "get"
  end.

(** [v.lower()] *)
Definition lower_method (v : pyval) : py string :=
  match v with
  | PStr s => Ret (lower s)
  | _ => no_attribute v "lower"
  end.

(** [len(v)] *)
Definition py_len (v : pyval) : py nat :=
  match v with
  | PStr s => Ret (String.length s)
  | PList l => Ret (length l)
  | PDict d => Ret (length d)
  | PNone | PBool _ | PInt _ | PFloat _ =>
      raise TypeError ("object of type '" ++ type_name v ++ "' has no len()")
  end.

(** [v[:n]] *)
Definition slice_to (n : nat) (v : pyval) : py pyval :=
  match v with
  | PStr s => Ret (PStr (str_take n s))
  | PList l => Ret (PList (firstn n l))
  | PDict _ => raise TypeError "unhashable type: 'slice'"
  | PNone | PBool _ | PInt _ | PFloat _ =>
      raise TypeError "object is not subscriptable"
  end.

(** [v + s] for a string literal [s]. *)
Definition add_str (v : pyval) (s : string) : py pyval :=
  match v with
  | PStr x => Ret (PStr (x ++ s))
  | _ => raise TypeError "unsupported operand type(s) for +"
  end.

(** [x in v] *)
Definition py_in (x v : pyval) : py bool :=
  match v with
  | PList l => Ret (existsb (py_eq x) l)
  | PStr s =>
      match x with
      | PStr sub => Ret (str_contains sub s)
      | _ => raise TypeError "'in <string>' requires string as left operand"
      end
  | PDict d =>
      match x with
      | PStr k => Ret (match assoc k d with Some _ => true | None => false end)
      | PList _ | PDict _ => raise TypeError "unhashable type"
      | PNone | PBool _ | PInt _ | PFloat _ => Ret false
      end
  | PNone | PBool _ | PInt _ | PFloat _ =>
      raise TypeError ("argument of type '" ++ type_name v
                       ++ "' is not iterable")
  end.

(** [sep.join(v)]: every item of the iterable [v] must be a string.
    Iterating a string gives its characters, iterating a dict its keys. *)
Fixpoint strs_of (l : list pyval) : option (list string) :=
  match l with
  | [] => Some []
  | PStr s :: r => option_map (cons s) (strs_of r)
  | _ :: _ => None
  end.
Fixpoint chars_of (s : string) : list string :=
  match s with
  | EmptyString => []
  | String c r => String c EmptyString :: chars_of r
  end.
Definition join_method (sep : string) (v : pyval) : py string :=
  match v with
  | PList l =>
      match strs_of l with
      | Some parts => Ret (join sep parts)
      | None => raise TypeError "sequence item: expected str instance"
      end
  | PStr s => Ret (join sep (chars_of s))
  | PDict d => Ret (join sep (map fst d))
  | PNone | PBool _ | PInt _ | PFloat _ =>
      raise TypeError "can only join an iterable"
  end.

(** [for x in v]: the items of a list, the characters of a string, the
    keys of a dict. *)
Definition py_iter (v : pyval) : py (list pyval) :=
  match v with
  | PList l => Ret l
  | PStr s => Ret (map PStr (chars_of s))
  | PDict d => Ret (map (fun e => PStr e.1) d)
  | PNone | PBool _ | PInt _ | PFloat _ =>
      raise TypeError ("'" ++ type_name v ++ "' object is not iterable")
  end.

(** [l[i]] on a list. *)
Definition list_item {A} (l : list A) (i : nat) : py A :=
  match nth_error l i with
  | Some x => Ret x
  | None => raise IndexError "list index out of range"
  end.

End Py.

Import Py.

(** ** The math servers

    [mcp-servers/sse/python/uv-offical-math-demo/math_server.py] and
    [python/uv-single-file-server/mcp-server.py]. *)

Module MathServer.

(** [def add(a: int, b: int) -> int: return a + b] *)
Definition add (a b : Z) : Z := a + b.

(** [def subtract(a: int, b: int) -> int: return a - b] *)
Definition subtract (a b : Z) : Z := a - b.

(** [def multiply(a: int, b: int) -> int: return a * b] *)
Definition multiply (a b : Z) : Z := a * b.

(** [def divide(a: float, b: float) -> float] *)
Definition divide (a b : float) : py float :=
  if PrimFloat.eqb b 0%float
  then raise ValueError "Cannot divide by zero"
  else Ret (PrimFloat.div a b).

End MathServer.

Module DemoServer.

(** [def add(a: int, b: int) -> int: return a + b] of [mcp-server.py]. *)
Definition add (a b : Z) : Z := a + b.

End DemoServer.

(** ** The server-side dispatcher

    The servers register their functions with [FastMCP] and leave the
    dispatch of a call to that library, whose code is not part of the
    repository. *)

Module Dispatcher.

(** A typed content block: plain text, or raw data tagged with a media
    type. *)
Inductive ContentBlock : Type :=
| TextBlock (text : string)
| DataBlock (media_type : string) (data : string).

(** The tool call response: a success/failure indicator, the error message
    of a failure, and the content blocks. *)
Record Envelope : Type := {
  success : bool;
  error : option string;
  content : list ContentBlock
}.

(** The structured failure result: the success flag false, and the error
    message. *)
Definition failure_envelope (msg : string) : Envelope :=
  {| success := false; error := Some msg; content := [TextBlock msg] |}.

(** A registered tool: the handler function, called with the mapping of
    argument name to value, and its declared schema (parameter name to
    declared type). *)
Record ToolEntry : Type := {
  handler : list (string * pyval) -> py pyval;
  schema : list (string * string)
}.

Inductive outcome : Type :=
| NotFound
| Response (e : Envelope).

Section WithBuiltins.
Context `{Builtins}.

(** The text of a result: [str(v)]; an integer prints in decimal. *)
Definition render (v : pyval) : string :=
  match v with
  | PInt z => pretty z
  | _ => py_str v
  end.

(** Modelled from the spec: the dispatcher of the imported tool-server
    library is missing from the sources.  Section 4.4: look the handler up
    in the fixed mapping from tool name to handler, failing with "not
    found" if absent; invoke it with the supplied arguments; an exception
    it raises is caught and converted into a structured failure result
    (success flag and error message), and a returned value goes back as
    content. *)
Definition call_tool (registry : gmap string ToolEntry) (name : string)
    (args : list (string * pyval)) : outcome :=
  match registry !! name with
  | None => NotFound
  | Some t =>
      match handler t args with
      | Ret v =>
          Response {| success := true; error := None;
                      content := [TextBlock (render v)] |}
      | Raise e => Response (failure_envelope (exn_msg e))
      end
  end.

(** Modelled from the spec: how the library binds the supplied arguments
    to a handler's typed parameters is missing from the sources.  A
    parameter is looked up by name; an [int] parameter takes an integer or
    a float without fractional part, a [float] parameter takes any
    number; anything else is a failure of the call. *)
Definition int_param (args : list (string * pyval)) (name : string) : py Z :=
  match assoc name args with
  | Some (PInt z) => Ret z
  | Some (PFloat f) =>
      match float_trunc f with
      | Some z => if float_eq_int f z then Ret z
                  else raise ValueError ("validation error for " ++ name)
      | None => raise ValueError ("validation error for " ++ name)
      end
  | Some _ => raise ValueError ("validation error for " ++ name)
  | None => raise ValueError ("missing argument " ++ name)
  end.

Definition float_param (args : list (string * pyval)) (name : string)
    : py float :=
  match assoc name args with
  | Some (PFloat f) => Ret f
  | Some (PInt z) => py_float (PInt z)
  | Some _ => raise ValueError ("validation error for " ++ name)
  | None => raise ValueError ("missing argument " ++ name)
  end.

(** The registry of [math_server.py]: its four [@mcp.tool()] functions. *)
Definition int_tool (f : Z -> Z -> Z) : ToolEntry :=
  {| handler := fun args =>
       a ← int_param args "a"; b ← int_param args "b"; Ret (PInt (f a b));
     schema := [("a", "integer"); ("b", "integer")] |}.

Definition divide_tool : ToolEntry :=
  {| handler := fun args =>
       a ← float_param args "a"; b ← float_param args "b";
       PFloat <$> MathServer.divide a b;
     schema := [("a", "number"); ("b", "number")] |}.

Definition math_registry : gmap string ToolEntry :=
  <["add" := int_tool MathServer.add]>
  (<["subtract" := int_tool MathServer.subtract]>
  (<["multiply" := int_tool MathServer.multiply]>
  (<["divide" := divide_tool]> ∅))).

(** The registry of [mcp-server.py]: its single tool. *)
Definition demo_registry : gmap string ToolEntry :=
  <["add" := int_tool DemoServer.add]> ∅.

End WithBuiltins.

End Dispatcher.

(** ** The notes server ([mcp-servers/stdio/python/full-server/server.py]) *)

Module NotesServer.

Definition nl : string := String "010"%char EmptyString.

(** *** The notes directory

    A file of [NOTES_DIR] holds the JSON text of a value ([json.dump] wrote
    it, [json.load] gives the value back), or other text, or cannot be
    opened. *)
Inductive file : Type :=
| FJson (v : pyval)
| FRaw (text : string)
| FUnreadable (msg : string).

(** [NOTES_DIR], file name to file. *)
Abbreviation notes_dir := (gmap string file).

(** [NOTES_DIR.glob("*.json")] yields the files whose name ends in
    [.json], in an order the operating system chooses: [listing] is one
    such enumeration of [fs]. *)
Definition is_glob_json (fs : notes_dir) (listing : list (string * file))
    : Prop :=
  listing ≡ₚ filter (fun e => Is_true (endswith e.1 ".json")) (map_to_list fs).

(** [Path.stem]: the name without its last suffix; a dot that starts or
    ends the name starts no suffix. *)
Fixpoint last_dot (i : nat) (s : string) : option nat :=
  match s with
  | EmptyString => None
  | String c r =>
      match last_dot (S i) r with
      | Some j => Some j
      | None => if Ascii.eqb c "."%char then Some i else None
      end
  end.
Definition stem (name : string) : string :=
  match last_dot 0 name with
  | Some i =>
      if (Nat.ltb 0 i && Nat.ltb i (String.length name - 1))%bool
      then str_take i name else name
  | None => name
  end.

(** What the server's clock, UUID generator and disk do during one call
    of [create_note]. *)
Inductive write_outcome : Type :=
| Written
| OpenError (msg : string)
| DumpError (msg : string) (partial : string).

Record World : Type := {
  uuid4 : string;
  now_created : string;
  now_updated : string;
  disk : write_outcome
}.

(** [str(uuid.uuid4())]: 36 characters, lower-case hexadecimal digits in
    groups of 8, 4, 4, 4 and 12 separated by hyphens. *)
Definition is_hex (c : ascii) : bool :=
  let n := nat_of_ascii c in
  (is_digit c || (Nat.leb 97 n && Nat.leb n 102))%bool.
Fixpoint uuid_chars (i : nat) (s : string) : bool :=
  match s with
  | EmptyString => true
  | String c r =>
      ((if existsb (Nat.eqb i) [8; 13; 18; 23]%nat
        then Ascii.eqb c "-"%char else is_hex c)
       && uuid_chars (S i) r)%bool
  end.
Definition is_uuid (s : string) : bool :=
  (Nat.eqb (String.length s) 36 && uuid_chars 0 s)%bool.

(** The word characters above U+007F: the letters, digits and other
    numeric characters U+00AA, U+00B2, U+00B3, U+00B5, U+00B9, U+00BA,
    U+00BC to U+00BE, and U+00C0 to U+00FF without the signs U+00D7 and
    U+00F7. *)
Definition is_word_latin (c : ascii) : bool :=
  let n := nat_of_ascii c in
  (existsb (Nat.eqb n) [170; 178; 179; 181; 185; 186; 188; 189; 190]%nat
   || (Nat.leb 192 n && negb (Nat.eqb n 215) && negb (Nat.eqb n 247)))%bool.

(** [\w] of a [str] pattern: a letter, a digit or other numeric
    character, or [_]. *)
Definition is_word (c : ascii) : bool :=
  (is_upper c || is_lower c || is_digit c || Ascii.eqb c "_"%char
   || is_word_latin c)%bool.

(** [re.sub(r'[^\w\-]', '_', s)] *)
Fixpoint sub_unsafe (s : string) : string :=
  match s with
  | EmptyString => EmptyString
  | String c r =>
      String (if (is_word c || Ascii.eqb c "-"%char)%bool then c else "_"%char)
             (sub_unsafe r)
  end.

Definition opt_list (tags : option (list pyval)) : pyval :=
  match tags with Some l => PList l | None => PNone end.
Definition opt_str (s : option string) : pyval :=
  match s with Some x => PStr x | None => PNone end.

Definition failure (e : exn) : pyval :=
  PDict [("success", PBool false); ("error", PStr (exn_msg e))].

(** [with open(note_path, 'w') as f: json.dump(note_data, f, indent=2)] *)
Definition write_json (w : World) (fs : notes_dir) (name : string)
    (v : pyval) : py unit * notes_dir :=
  match disk w with
  | Written => (Ret (), <[name := FJson v]> fs)
  | OpenError msg => (raise OSError msg, fs)
  | DumpError msg partial => (raise OSError msg, <[name := FRaw partial]> fs)
  end.

(** The dict [note_data] of [create_note]. *)
Definition note_data (w : World) (title content : string)
    (tags : list pyval) : pyval :=
  PDict [
    ("id", PStr (uuid4 w));
    ("title", PStr title);
    ("content", PStr content);
    ("tags", PList tags);
    ("created_at", PStr (now_created w));
    ("updated_at", PStr (now_updated w))
  ].

Definition note_file_name (title note_id : string) : string :=
  sub_unsafe (lower title) ++ "_" ++ str_take 8 note_id ++ ".json".

(** [async def create_note(title: str, content: str, tags: list = None)]:
    the dict returned and the directory afterwards. *)
Definition create_note (w : World) (fs : notes_dir) (title content : string)
    (tags : option (list pyval)) : pyval * notes_dir :=
  let tags := match tags with None => [] | Some l => l end in
  let note_id := uuid4 w in
  let safe_title := sub_unsafe (lower title) in
  let data := note_data w title content tags in
  let name := safe_title ++ "_" ++ str_take 8 note_id ++ ".json" in
  let note_path := "data/notes/" ++ name in
  let '(written, fs') := write_json w fs name data in
  match written with
  | Ret _ =>
      (PDict [
         ("success", PBool true);
         ("note_id", PStr note_id);
         ("title", PStr title);
         ("path", PStr note_path);
         ("message", PStr ("Note '" ++ title ++ "' created successfully!"))
       ], fs')
  | Raise e => (failure e, fs')
  end.

(** *** Reading notes *)

Inductive payload : Type :=
| Text (s : string)
| JsonDump (v : pyval).   (* the text [json.dumps(v, indent=2)] *)

(** The object the resource handlers mean to return, built by
    [types.ResourceReadResponse(uri=..., title=..., content=[types.Content(
    type=..., data=...)], is_error=...)]; [is_error] is false when not
    given. *)
Record Content : Type := { type : string; data : payload }.
Record ResourceReadResponse : Type := {
  uri : string;
  title : pyval;
  content : list Content;
  is_error : bool
}.

(** *** The module [mcp.types]

    The [mcp] package is imported, it is not among the sources.  Its
    [types] module defines the classes the prompts build
    ([GetPromptResult], [PromptMessage], [TextContent]) and the class of
    the handlers' return annotation ([ResourceReference]), but no
    [ResourceReadResponse]: the attribute reference
    [types.ResourceReadResponse] raises [AttributeError], before any
    argument of the call is evaluated. *)
Definition mcp_types : list string :=
  ["GetPromptResult"; "PromptMessage"; "ResourceReference"; "TextContent"].

(** [types.<name>] *)
Definition types_attribute (name : string) : py unit :=
  if existsb (String.eqb name) mcp_types then Ret ()
  else raise AttributeError
         ("module 'mcp.types' has no attribute '" ++ name ++ "'").

(** What the reference [types.ResourceReadResponse] raises. *)
Definition missing_class : exn :=
  Exn AttributeError "module 'mcp.types' has no attribute 'ResourceReadResponse'".

(** [types.ResourceReadResponse(uri=u, title=t, content=c, is_error=e)] *)
Definition new_response (u : string) (t : pyval) (c : list Content)
    (e : bool) : py ResourceReadResponse :=
  _ ← types_attribute "ResourceReadResponse";
  Ret {| uri := u; title := t; content := c; is_error := e |}.

Section WithBuiltins.
Context `{Builtins}.

(** [with open(note_file, 'r') as f: note = json.load(f)] *)
Definition load_json (f : file) : py pyval :=
  match f with
  | FJson v => Ret v
  | FRaw text =>
      match json_parse text with
      | Some v => Ret v
      | None => raise JSONDecodeError "Expecting value"
      end
  | FUnreadable msg => raise OSError msg
  end.

(** [note["content"][:150] + "..." if len(note["content"]) > 150
     else note["content"]] *)
Definition preview_of (note : pyval) : py pyval :=
  c ← getitem note "content";
  n ← py_len c;
  if Nat.ltb 150 n
  then c1 ← getitem note "content"; p ← slice_to 150 c1; add_str p "..."
  else getitem note "content".

(** The preview expression: the content itself up to 150 characters, its
    first 150 characters and an ellipsis beyond; a longer content that is
    not a string raises. *)
Definition preview_spec (c p : pyval) : Prop :=
  match c with
  | PStr s =>
      p = PStr (if Nat.leb (String.length s) 150 then s
                else str_take 150 s ++ "...")
  | _ => p = c
  end.

(** [all(tag in note["tags"] for tag in tags)] *)
Fixpoint all_tags_in (note : pyval) (tags : list pyval) : py bool :=
  match tags with
  | [] => Ret true
  | tag :: rest =>
      ts ← getitem note "tags";
      b ← py_in tag ts;
      if b : bool then all_tags_in note rest else Ret false
  end.

(** The body of the loop of [find_notes] for one file: [Ret None] when
    the note is filtered out by a [continue], [Ret (Some r)] when [r] is
    appended to the results. *)
Definition find_notes_step (query : option string)
    (tags : option (list pyval)) (f : file) : py (option pyval) :=
  note ← load_json f;
  skip_query ←
    match query with
    | Some q =>
        if truthy (PStr q) then
          t ← getitem note "title"; tl ← lower_method t;
          if negb (str_contains (lower q) tl) then
            c ← getitem note "content"; cl ← lower_method c;
            Ret (negb (str_contains (lower q) cl))
          else Ret false
        else Ret false
    | None => Ret false
    end;
  if skip_query : bool then Ret None else
  skip_tags ←
    match tags with
    | Some l =>
        if truthy (PList l) then negb <$> all_tags_in note l else Ret false
    | None => Ret false
    end;
  if skip_tags : bool then Ret None else
  id ← getitem note "id";
  t ← getitem note "title";
  ts ← getitem note "tags";
  ca ← getitem note "created_at";
  ua ← getitem note "updated_at";
  p ← preview_of note;
  Ret (Some (PDict [
    ("id", id); ("title", t); ("tags", ts);
    ("created_at", ca); ("updated_at", ua); ("preview", p)
  ])).

(** [for note_file in NOTES_DIR.glob("*.json"): try: ... except Exception:
    continue]: the results appended, in the order of the listing. *)
Fixpoint collect {A} (step : string * file -> py (option A))
    (listing : list (string * file)) : list A :=
  match listing with
  | [] => []
  | e :: rest =>
      match step e with
      | Ret (Some r) => r :: collect step rest
      | Ret None | Raise _ => collect step rest
      end
  end.

(** [async def find_notes(query: str = None, tags: list = None) -> dict] *)
Definition find_notes (listing : list (string * file))
    (query : option string) (tags : option (list pyval)) : pyval :=
  let results := collect (fun e => find_notes_step query tags e.2) listing in
  PDict [
    ("success", PBool true);
    ("query", opt_str query);
    ("tags", opt_list tags);
    ("count", PInt (Z.of_nat (length results)));
    ("results", PList results)
  ].

(** The loop body of the [notes:list] branch. *)
Definition list_step (f : file) : py (option pyval) :=
  note ← load_json f;
  id ← getitem note "id";
  t ← getitem note "title";
  ts ← getitem note "tags";
  ua ← getitem note "updated_at";
  Ret (Some (PDict [("id", id); ("title", t); ("tags", ts); ("updated_at", ua)])).

(** The loop body of the [notes:id:] branch: [Ret (Some r)] when the
    handler returns [r] from inside the loop.  The attribute reference
    comes first in the [return] statement, the arguments after it. *)
Definition id_step (uri note_id : string) (e : string * file)
    : py (option ResourceReadResponse) :=
  note ← load_json e.2;
  id ← getitem note "id";
  if (py_eq id (PStr note_id) || endswith (stem e.1) (str_take 8 note_id))%bool
  then
    _ ← types_attribute "ResourceReadResponse";
    t ← getitem note "title";
    t' ← getitem note "title";
    c ← getitem note "content";
    ts ← getitem note "tags";
    joined ← join_method ", " ts;
    Ret (Some {|
      uri := uri;
      title := t;
      content := [ {| type := "text/markdown";
                      data := Text ("# " ++ py_str t' ++ nl ++ nl ++ py_str c
                                    ++ nl ++ nl ++ "Tags: " ++ joined) |} ];
      is_error := false |})
  else Ret None.

(** The loop body of the [notes:search:] branch. *)
Definition search_step (search_query : string) (f : file)
    : py (option pyval) :=
  note ← load_json f;
  t ← getitem note "title"; tl ← lower_method t;
  hit ←
    (if str_contains (lower search_query) tl then Ret true
     else c ← getitem note "content"; cl ← lower_method c;
          Ret (str_contains (lower search_query) cl));
  if hit : bool then
    id ← getitem note "id";
    t1 ← getitem note "title";
    p ← preview_of note;
    ts ← getitem note "tags";
    Ret (Some (PDict [("id", id); ("title", t1); ("preview", p); ("tags", ts)]))
  else Ret None.

(** A loop that returns from its body: the first file whose step returns a
    response decides; a step that raises is skipped by [except Exception:
    continue]. *)
Fixpoint first_match {A} (step : string * file -> py (option A))
    (listing : list (string * file)) : option A :=
  match listing with
  | [] => None
  | e :: rest =>
      match step e with
      | Ret (Some r) => Some r
      | Ret None | Raise _ => first_match step rest
      end
  end.

Definition unknown_uri_message : string :=
  "Unknown resource URI pattern. Valid patterns are: notes:list, notes:id:<id>, notes:search:<query>".

(** The [try] block of [get_notes_resource]. *)
Definition get_notes_resource_body (listing : list (string * file))
    (u : string) : py ResourceReadResponse :=
  if String.eqb u "notes:list" then
    let notes_list := collect (fun e => list_step e.2) listing in
    new_response u (PStr "All Notes")
      [ {| type := "application/json"; data := JsonDump (PList notes_list) |} ]
      false
  else if startswith u "notes:id:" then
    note_id ← list_item (split u "notes:id:") 1;
    match first_match (id_step u note_id) listing with
    | Some r => Ret r
    | None =>
        new_response u (PStr "Note Not Found")
          [ {| type := "text/plain";
               data := Text ("Note with ID " ++ note_id ++ " not found.") |} ]
          true
    end
  else if startswith u "notes:search:" then
    search_query ← list_item (split u "notes:search:") 1;
    let matching_notes := collect (fun e => search_step search_query e.2) listing in
    new_response u (PStr ("Search Results for '" ++ search_query ++ "'"))
      [ {| type := "application/json";
           data := JsonDump (PList matching_notes) |} ]
      false
  else
    new_response u (PStr "Unknown Resource")
      [ {| type := "text/plain"; data := Text unknown_uri_message |} ] true.

(** [async def get_notes_resource(uri: str)]: the [try] block, and the
    response [except Exception as e] means to build. *)
Definition get_notes_resource (listing : list (string * file)) (u : string)
    : py ResourceReadResponse :=
  try_except (get_notes_resource_body listing u) (fun e =>
    new_response u (PStr "Error")
      [ {| type := "text/plain"; data := Text ("Error: " ++ exn_msg e) |} ]
      true).

End WithBuiltins.

(** *** Prompts *)

(** [types.TextContent(type="text", text=...)] inside
    [types.PromptMessage(role=..., content=...)]. *)
Record PromptMessage : Type := { role : string; text : string }.

(** [types.GetPromptResult(description=..., messages=[...])] *)
Record GetPromptResult : Type := {
  description : string;
  messages : list PromptMessage
}.

(** [count = max(1, min(20, count))] *)
Definition clamp_count (count : Z) : Z := Z.max 1 (Z.min 20 count).

(** The f-string of [ideastorm_prompt], with [count] already clamped. *)
Definition ideastorm_template (topic perspective : string) (count : Z)
    : string :=
  join nl [
    "";
    "# Creative Idea Storm: " ++ topic;
    "";
    "## Task";
    "Generate " ++ pretty count
      ++ " innovative and thought-provoking ideas related to " ++ topic ++ ".";
    "";
    "## Perspective";
    "Consider the " ++ perspective ++ " perspective when generating these ideas.";
    "";
    "## Format";
    "Present each idea as a numbered list item with a brief title and 1-2 sentence explanation.";
    "";
    "1. [Idea Title]: Brief explanation of the idea.";
    "2. [Idea Title]: Brief explanation of the idea.";
    "...etc.";
    ""
  ].

(** [async def ideastorm_prompt(topic: str, perspective: str = "general",
    count: int = 10)]; an argument left out is [None] here. *)
Definition ideastorm_prompt (topic : string) (perspective : option string)
    (count : option Z) : GetPromptResult :=
  let perspective := default "general" perspective in
  let count := default 10 count in
  let count := clamp_count count in
  let template := ideastorm_template topic perspective count in
  let messages := [ {| role := "user"; text := template |} ] in
  {| description := "Generate innovative ideas related to " ++ topic;
     messages := messages |}.

End NotesServer.

(** ** What the clients talk to

    The protocol objects of the [mcp] package as the clients read them,
    the requests a client sends over its transport, and the calls to the
    hosted model. *)

Module Protocol.

(** A tool descriptor of [list_tools()]: [inputSchema] is a JSON object. *)
Record Tool : Type := {
  name : string;
  description : string;
  inputSchema : pyval
}.

(** A prompt descriptor of [list_prompts()]. *)
Record PromptArgument : Type := { arg_name : string; required : bool }.
Record Prompt : Type := {
  prompt_name : string;
  prompt_description : string;
  arguments : option (list PromptArgument)
}.

(** An item of [CallToolResult.content]: one with a [text] attribute, one
    with a [data] attribute, or one with neither. *)
Inductive ContentItem : Type :=
| TextItem (text : string)
| DataItem (data : pyval)
| OtherItem.

Record CallToolResult : Type := { content : list ContentItem }.

(** What [session.read_resource(uri)] returns when the server answers:
    the [ReadResourceResult] of [mcp.types], whose one field is
    [contents]. *)
Inductive ResourceContents : Type :=
| TextResourceContents (uri : string) (mimeType : option string) (text : string)
| BlobResourceContents (uri : string) (mimeType : option string) (blob : string).
Record ReadResourceResult : Type := { contents : list ResourceContents }.

(** A block of the model's reply. *)
Inductive Block : Type :=
| TextBlock (text : string)
| ToolUse (id : string) (name : string) (input : list (string * pyval))
| OtherBlock.

(** An entry of the conversation sent to the model. *)
Inductive Part : Type :=
| PText (text : string)
| PToolUse (id : string) (name : string) (input : list (string * pyval))
| PToolResult (tool_use_id : string) (content : string)
| PToolResultItems (tool_use_id : string) (content : list ContentItem).
Record Message : Type := { role : string; parts : list Part }.

(** A tool as the model is told about it:
    [{"name": ..., "description": ..., "input_schema": ...}]. *)
Record ModelTool : Type := {
  mt_name : string;
  mt_description : string;
  input_schema : pyval
}.

(** [[{"name": tool.name, "description": tool.description,
    "input_schema": tool.inputSchema} for tool in tools]] *)
Definition model_tools (tools : list Tool) : list ModelTool :=
  map (fun tool => {| mt_name := name tool;
                      mt_description := description tool;
                      input_schema := inputSchema tool |}) tools.

Inductive request : Type :=
| Open
| Initialize
| ListTools
| ListPrompts
| CallTool (name : string) (args : list (string * pyval))
| ReadResource (uri : string).

Inductive level : Type := DEBUG | INFO | WARNING | ERROR.

(** What a client does that can be observed: a request sent over the
    transport, a call of [anthropic.messages.create], a log record, a
    line or panel printed on the console (its text, without styling). *)
Inductive event : Type :=
| Sent (r : request)
| ModelCall (messages : list Message) (tools : list ModelTool)
| Logged (l : level) (msg : string)
| Printed (text : string).

(** The number of "list tools" requests in a trace. *)
Definition is_list_tools (ev : event) : bool :=
  match ev with Sent ListTools => true | _ => false end.
Definition not_list_tools (ev : event) : Prop := is_list_tools ev = false.
Definition list_tools_calls (h : list event) : nat :=
  length (List.filter is_list_tools h).

(** The other side: what the server answers to each request and what the
    hosted model replies, given everything the client did before.  An
    answer may be an exception raised in the client. *)
Record Env : Type := {
  on_open : list event -> py unit;
  on_initialize : list event -> py unit;
  on_list_tools : list event -> py (list Tool);
  on_list_prompts : list event -> py (list Prompt);
  on_call_tool : list event -> string -> list (string * pyval) -> py CallToolResult;
  on_read_resource : list event -> string -> py ReadResourceResult;
  on_model : list event -> list Message -> list ModelTool -> py (list Block)
}.

(** A client computation: it reads and updates the client object [C] and
    extends the trace of events, and returns or raises. *)
Definition M (C A : Type) : Type := C * list event -> py A * (C * list event).

Definition ret {C A} (a : A) : M C A := fun s => (Ret a, s).
Definition bind {C A B} (m : M C A) (k : A -> M C B) : M C B :=
  fun s => match m s with
           | (Ret a, s') => k a s'
           | (Raise e, s') => (Raise e, s')
           end.
Definition throw {C A} (c : exn_class) (msg : string) : M C A :=
  fun s => (raise c msg, s).
Definition lift {C A} (m : py A) : M C A := fun s => (m, s).
Definition emit {C} (ev : event) : M C unit :=
  fun s => (Ret (), (s.1, (s.2 ++ [ev])%list)).
Definition get {C} : M C C := fun s => (Ret s.1, s).
Definition modify {C} (f : C -> C) : M C unit := fun s => (Ret (), (f s.1, s.2)).
Definition history {C} : M C (list event) := fun s => (Ret s.2, s).

(** [try: body / except Exception as e: handler e] *)
Definition try_catch {C A} (body : M C A) (handler : exn -> M C A) : M C A :=
  fun s => match body s with
           | (Ret a, s') => (Ret a, s')
           | (Raise e, s') => handler e s'
           end.

(** [try: body / except (c1, ...) as e: handler e] *)
Definition try_catch_only {C A} (classes : list exn_class) (body : M C A)
    (handler : exn -> M C A) : M C A :=
  fun s => match body s with
           | (Ret a, s') => (Ret a, s')
           | (Raise e, s') =>
               if existsb (is_instance (exn_cls e)) classes then handler e s'
               else (Raise e, s')
           end.

(** A request over the transport: it is recorded, then answered. *)
Definition send {C A} (r : request) (answer : list event -> py A) : M C A :=
  fun s => (answer s.2, (s.1, (s.2 ++ [Sent r])%list)).

(** [for x in l: body x] *)
Fixpoint for_each {C A} (l : list A) (body : A -> M C unit) : M C unit :=
  match l with
  | [] => ret ()
  | x :: rest => bind (body x) (fun _ => for_each rest body)
  end.

Definition log {C} (l : level) (msg : string) : M C unit := emit (Logged l msg).
Definition print {C} (text : string) : M C unit := emit (Printed text).

(** *** What a computation emits and keeps *)

(** [only Inv P m]: started on a client object that satisfies [Inv],
    whatever the trace so far, [m] only appends events that satisfy [P]
    and leaves a client object that satisfies [Inv]. *)
Definition only {C} (Inv : C -> Prop) (P : event -> Prop) {A} (m : M C A)
    : Prop :=
  forall s, Inv s.1 ->
    exists evs, (m s).2.2 = (s.2 ++ evs)%list /\ Forall P evs /\ Inv (m s).2.1.

(** [returns m]: [m] raises nothing. *)
Definition returns {C A} (m : M C A) : Prop :=
  forall s, exists a, (m s).1 = Ret a.

End Protocol.

Declare Scope client_scope.
Delimit Scope client_scope with client.
Notation "x <- m ;; k" := (Protocol.bind m (fun x => k))
  (at level 100, m at next level, right associativity) : client_scope.
Notation "m ;; k" := (Protocol.bind m (fun _ => k))
  (at level 100, right associativity) : client_scope.

(** ** The full client ([mcp-clients/stdio/python/full-client/client.py]) *)

Module FullClient.
Import Protocol.
Local Open Scope client_scope.

(** The fields of [PersonalKnowledgeAssistantClient] that the methods
    read and write; [session] says whether [self.session] is set. *)
Record Client : Type := {
  session : bool;
  available_tools : list Tool;
  available_prompts : list Prompt;
  resource_roots : pyval;
  chat_history : list Message
}.

Definition initial : Client :=
  {| session := false; available_tools := []; available_prompts := [];
     resource_roots := PList []; chat_history := [] |}.

Section WithEnv.
Context `{Builtins} (env : Env).

(** The conversion of one argument whose name is in the schema's
    properties, [prop_type] being the declared type. *)
Definition convert_value (arg_name : string) (prop_type arg_value : pyval)
    : M Client pyval :=
  if (py_eq prop_type (PStr "integer") && negb (isinstance_int arg_value))%bool
  then
    try_catch_only [ValueError; TypeError]
      (z <- lift (py_int arg_value);; ret (PInt z))
      (fun _ =>
         log WARNING ("Could not convert " ++ arg_name ++ "="
                      ++ py_str arg_value ++ " to integer");;
         ret arg_value)
  else if (py_eq prop_type (PStr "number")
           && negb (isinstance_int_float arg_value))%bool
  then
    try_catch_only [ValueError; TypeError]
      (f <- lift (py_float arg_value);; ret (PFloat f))
      (fun _ =>
         log WARNING ("Could not convert " ++ arg_name ++ "="
                      ++ py_str arg_value ++ " to number");;
         ret arg_value)
  else if (py_eq prop_type (PStr "boolean")
           && negb (isinstance_bool arg_value))%bool
  then
    match arg_value with
    | PStr s => ret (PBool (existsb (String.eqb (lower s)) ["true"; "yes"; "1"]))
    | _ => ret (PBool (truthy arg_value))
    end
  else ret arg_value.

(** [for arg_name, arg_value in tool_args.items(): ...
    converted_args[arg_name] = ...]; the keys of a dict are distinct, so
    each assignment adds an entry. *)
Fixpoint convert_args (properties : pyval) (tool_args : list (string * pyval))
    : M Client (list (string * pyval)) :=
  match tool_args with
  | [] => ret []
  | (arg_name, arg_value) :: rest =>
      present <- lift (py_in (PStr arg_name) properties);;
      v <- (if present : bool then
              p <- lift (getitem properties arg_name);;
              prop_type <- lift (get_method p "type" (PStr "string"));;
              convert_value arg_name prop_type arg_value
            else ret arg_value);;
      rest' <- convert_args properties rest;;
      ret ((arg_name, v) :: rest')
  end.

(** The loop over [tool_result.content]: the text gathered and the last
    data item that is not a string. *)
Fixpoint gather (items : list ContentItem) (result_text : string)
    (result_data : option pyval) : string * option pyval :=
  match items with
  | [] => (result_text, result_data)
  | TextItem t :: rest => gather rest (result_text ++ t) result_data
  | DataItem (PStr d) :: rest => gather rest (result_text ++ d) result_data
  | DataItem d :: rest =>
      gather rest (result_text ++ json_dumps (Some 2%nat) d) (Some d)
  | OtherItem :: rest => gather rest result_text result_data
  end.

(** The body of the panel that shows a result: the JSON text when the
    result is data or looks like a JSON object and parses, the text
    itself otherwise. *)
Definition shown (result_text : string) (result_data : option pyval)
    : string :=
  let data_truthy := match result_data with Some d => truthy d | None => false end in
  if (data_truthy
      || (startswith (strip result_text) "{" && endswith (strip result_text) "}"))%bool
  then
    if data_truthy then json_dumps (Some 2%nat) (default PNone result_data)
    else match json_parse result_text with
         | Some v => json_dumps (Some 2%nat) v
         | None => result_text
         end
  else result_text.

Definition no_content : string :=
  "Tool executed successfully, but returned no content".

(** What [execute_tool] returns for a name it does not find. *)
Definition not_found_text (tool_name : string) : string :=
  "Error: Error executing tool " ++ tool_name ++ ": Tool '" ++ tool_name
  ++ "' not found".

(** [async def execute_tool(self, tool_name: str, tool_args: dict) -> str] *)
Definition execute_tool (tool_name : string)
    (tool_args : list (string * pyval)) : M Client string :=
  log INFO ("Executing tool: " ++ tool_name ++ " with args: "
            ++ json_dumps None (PDict tool_args));;
  try_catch
    (c <- get;;
     match find (fun tool => String.eqb (name tool) tool_name)
                (available_tools c) with
     | None => throw ValueError ("Tool '" ++ tool_name ++ "' not found")
     | Some matching_tool =>
         if session c then
           let schema := inputSchema matching_tool in
           has_properties <-
             (if truthy schema then lift (py_in (PStr "properties") schema)
              else ret false);;
           converted_args <-
             (if has_properties : bool then
                properties <- lift (get_method schema "properties" (PDict []));;
                convert_args properties tool_args
              else ret tool_args);;
           log INFO ("Converted arguments: "
                     ++ json_dumps None (PDict converted_args));;
           tool_result <-
             send (CallTool tool_name converted_args)
                  (fun h => on_call_tool env h tool_name converted_args);;
           match content tool_result with
           | [] => print no_content;; ret no_content
           | items =>
               let '(result_text, result_data) := gather items "" None in
               print (shown result_text result_data);;
               ret result_text
           end
         else throw RuntimeError "Not connected to server"
     end)
    (fun e =>
       let error_msg := "Error executing tool " ++ tool_name ++ ": "
                        ++ exn_msg e in
       log ERROR error_msg;;
       print ("[bold red]" ++ error_msg ++ "[/bold red]");;
       ret ("Error: " ++ error_msg)).

(** [self.available_tools = ...] and the like. *)
Definition set_session (b : bool) (c : Client) : Client :=
  {| session := b; available_tools := available_tools c;
     available_prompts := available_prompts c;
     resource_roots := resource_roots c; chat_history := chat_history c |}.
Definition set_available_tools (l : list Tool) (c : Client) : Client :=
  {| session := session c; available_tools := l;
     available_prompts := available_prompts c;
     resource_roots := resource_roots c; chat_history := chat_history c |}.
Definition set_available_prompts (l : list Prompt) (c : Client) : Client :=
  {| session := session c; available_tools := available_tools c;
     available_prompts := l;
     resource_roots := resource_roots c; chat_history := chat_history c |}.
Definition set_resource_roots (r : pyval) (c : Client) : Client :=
  {| session := session c; available_tools := available_tools c;
     available_prompts := available_prompts c;
     resource_roots := r; chat_history := chat_history c |}.
(** [self.chat_history.append(m)] *)
Definition append_history (m : Message) (c : Client) : Client :=
  {| session := session c; available_tools := available_tools c;
     available_prompts := available_prompts c;
     resource_roots := resource_roots c;
     chat_history := (chat_history c ++ [m])%list |}.

(** The loop of [connect_to_server] over the content of the
    [get_resource_roots] result; it stops at the first text that parses
    to a dict with a ["roots"] entry. *)
Fixpoint read_roots (items : list ContentItem) : M Client unit :=
  match items with
  | [] => ret ()
  | TextItem t :: rest =>
      log DEBUG ("Parsing content text: " ++ t);;
      match json_parse t with
      | Some (PDict d) =>
          match assoc "roots" d with
          | Some roots =>
              modify (set_resource_roots roots);;
              log DEBUG ("Found resource roots: " ++ py_str roots)
          | None => read_roots rest
          end
      | Some _ => read_roots rest
      | None => log ERROR "Failed to parse JSON";; read_roots rest
      end
  | _ :: rest => read_roots rest
  end.

(** The inner [try] of [connect_to_server]: the resource roots, asked
    from the tool [get_resource_roots]. *)
Definition discover_roots : M Client unit :=
  try_catch
    (log DEBUG "Calling get_resource_roots tool";;
     roots_response <-
       send (CallTool "get_resource_roots" [])
            (fun h => on_call_tool env h "get_resource_roots" []);;
     log DEBUG "Received response from get_resource_roots";;
     read_roots (content roots_response))
    (fun e =>
       log ERROR ("Error calling get_resource_roots: " ++ exn_msg e);;
       modify (set_resource_roots (PList []))).

(** The panel printed once connected. *)
Definition announce : M Client unit :=
  c <- get;;
  roots <- lift (join_method ", " (resource_roots c));;
  print ("[bold green]Connected to Personal Knowledge Assistant[/bold green]"
         ++ NotesServer.nl ++ "[bold]Available Tools:[/bold] "
         ++ join ", " (map name (available_tools c))
         ++ NotesServer.nl ++ "[bold]Available Prompts:[/bold] "
         ++ join ", " (map prompt_name (available_prompts c))
         ++ NotesServer.nl ++ "[bold]Resource Roots:[/bold] " ++ roots).

(** [async def connect_to_server(self)].  The method returns [None] or
    ends the process: the value is [true] when it returns, and [false]
    when its handler, having printed the error and closed the exit stack
    (which sends nothing to the server and is no event of the trace),
    leaves through [sys.exit(1)], whose [SystemExit] no [except
    Exception] of the program catches. *)
Definition connect_to_server : M Client bool :=
  try_catch
    (send Open (on_open env);;
     modify (set_session true);;
     send Initialize (on_initialize env);;
     tools <- send ListTools (on_list_tools env);;
     modify (set_available_tools tools);;
     prompts <- send ListPrompts (on_list_prompts env);;
     modify (set_available_prompts prompts);;
     discover_roots;;
     announce;;
     ret true)
    (fun e =>
       print ("[bold red]Error connecting to server:[/bold red] " ++ exn_msg e);;
       ret false).

(** [def get_anthropic_tools(self)] *)
Definition get_anthropic_tools (c : Client) : list ModelTool :=
  model_tools (available_tools c).

(** [self.anthropic.messages.create(model=MODEL, max_tokens=4000,
    messages=self.chat_history, tools=anthropic_tools)] *)
Definition create_message (anthropic_tools : list ModelTool)
    : M Client (list Block) :=
  c <- get;;
  h <- history;;
  emit (ModelCall (chat_history c) anthropic_tools);;
  lift (on_model env h (chat_history c) anthropic_tools).

(** The texts of a reply, printed one by one ([for content in
    follow_up_response.content: if content.type == "text": ...]). *)
Definition print_texts (blocks : list Block) : M Client unit :=
  for_each blocks (fun b =>
    match b with
    | TextBlock t => print t
    | _ => ret ()
    end).

(** The handling of one [tool_use] block in [process_query]. *)
Definition use_tool (anthropic_tools : list ModelTool) (tool_id tool_name : string)
    (tool_args : list (string * pyval)) : M Client unit :=
  print ("[bold cyan]Claude wants to use tool:[/bold cyan] " ++ tool_name);;
  print ("[cyan]Arguments:[/cyan] " ++ json_dumps (Some 2%nat) (PDict tool_args));;
  try_catch
    (tool_result <- execute_tool tool_name tool_args;;
     modify (append_history
       {| role := "assistant";
          parts := [PToolUse tool_id tool_name tool_args] |});;
     modify (append_history
       {| role := "user"; parts := [PToolResult tool_id tool_result] |});;
     follow_up_response <- create_message anthropic_tools;;
     print_texts follow_up_response)
    (fun e =>
       log ERROR ("Error executing tool " ++ tool_name ++ ": " ++ exn_msg e);;
       print ("[bold red]Error executing tool:[/bold red] " ++ exn_msg e)).

(** The loop of [process_query] over [response.content]; it returns
    [assistant_message_content], the text blocks met. *)
Fixpoint handle_blocks (anthropic_tools : list ModelTool) (blocks : list Block)
    (assistant_message_content : list string) : M Client (list string) :=
  match blocks with
  | [] => ret assistant_message_content
  | TextBlock t :: rest =>
      print t;;
      handle_blocks anthropic_tools rest (assistant_message_content ++ [t])%list
  | ToolUse tool_id tool_name tool_args :: rest =>
      use_tool anthropic_tools tool_id tool_name tool_args;;
      handle_blocks anthropic_tools rest assistant_message_content
  | OtherBlock :: rest =>
      handle_blocks anthropic_tools rest assistant_message_content
  end.

(** [async def process_query(self, query: str) -> None] *)
Definition process_query (query : string) : M Client unit :=
  c <- get;;
  let anthropic_tools := get_anthropic_tools c in
  modify (append_history {| role := "user"; parts := [PText query] |});;
  try_catch
    (response <- create_message anthropic_tools;;
     texts <- handle_blocks anthropic_tools response [];;
     modify (append_history
       {| role := "assistant"; parts := map PText texts |}))
    (fun e =>
       log ERROR ("Error processing query: " ++ exn_msg e);;
       print ("[bold red]Error:[/bold red] " ++ exn_msg e)).

(** [json.loads(response.content[0].data)] on a resource response. *)
Definition loads_payload (d : NotesServer.payload) : py pyval :=
  match d with
  | NotesServer.JsonDump v => Ret v
  | NotesServer.Text t =>
      match json_parse t with
      | Some v => Ret v
      | None => raise JSONDecodeError "Expecting value"
      end
  end.

(** One line of a listing: [f"[bold]{x['title']}[/bold] ({x['id']})"],
    without its leading icon. *)
Definition listing_line (x : pyval) : py string :=
  t ← getitem x "title"; i ← getitem x "id";
  Ret ("[bold]" ++ py_str t ++ "[/bold] (" ++ py_str i ++ ")").

Fixpoint listing_lines (l : list pyval) : py (list string) :=
  match l with
  | [] => Ret []
  | x :: rest => a ← listing_line x; r ← listing_lines rest; Ret (a :: r)
  end.

(** [response.content]: a [ReadResourceResult] has the attribute
    [contents] and no attribute [content]. *)
Definition response_content (response : ReadResourceResult)
    : py (list NotesServer.Content) :=
  raise AttributeError "'ReadResourceResult' object has no attribute 'content'".

(** The two listing branches of [handle_resource_commands]: read the
    resource, parse its first content, print the entries or the "none
    found" line. *)
Definition list_command (u : string) (nothing : string) : M Client bool :=
  c <- get;;
  (if session c then ret ()
   else throw AttributeError "'NoneType' object has no attribute 'read_resource'");;
  response <- send (ReadResource u) (fun h => on_read_resource env h u);;
  content <- lift (response_content response);;
  first <- lift (list_item content 0);;
  data <- lift (loads_payload (NotesServer.data first));;
  (if truthy data then
     items <- lift (py_iter data);;
     lines <- lift (listing_lines items);;
     print (join NotesServer.nl lines)
   else print nothing);;
  ret true.

Definition no_notes_line : string :=
  "[yellow]No notes found in the knowledge base[/yellow]".

(** [query.strip().lower() in [...]] *)
Definition is_command (query : string) (commands : list string) : bool :=
  existsb (String.eqb (lower (strip query))) commands.

(** [async def handle_resource_commands(self, query: str) -> bool]; the
    third branch, the [use prompt] command, is the argument [use_prompt]. *)
Definition handle_resource_commands (use_prompt : string -> M Client bool)
    (query : string) : M Client bool :=
  if is_command query ["list notes"; "list all notes"] then
    list_command "notes:list" no_notes_line
  else if is_command query ["list docs"; "list documents"; "list all documents"] then
    list_command "documents:list"
      "[yellow]No documents found in the knowledge base[/yellow]"
  else if startswith (lower (strip query)) "use prompt " then use_prompt query
  else ret false.

(** After connection: the descriptors held are [tools]. *)
Definition holds_tools (tools : list Tool) (c : Client) : Prop :=
  available_tools c = tools.

(** What a session does after connection: no "list tools" request, model
    calls with the descriptors of [tools], tool calls by discovered
    names. *)
Definition uses_cache (tools : list Tool) (ev : event) : Prop :=
  is_list_tools ev = false /\
  (forall msgs tls, ev = ModelCall msgs tls -> tls = model_tools tools) /\
  (forall n a, ev = Sent (CallTool n a) -> n ∈ map name tools).

(** The turn loop of [run] on a session of plain queries: connect, then
    [process_query] on each. *)
Definition run_queries (queries : list string) : M Client unit :=
  connected <- connect_to_server;;
  if connected : bool then for_each queries process_query else ret ().

End WithEnv.

End FullClient.

(** ** The basic client
    ([mcp-clients/stdio/python/python-basic-client/client.py]) *)

Module BasicClient.
Import Protocol.
Local Open Scope client_scope.

(** An entry of the local list [messages] of [process_query]: a message
    of its own, or the dict whose content is the list object
    [assistant_message_content], which later appends still change. *)
Inductive entry : Type :=
| Plain (m : Message)
| SharedAssistant.

(** [self.session], and the local variables of the running
    [process_query]. *)
Record Client : Type := {
  session : bool;
  messages : list entry;
  assistant_message_content : list Part;
  final_text : list string
}.

Definition initial : Client :=
  {| session := false; messages := []; assistant_message_content := [];
     final_text := [] |}.

Definition set_session (b : bool) (c : Client) : Client :=
  {| session := b; messages := messages c;
     assistant_message_content := assistant_message_content c;
     final_text := final_text c |}.
Definition set_locals (ms : list entry) (c : Client) : Client :=
  {| session := session c; messages := ms;
     assistant_message_content := []; final_text := [] |}.
Definition append_message (e : entry) (c : Client) : Client :=
  {| session := session c; messages := (messages c ++ [e])%list;
     assistant_message_content := assistant_message_content c;
     final_text := final_text c |}.
Definition append_content (p : Part) (c : Client) : Client :=
  {| session := session c; messages := messages c;
     assistant_message_content := (assistant_message_content c ++ [p])%list;
     final_text := final_text c |}.
Definition append_text (t : string) (c : Client) : Client :=
  {| session := session c; messages := messages c;
     assistant_message_content := assistant_message_content c;
     final_text := (final_text c ++ [t])%list |}.

(** The conversation as the model receives it. *)
Definition resolve (c : Client) : list Message :=
  map (fun e => match e with
                | Plain m => m
                | SharedAssistant =>
                    {| role := "assistant";
                       parts := assistant_message_content c |}
                end) (messages c).

Section WithEnv.
Context `{Builtins} (env : Env).

(** [async def connect_to_server(self, server_script_path: str) -> bool] *)
Definition connect_to_server (server_script_path : string) : M Client bool :=
  try_catch
    (let is_python := endswith server_script_path ".py" in
     let is_js := endswith server_script_path ".js" in
     if negb (is_python || is_js) then
       print ("Error: Server script must be a .py or .js file. Got: "
              ++ server_script_path);;
       ret false
     else
       print ("Connecting to MCP server: " ++ server_script_path);;
       send Open (on_open env);;
       modify (set_session true);;
       send Initialize (on_initialize env);;
       tools <- send ListTools (on_list_tools env);;
       (match tools with
        | [] => print "Warning: No tools available from this server."
        | _ =>
            print (NotesServer.nl ++ "Connected to server with tools:");;
            for_each tools (fun tool =>
              print ("  - " ++ name tool ++ ": " ++ description tool))
        end);;
       ret true)
    (fun e => print ("Error connecting to server: " ++ exn_msg e);; ret false).

(** [self.anthropic.messages.create(model=..., max_tokens=1000,
    messages=messages, tools=available_tools)] *)
Definition create_message (available_tools : list ModelTool)
    : M Client (list Block) :=
  c <- get;;
  h <- history;;
  emit (ModelCall (resolve c) available_tools);;
  lift (on_model env h (resolve c) available_tools).

(** The handling of one [tool_use] block. *)
Definition use_tool (available_tools : list ModelTool)
    (tool_id tool_name : string) (tool_args : list (string * pyval))
    : M Client unit :=
  print (NotesServer.nl ++ "Claude is calling tool: " ++ tool_name);;
  print ("With arguments: " ++ py_str (PDict tool_args));;
  try_catch
    (result <- send (CallTool tool_name tool_args)
                    (fun h => on_call_tool env h tool_name tool_args);;
     print "Tool result";;
     modify (append_content (PToolUse tool_id tool_name tool_args));;
     modify (append_message SharedAssistant);;
     modify (append_message (Plain
       {| role := "user";
          parts := [PToolResultItems tool_id (content result)] |}));;
     print (NotesServer.nl ++ "Sending tool result back to Claude...");;
     response <- create_message available_tools;;
     for_each response (fun b =>
       match b with
       | TextBlock t => modify (append_text t)
       | _ => ret ()
       end))
    (fun e =>
       let error_message := "Error executing tool " ++ tool_name ++ ": "
                            ++ exn_msg e in
       print error_message;;
       modify (append_text error_message)).

(** [async def process_query(self, query: str) -> str] *)
Definition process_query (query : string) : M Client string :=
  c <- get;;
  if negb (session c) then
    ret "Error: Not connected to an MCP server. Please connect first."
  else
    modify (set_locals [Plain {| role := "user"; parts := [PText query] |}]);;
    tools <- send ListTools (on_list_tools env);;
    let available_tools := model_tools tools in
    (match available_tools with
     | [] => print "Warning: No tools available from the server."
     | _ => ret ()
     end);;
    print (NotesServer.nl ++ "Sending query to Claude...");;
    response <- create_message available_tools;;
    for_each response (fun b =>
      match b with
      | TextBlock t =>
          modify (append_text t);; modify (append_content (PText t))
      | ToolUse tool_id tool_name tool_args =>
          use_tool available_tools tool_id tool_name tool_args
      | OtherBlock => ret ()
      end);;
    c' <- get;;
    ret (join NotesServer.nl (final_text c')).

(** [main()] without [--query]: connect, then [process_query] on each
    line that is not empty; [queries] are the lines [input] reads before
    the first one that is [exit] in lower case, at which the loop ends.
    An exception ends the session, and [close] runs in every case. *)
Definition main (server_path : string) (queries : list string)
    : M Client unit :=
  try_catch
    (connected <- connect_to_server server_path;;
     if connected : bool then
       print (NotesServer.nl ++ "No query provided. Using an interactive prompt.");;
       print "Enter your query (or type 'exit' to quit):";;
       for_each queries (fun query =>
         (if negb (String.eqb query "") then
            result <- process_query query;;
            print (NotesServer.nl ++ "Result:");;
            print result
          else ret ());;
         print (NotesServer.nl ++ "Enter another query (or type 'exit' to quit):"))
     else ret ())
    (fun e => print ("Error: " ++ exn_msg e));;
  print (NotesServer.nl ++ "Disconnected from MCP server.").

End WithEnv.

End BasicClient.

(** ** A concrete interpreter

    An instance of [Builtins] to run the definitions on examples: [int(s)]
    reads an optional sign and decimal digits, [float(s)] reads nothing,
    [str] of a value that is not a string and [json.dumps] print a
    placeholder, and [json.loads] reads only the empty list. *)

Module Example.

Fixpoint digits_value (acc : Z) (s : string) : option Z :=
  match s with
  | EmptyString => Some acc
  | String c r =>
      if is_digit c
      then digits_value (10 * acc + Z.of_nat (nat_of_ascii c - 48)) r
      else None
  end.

Definition decimal (s : string) : option Z :=
  match s with
  | EmptyString => None
  | String "-" (String c r) => Z.opp <$> digits_value 0 (String c r)
  | String "+" (String c r) => digits_value 0 (String c r)
  | _ => digits_value 0 s
  end.

#[export] Instance builtins : Builtins := {|
  int_of_str := decimal;
  float_of_str := fun _ => None;
  repr := fun _ => "<value>";
  json_parse := fun s => if String.eqb s "[]" then Some (PList []) else None;
  json_dumps := fun _ _ => "<json>"
|}.

(** A notes directory with one note, and two runs of [create_note]: one
    whose UUID shares its first eight characters with that note's, one
    whose UUID does not. *)
Definition groceries : pyval :=
  PDict [
    ("id", PStr "deadbeef-1111-4111-8111-111111111111");
    ("title", PStr "Groceries");
    ("content", PStr "milk");
    ("tags", PList [PStr "home"]);
    ("created_at", PStr "2025-01-01T09:00:00");
    ("updated_at", PStr "2025-01-01T09:00:00")
  ].

Definition notes : gmap string NotesServer.file :=
  {[ "groceries_deadbeef.json" := NotesServer.FJson groceries ]}.

Definition fresh_world : NotesServer.World :=
  {| NotesServer.uuid4 := "0a1b2c3d-2222-4222-8222-222222222222";
     NotesServer.now_created := "2025-01-02T10:00:00";
     NotesServer.now_updated := "2025-01-02T10:00:01";
     NotesServer.disk := NotesServer.Written |}.

(** The note "Plan" as [create_note] writes it in the world [w]. *)
Definition plan (w : NotesServer.World) (tags : list pyval) : pyval :=
  NotesServer.note_data w "Plan" "ship it" tags.

(** A server with one tool, [add], and a model that answers every
    conversation with one line of text. *)
Definition add_tool : Protocol.Tool :=
  {| Protocol.name := "add";
     Protocol.description := "Add two numbers";
     Protocol.inputSchema :=
       PDict [
         ("type", PStr "object");
         ("properties", PDict [
            ("a", PDict [("type", PStr "integer")]);
            ("b", PDict [("type", PStr "integer")]) ]);
         ("required", PList [PStr "a"; PStr "b"])
       ] |}.

(** Its notes directory is empty, and a resource read fails in the
    client with the message of the error the handler raises. *)
Definition env : Protocol.Env :=
  {| Protocol.on_open := fun _ => Ret ();
     Protocol.on_initialize := fun _ => Ret ();
     Protocol.on_list_tools := fun _ => Ret [add_tool];
     Protocol.on_list_prompts := fun _ => Ret [];
     Protocol.on_call_tool := fun _ _ _ =>
       Ret {| Protocol.content := [Protocol.TextItem "8"] |};
     Protocol.on_read_resource := fun _ u =>
       match NotesServer.get_notes_resource [] u with
       | Ret _ => Ret {| Protocol.contents := [] |}
       | Raise e => Raise (Exn OtherException (exn_msg e))
       end;
     Protocol.on_model := fun _ _ _ => Ret [Protocol.TextBlock "Hello"] |}.

(** The full client once connected to that server. *)
Definition connected : FullClient.Client :=
  {| FullClient.session := true;
     FullClient.available_tools := [add_tool];
     FullClient.available_prompts := [];
     FullClient.resource_roots := PList [];
     FullClient.chat_history := [] |}.

End Example.

(** * More of the programs *)

(** ** What the filters of the notes server let through *)

Module NotesFilters.


(** The characters of a plain file name: letters, digits, [_], [-] and
    [.]. *)
Definition plain_char (c : ascii) : bool :=
  (NotesServer.is_word c || Ascii.eqb c "-"%char || Ascii.eqb c "."%char)%bool.

Fixpoint all_chars (P : ascii -> bool) (s : string) : bool :=
  match s with
  | EmptyString => true
  | String c r => (P c && all_chars P r)%bool
  end.

End NotesFilters.

(** ** What a trace shows *)

Module Observations.
Import Protocol.

(** The requests of a trace, in the order they were sent. *)
Definition requests (h : list event) : list request :=
  omap (fun ev => match ev with Sent r => Some r | _ => None end) h.

Definition is_call_tool (ev : event) : bool :=
  match ev with Sent (CallTool _ _) => true | _ => false end.
Definition is_model_call (ev : event) : bool :=
  match ev with ModelCall _ _ => true | _ => false end.
Definition is_tool_use (b : Block) : bool :=
  match b with ToolUse _ _ _ => true | _ => false end.

(** The number of events of a trace, or of blocks of a reply, of one
    kind. *)
Definition count {A} (f : A -> bool) (l : list A) : nat :=
  length (List.filter f l).

(** [counted f n m]: whatever it starts from, [m] appends at most [n]
    events of the kind [f]. *)
Definition counted {C A} (f : event -> bool) (n : nat) (m : M C A) : Prop :=
  forall s, exists evs, (m s).2.2 = (s.2 ++ evs)%list /\ (count f evs <= n)%nat.

(** A schema that gives [execute_tool] no properties to convert by: it is
    empty (or [None]), or has no ["properties"] entry. *)
Definition has_no_properties (schema : pyval) : Prop :=
  truthy schema = false \/ py_in (PStr "properties") schema = Ret false.

(** The user message [process_query] starts from. *)
Definition user_message (query : string) : Message :=
  {| role := "user"; parts := [PText query] |}.

(** What the result loop of [execute_tool] adds to the text for one
    content item, and for a list of them. *)
Definition item_text `{Builtins} (item : ContentItem) : string :=
  match item with
  | TextItem t => t
  | DataItem (PStr d) => d
  | DataItem d => json_dumps (Some 2%nat) d
  | OtherItem => ""
  end.
Definition items_text `{Builtins} (items : list ContentItem) : string :=
  fold_right (fun item rest => item_text item ++ rest) "" items.

(** What one query leaves of the client object that held [c]: the other
    fields, and a chat history that starts with the one of [c] followed
    by the user message of the query. *)
Definition extends (c : FullClient.Client) (query : string)
    (c' : FullClient.Client) : Prop :=
  (exists msgs,
     FullClient.chat_history c'
     = (FullClient.chat_history c ++ user_message query :: msgs)%list) /\
  FullClient.session c' = FullClient.session c /\
  FullClient.available_tools c' = FullClient.available_tools c /\
  FullClient.available_prompts c' = FullClient.available_prompts c /\
  FullClient.resource_roots c' = FullClient.resource_roots c.

(** Nothing is sent. *)
Definition silent (ev : event) : Prop := forall r, ev <> Sent r.

(** What the discovery of the roots may change of a client object. *)
Definition same_but_roots (c c' : FullClient.Client) : Prop :=
  FullClient.session c' = FullClient.session c /\
  FullClient.available_tools c' = FullClient.available_tools c /\
  FullClient.available_prompts c' = FullClient.available_prompts c /\
  FullClient.chat_history c' = FullClient.chat_history c.

(** The body of the loop of the basic client's [process_query] over the
    first reply. *)
Definition basic_block `{Builtins} (env : Env)
    (available_tools : list ModelTool) (b : Block)
    : M BasicClient.Client unit :=
  match b with
  | TextBlock t =>
      bind (modify (BasicClient.append_text t))
           (fun _ => modify (BasicClient.append_content (PText t)))
  | ToolUse tool_id tool_name tool_args =>
      BasicClient.use_tool env available_tools tool_id tool_name tool_args
  | OtherBlock => ret ()
  end.

End Observations.

(** ** More examples *)

Module Samples.
Import Protocol.

(** A tool that declares no schema. *)
Definition echo_tool : Tool :=
  {| name := "echo"; description := "Echo the arguments";
     inputSchema := PDict [] |}.

(** The full client connected to a server with that tool, and the full
    client that knows the tool [add] but has no session. *)
Definition echo_client : FullClient.Client :=
  {| FullClient.session := true;
     FullClient.available_tools := [echo_tool];
     FullClient.available_prompts := [];
     FullClient.resource_roots := PList [];
     FullClient.chat_history := [] |}.

Definition offline_client : FullClient.Client :=
  {| FullClient.session := false;
     FullClient.available_tools := [Example.add_tool];
     FullClient.available_prompts := [];
     FullClient.resource_roots := PList [];
     FullClient.chat_history := [] |}.

(** What the server of [echo_env] answers to every call. *)
Definition echo_result : CallToolResult :=
  {| content := [TextItem "a"; DataItem (PStr "b")] |}.

(** A server with the tool [echo], and a model that asks for a tool the
    server never listed. *)
Definition echo_env : Env :=
  {| on_open := fun _ => Ret ();
     on_initialize := fun _ => Ret ();
     on_list_tools := fun _ => Ret [echo_tool];
     on_list_prompts := fun _ => Ret [];
     on_call_tool := fun _ _ _ => Ret echo_result;
     on_read_resource := Protocol.on_read_resource Example.env;
     on_model := fun _ _ _ => Ret [ToolUse "t1" "undeclared" [("x", PStr "1")]] |}.

(** A server whose tools fail, and a model that fails. *)
Definition closed : exn := Exn RuntimeError "connection closed".
Definition overloaded : exn := Exn OtherException "overloaded".
Definition failing_env : Env :=
  {| on_open := fun _ => Ret ();
     on_initialize := fun _ => Ret ();
     on_list_tools := fun _ => Ret [echo_tool];
     on_list_prompts := fun _ => Ret [];
     on_call_tool := fun _ _ _ => Raise closed;
     on_read_resource := Protocol.on_read_resource Example.env;
     on_model := fun _ _ _ => Raise overloaded |}.

End Samples.

(** ** The research tools of the notes server
    ([search_web] and [fetch_webpage_content] of [server.py]) *)

#[local] Set Warnings "-abstract-large-number".

Module WebTools.
Import NotesServer.

(** The entry [search_web] appends for [i] of [range(max_results)]. *)
Definition search_result (query : string) (i : nat) : pyval :=
  let n := pretty (Z.of_nat i + 1) in
  PDict [
    ("title", PStr ("Result " ++ n ++ " for '" ++ query ++ "'"));
    ("url", PStr ("https://example.com/result-" ++ n));
    ("snippet", PStr ("This is a snippet of the search result " ++ n
                      ++ " for your query about " ++ query ++ "..."))
  ].

(** [async def search_web(query: str, max_results: int = 5) -> dict];
    [now] is [datetime.now().isoformat()]. *)
Definition search_web (now : string) (query : string) (max_results : option Z)
    : pyval :=
  let max_results := default 5 max_results in
  let results := map (search_result query) (seq 0 (Z.to_nat max_results)) in
  PDict [
    ("success", PBool true);
    ("results", PList results);
    ("query", PStr query);
    ("timestamp", PStr now)
  ].

(** What [requests.get] and [BeautifulSoup] give for a page: the string
    of its [title] tag when it has such a tag ([None] when the tag holds
    no single string), and the texts of its [p] tags. *)
Record Soup : Type := { soup_title : option pyval; paragraphs : list string }.

Definition simulated_content (url : string) : string :=
  "This is simulated content for " ++ url
  ++ ". In a real implementation, this would fetch and extract the main content from the actual webpage.".

(** [for paragraph in soup.find_all('p'): main_content +=
    paragraph.get_text() + "\n\n"] *)
Definition main_content (ps : list string) : string :=
  fold_left (fun acc p => acc ++ p ++ nl ++ nl) ps "".

(** [async def fetch_webpage_content(url: str) -> dict]; [fetch] is the
    request and its parsing, which may raise. *)
Definition fetch_webpage_content (fetch : string -> py Soup) (now : string)
    (url : string) : pyval :=
  if str_contains "example.com" url then
    PDict [
      ("success", PBool true);
      ("title", PStr ("Example Page for " ++ url));
      ("content", PStr (simulated_content url));
      ("url", PStr url);
      ("timestamp", PStr now)
    ]
  else
    match fetch url with
    | Ret soup =>
        let title := match soup_title soup with
                     | Some t => t
                     | None => PStr "No title found"
                     end in
        PDict [
          ("success", PBool true);
          ("title", title);
          ("content", PStr (str_take 10000 (main_content (paragraphs soup))));
          ("url", PStr url);
          ("timestamp", PStr now)
        ]
    | Raise e =>
        PDict [("success", PBool false); ("error", PStr (exn_msg e));
               ("url", PStr url)]
    end.

End WebTools.

(** ** The documents of the notes server
    ([generate_markdown_doc] and [get_documents_resource] of [server.py]) *)

Module DocumentsServer.
Import NotesServer.

(** A file of [DOCUMENTS_DIR]: what reading it gives, and its
    modification time as [isoformat()] prints it. *)
Inductive doc_text : Type :=
| Readable (s : string)
| Unreadable (msg : string).
Record doc_file : Type := { text_of : doc_text; mtime : string }.

Abbreviation documents_dir := (gmap string doc_file).

(** [DOCUMENTS_DIR.glob("*.md")] in the order the operating system
    chooses. *)
Definition is_glob_md (fs : documents_dir) (listing : list (string * doc_file))
    : Prop :=
  listing ≡ₚ filter (fun e => Is_true (endswith e.1 ".md")) (map_to_list fs).

(** What the UUID generator, the clock, the disk and the [markdown]
    package do during one call of [generate_markdown_doc]. *)
Record DocWorld : Type := {
  doc_uuid4 : string;
  doc_now : string;          (* [datetime.now().strftime('%Y-%m-%d %H:%M')] *)
  doc_mtime : string;
  md_disk : write_outcome;
  html_disk : write_outcome;
  to_html : string -> string (* [markdown.markdown] *)
}.

(** [with open(path, 'w') as f: f.write(text)] *)
Definition write_text (outcome : write_outcome) (at_time : string)
    (fs : documents_dir) (name text : string) : py unit * documents_dir :=
  match outcome with
  | Written =>
      (Ret (), <[name := {| text_of := Readable text; mtime := at_time |}]> fs)
  | OpenError msg => (raise OSError msg, fs)
  | DumpError msg partial =>
      (raise OSError msg,
       <[name := {| text_of := Readable partial; mtime := at_time |}]> fs)
  end.

Section WithBuiltins.
Context `{Builtins}.

(** [for i, section in enumerate(sections): ...], from index [i] on. *)
Fixpoint sections_text (i : nat) (sections : list pyval) : string :=
  match sections with
  | [] => ""
  | section :: rest =>
      "## " ++ py_str section ++ nl ++ nl
      ++ "Content for section " ++ pretty (Z.of_nat i + 1) ++ ": "
      ++ py_str section ++ ". Replace this with actual content." ++ nl ++ nl
      ++ sections_text (S i) rest
  end.

Definition markdown_content (w : DocWorld) (title : string)
    (sections : list pyval) : string :=
  "# " ++ title ++ nl ++ nl
  ++ "*Generated on " ++ doc_now w ++ "*" ++ nl ++ nl
  ++ sections_text 0 sections
  ++ "---" ++ nl
  ++ "*This document was generated by the Personal Knowledge Assistant.*".

(** [f"{safe_title}_{doc_id[:8]}"], the stem of both files. *)
Definition document_stem (title doc_id : string) : string :=
  sub_unsafe (lower title) ++ "_" ++ str_take 8 doc_id.

(** [async def generate_markdown_doc(title: str, sections: list,
    content_type: str = "article") -> dict]: the dict returned and the
    directory afterwards. *)
Definition generate_markdown_doc (w : DocWorld) (fs : documents_dir)
    (title : string) (sections : list pyval) (content_type : option string)
    : pyval * documents_dir :=
  let doc_id := doc_uuid4 w in
  let text := markdown_content w title sections in
  let md_name := document_stem title doc_id ++ ".md" in
  let '(written, fs1) := write_text (md_disk w) (doc_mtime w) fs md_name text in
  match written with
  | Raise e => (failure e, fs1)
  | Ret _ =>
      let html_content := to_html w text in
      let html_name := document_stem title doc_id ++ ".html" in
      let '(written', fs2) :=
        write_text (html_disk w) (doc_mtime w) fs1 html_name
          ("<!DOCTYPE html><html><head><title>" ++ title
           ++ "</title></head><body>" ++ html_content ++ "</body></html>") in
      match written' with
      | Raise e => (failure e, fs2)
      | Ret _ =>
          (PDict [
             ("success", PBool true);
             ("doc_id", PStr doc_id);
             ("title", PStr title);
             ("content", PStr text);
             ("markdown_path", PStr ("data/documents/" ++ md_name));
             ("html_path", PStr ("data/documents/" ++ html_name));
             ("message", PStr ("Document '" ++ title
                               ++ "' generated successfully!"))
           ], fs2)
      end
  end.

(** [f.readline()]: up to the first newline, which it includes. *)
Fixpoint readline (s : string) : string :=
  match s with
  | EmptyString => EmptyString
  | String c r =>
      if Ascii.eqb c "010"%char then String c EmptyString
      else String c (readline r)
  end.

(** [s.lstrip(chars)] *)
Fixpoint lstrip_chars (chars : string) (s : string) : string :=
  match s with
  | EmptyString => EmptyString
  | String c r => if lacks c chars then s else lstrip_chars chars r
  end.

(** [l[-1]] *)
Definition last_item (l : list string) : py string :=
  match last l with
  | Some x => Ret x
  | None => raise IndexError "list index out of range"
  end.

(** The loop body of the [documents:list] branch. *)
Definition docs_list_step (e : string * doc_file) : py (option pyval) :=
  match text_of e.2 with
  | Unreadable msg => raise OSError msg
  | Readable s =>
      let first_line := strip (readline s) in
      let title := lstrip_chars "# " first_line in
      id ← last_item (split (stem e.1) "_");
      Ret (Some (PDict [
        ("id", PStr id);
        ("title", PStr title);
        ("path", PStr ("data/documents/" ++ e.1));
        ("updated_at", PStr (mtime e.2))
      ]))
  end.

(** [for doc_file in DOCUMENTS_DIR.glob("*.md"): try: ... except
    Exception: continue] *)
Fixpoint collect_docs (listing : list (string * doc_file)) : list pyval :=
  match listing with
  | [] => []
  | e :: rest =>
      match docs_list_step e with
      | Ret (Some r) => r :: collect_docs rest
      | Ret None | Raise _ => collect_docs rest
      end
  end.

(** The loop body of the [documents:id:] branch: for a file whose stem
    contains [doc_id], what the [return] inside the loop gives, the one
    of the [try] block or the one of its handler. *)
Definition doc_id_step (u doc_id : string) (e : string * doc_file)
    : option (py ResourceReadResponse) :=
  if str_contains doc_id (stem e.1) then
    Some
      (try_except
         (content ← match text_of e.2 with
                    | Readable content => Ret content
                    | Unreadable msg => raise OSError msg
                    end;
          new_response u (PStr (stem e.1))
            [ {| type := "text/markdown"; data := Text content |} ] false)
         (fun err =>
            new_response u (PStr "Error Reading Document")
              [ {| type := "text/plain";
                   data := Text ("Error reading document: " ++ exn_msg err) |} ]
              true))
  else None.

Fixpoint first_doc
    (step : string * doc_file -> option (py ResourceReadResponse))
    (listing : list (string * doc_file)) : option (py ResourceReadResponse) :=
  match listing with
  | [] => None
  | e :: rest =>
      match step e with
      | Some r => Some r
      | None => first_doc step rest
      end
  end.

(** The [try] block of [get_documents_resource]. *)
Definition get_documents_resource_body (listing : list (string * doc_file))
    (u : string) : py ResourceReadResponse :=
  if String.eqb u "documents:list" then
    new_response u (PStr "All Documents")
      [ {| type := "application/json";
           data := JsonDump (PList (collect_docs listing)) |} ]
      false
  else if startswith u "documents:id:" then
    doc_id ← list_item (split u "documents:id:") 1;
    match first_doc (doc_id_step u doc_id) listing with
    | Some r => r
    | None =>
        new_response u (PStr "Document Not Found")
          [ {| type := "text/plain";
               data := Text ("Document with ID " ++ doc_id ++ " not found.") |} ]
          true
    end
  else
    new_response u (PStr "Unknown Resource")
      [ {| type := "text/plain";
           data := Text "Unknown resource URI pattern. Valid patterns are: documents:list, documents:id:<id>" |} ]
      true.

(** [async def get_documents_resource(uri: str)] *)
Definition get_documents_resource (listing : list (string * doc_file))
    (u : string) : py ResourceReadResponse :=
  try_except (get_documents_resource_body listing u) (fun e =>
    new_response u (PStr "Error")
      [ {| type := "text/plain"; data := Text ("Error: " ++ exn_msg e) |} ]
      true).

End WithBuiltins.

End DocumentsServer.

(** A documents directory with one document, and a run of
    [generate_markdown_doc] next to it. *)
Module DocSamples.
Import DocumentsServer.

Definition world : DocWorld :=
  {| doc_uuid4 := "0a1b2c3d-2222-4222-8222-222222222222";
     doc_now := "2025-01-02 10:00";
     doc_mtime := "2025-01-02T10:00:01";
     md_disk := NotesServer.Written;
     html_disk := NotesServer.Written;
     to_html := fun text => "<p>" ++ text ++ "</p>" |}.

(** The same call on a disk that refuses the second file. *)
Definition full_disk_world : DocWorld :=
  {| doc_uuid4 := "0a1b2c3d-2222-4222-8222-222222222222";
     doc_now := "2025-01-02 10:00";
     doc_mtime := "2025-01-02T10:00:01";
     md_disk := NotesServer.Written;
     html_disk := NotesServer.OpenError "No space left on device";
     to_html := fun text => "<p>" ++ text ++ "</p>" |}.

Definition guide : doc_file :=
  {| text_of := Readable "# Guide"; mtime := "2025-01-01T09:00:00" |}.

Definition documents : documents_dir := {[ "guide_deadbeef.md" := guide ]}.

(** The Markdown file of the document "Plan" with the one section
    "Goals", as [generate_markdown_doc] writes it in [world]. *)
Definition plan : doc_file :=
  {| text_of :=
       Readable (markdown_content (H := Example.builtins) world "Plan"
                   [PStr "Goals"]);
     mtime := "2025-01-02T10:00:01" |}.

End DocSamples.

(** ** The other prompts of the notes server
    ([summarize_prompt] and [structured_analysis_prompt] of [server.py]) *)

Module Prompts.
Import NotesServer.

(** [d.get(key, default)] on a dict with string values. *)
Definition dict_get (key : string) (d : list (string * string))
    (fallback : string) : string :=
  match assoc key d with Some v => v | None => fallback end.

Definition length_guide : list (string * string) :=
  [("short", "1-2 sentences");
   ("medium", "a paragraph");
   ("long", "multiple paragraphs with headings")].

(** The f-string of [summarize_prompt]. *)
Definition summarize_template (context target : string) : string :=
  "## Summarization Task" ++ nl ++ nl
  ++ "You are tasked with creating a clear and informative summary of the following content:"
  ++ nl ++ nl
  ++ "```content" ++ nl
  ++ context ++ nl
  ++ "```" ++ nl ++ nl
  ++ "### Instructions:" ++ nl
  ++ "- Create a summary that is approximately " ++ target ++ " in length" ++ nl
  ++ "- Capture the most important information and key points" ++ nl
  ++ "- Maintain the original meaning and intent" ++ nl
  ++ "- Use clear, concise language" ++ nl
  ++ "- Do not include your own opinions or additional information" ++ nl ++ nl
  ++ "Please provide only the summary in your response, without explanations or meta-commentary."
  ++ nl.

(** [async def summarize_prompt(context: str, target_length: str =
    "medium")]; [length_guide["medium"]] is ["a paragraph"]. *)
Definition summarize_prompt (context : string) (target_length : option string)
    : GetPromptResult :=
  let target_length := default "medium" target_length in
  let target := dict_get target_length length_guide "a paragraph" in
  {| description := "Summarize content to " ++ target_length ++ " length";
     messages := [ {| role := "user";
                      text := summarize_template context target |} ] |}.

Definition analysis_instructions : list (string * string) :=
  [("general",
    "Analyze the main themes, arguments, and notable elements of the text.");
   ("academic",
    "Conduct a scholarly analysis focusing on methodology, theoretical frameworks, and evidence quality.");
   ("business",
    "Analyze business implications, market insights, and strategic recommendations.")].

Definition summary_line : string := "- Begin with a brief summary of the text".

(** The f-string of [structured_analysis_prompt]. *)
Definition analysis_template (body analysis_type instruction summary_section
    : string) : string :=
  "## Structured Analysis" ++ nl ++ nl
  ++ "Perform a " ++ analysis_type ++ " analysis of the following text:"
  ++ nl ++ nl
  ++ "```" ++ nl
  ++ body ++ nl
  ++ "```" ++ nl ++ nl
  ++ "### Analysis Instructions:" ++ nl
  ++ instruction ++ nl ++ nl
  ++ "### Your response should include:" ++ nl
  ++ summary_section ++ "- Key insights and findings" ++ nl
  ++ "- Critical evaluation of main points" ++ nl
  ++ "- Identification of strengths and weaknesses" ++ nl
  ++ "- Contextual significance" ++ nl
  ++ "- Organize your analysis with clear headings and structure" ++ nl ++ nl
  ++ "Provide a thorough, objective analysis that offers meaningful insights."
  ++ nl.

(** [async def structured_analysis_prompt(text: str, analysis_type: str =
    "general", include_summary: bool = True)];
    [analysis_instructions["general"]] is the first entry. *)
Definition structured_analysis_prompt (body : string)
    (analysis_type : option string) (include_summary : option bool)
    : GetPromptResult :=
  let analysis_type := default "general" analysis_type in
  let include_summary := default true include_summary in
  let instruction :=
    dict_get analysis_type analysis_instructions
      "Analyze the main themes, arguments, and notable elements of the text." in
  let summary_section :=
    if include_summary : bool then summary_line ++ nl else "" in
  {| description := "Perform a structured " ++ analysis_type
                    ++ " analysis of text";
     messages := [ {| role := "user";
                      text := analysis_template body analysis_type instruction
                                summary_section |} ] |}.

End Prompts.

(** ** The math client
    ([mcp-clients/sse/python/uv-simple-math-client/math_client.py]) *)

Module MathClient.
Import Protocol.
Local Open Scope client_scope.

(** [self.session], set or not. *)
Record Client : Type := { session : bool }.

(** [s.split()]: the pieces between runs of white space; [cur] is the
    piece being read, reversed. *)
Fixpoint split_ws_go (cur : string) (s : string) : list string :=
  match s with
  | EmptyString =>
      match cur with
      | EmptyString => []
      | _ => [rev_string EmptyString cur]
      end
  | String c r =>
      if is_space c then
        match cur with
        | EmptyString => split_ws_go EmptyString r
        | _ => rev_string EmptyString cur :: split_ws_go EmptyString r
        end
      else split_ws_go (String c cur) r
  end.
Definition split_ws (s : string) : list string := split_ws_go EmptyString s.

Definition operations : list string :=
  ["add"; "subtract"; "multiply"; "divide"].

Section WithEnv.
Context `{Builtins} (env : Env).
(** [str] of the content of a result, as [print(f"Result: {result}")]
    shows it. *)
Context (show : list ContentItem -> string).

(** [async def connect_to_server(self, server_url: str)] *)
Definition connect_to_server (server_url : string) : M Client unit :=
  print ("Connecting to server at " ++ server_url ++ "...");;
  send Open (on_open env);;
  modify (fun _ => {| session := true |});;
  send Initialize (on_initialize env);;
  tools <- send ListTools (on_list_tools env);;
  print (NotesServer.nl ++ "Connected to server with tools: "
         ++ py_str (PList (map (fun tool => PStr (name tool)) tools)));;
  for_each tools (fun tool =>
    print ("  - " ++ name tool ++ ": " ++ description tool)).

(** [async def call_math_tool(self, tool_name: str, a: float, b: float)] *)
Definition call_math_tool (tool_name : string) (a b : float)
    : M Client (option (list ContentItem)) :=
  c <- get;;
  if negb (session c) then
    print "Error: Not connected to server";; ret None
  else
    try_catch
      (result <- send (CallTool tool_name [("a", PFloat a); ("b", PFloat b)])
                      (fun h => on_call_tool env h tool_name
                                  [("a", PFloat a); ("b", PFloat b)]);;
       ret (Some (content result)))
      (fun e =>
         print ("Error calling " ++ tool_name ++ ": " ++ exn_msg e);;
         ret None).

(** The body of the loop of [chat_loop] for one line read: [true] when
    the loop ends with [break]. *)
Definition one_command (line : string) : M Client bool :=
  try_catch
    (let command := strip line in
     if String.eqb (lower command) "quit" then ret true
     else
       match split_ws command with
       | [operation; a_str; b_str] =>
           numbers <-
             try_catch_only [ValueError]
               (a <- lift (py_float (PStr a_str));;
                b <- lift (py_float (PStr b_str));;
                ret (Some (a, b)))
               (fun _ =>
                  print "Numbers must be valid integers or floats";;
                  ret None);;
           match numbers with
           | None => ret false
           | Some (a, b) =>
               if negb (existsb (String.eqb operation) operations) then
                 print "Unknown operation. Available: add, subtract, multiply, divide";;
                 ret false
               else
                 result <- call_math_tool operation a b;;
                 match result with
                 | Some items => print ("Result: " ++ show items);; ret false
                 | None => ret false
                 end
           end
       | _ =>
           print "Invalid format. Use: <operation> <number1> <number2>";;
           ret false
       end)
    (fun e => print ("Error: " ++ exn_msg e);; ret false).

(** The loop of [chat_loop] on the lines the user types; at the end of
    the input [input()] raises [EOFError], which [except Exception]
    catches.  [fuel] bounds the number of iterations: [None] when it runs
    out before the loop ends.  The prompt of [input] is not recorded. *)
Fixpoint loop (fuel : nat) (lines : list string) : M Client (option unit) :=
  match fuel with
  | O => ret None
  | S fuel' =>
      match lines with
      | [] =>
          print ("Error: " ++ "EOF when reading a line");;
          loop fuel' []
      | line :: rest =>
          stop <- one_command line;;
          if stop : bool then ret (Some ()) else loop fuel' rest
      end
  end.

(** [async def chat_loop(self)] *)
Definition chat_loop (fuel : nat) (lines : list string)
    : M Client (option unit) :=
  print (NotesServer.nl ++ "Simple Math Client Started!");;
  print "Format: <operation> <number1> <number2>";;
  print "Available operations: add, subtract, multiply, divide";;
  print "Example: add 5 3";;
  print "Type 'quit' to exit.";;
  loop fuel lines.

(** What a session sends, read off the lines typed.  A line asks for a
    call when it is made of three words, the second and the third of
    which [float] accepts, and the first is one of the four operations. *)
Definition command_call (line : string) : option request :=
  match split_ws (strip line) with
  | [operation; a_str; b_str] =>
      match py_float (PStr a_str), py_float (PStr b_str) with
      | Ret a, Ret b =>
          if existsb (String.eqb operation) operations
          then Some (CallTool operation [("a", PFloat a); ("b", PFloat b)])
          else None
      | _, _ => None
      end
  | _ => None
  end.

(** The lines the loop works on in [fuel] iterations: those before the
    first [quit]. *)
Fixpoint entered (fuel : nat) (lines : list string) : list string :=
  match fuel, lines with
  | S fuel', line :: rest =>
      if String.eqb (lower (strip line)) "quit" then []
      else line :: entered fuel' rest
  | _, _ => []
  end.

End WithEnv.

(** A request the math client may send: one of the four operations on two
    floats named [a] and [b]. *)
Definition math_call (ev : event) : Prop :=
  forall r, ev = Sent r ->
    exists op a b,
      r = CallTool op [("a", PFloat a); ("b", PFloat b)] /\ op ∈ operations.

End MathClient.

(** ** The universal client: connecting
    ([load_config] and [connect_to_servers] of
    [mcp-clients/stdio/python/uv-python-universal-json-client/client.py]) *)

Module UniversalClient.
Import Protocol.

(** What this client does that can be observed: a request to one of its
    servers, a line printed. *)
Inductive uevent : Type :=
| ToServer (server_name : string) (r : request)
| Shown (text : string).

(** The servers: whether [StdioServerParameters(command=..., args=...,
    env=...)] accepts its arguments, and what each server answers when
    its transport and session are opened, when it is initialised and when
    its tools are listed. *)
Record Servers : Type := {
  parameters : pyval -> pyval -> pyval -> py unit;
  starts : list uevent -> string -> py unit;
  initializes : list uevent -> string -> py unit;
  lists : list uevent -> string -> py (list Tool)
}.

(** The keys of [self.sessions], in the order of insertion. *)
Record Client : Type := { sessions : list string }.

(** [self.sessions[server_name] = session] *)
Definition add_session (server_name : string) (c : Client) : Client :=
  {| sessions := if existsb (String.eqb server_name) (sessions c)
                 then sessions c else (sessions c ++ [server_name])%list |}.

(** The computations of this client: as [Protocol.M], over its own
    events. *)
Definition U (A : Type) : Type :=
  Client * list uevent -> py A * (Client * list uevent).

Definition unit_ {A} (a : A) : U A := fun s => (Ret a, s).
Definition then_ {A B} (m : U A) (k : A -> U B) : U B :=
  fun s => match m s with
           | (Ret a, s') => k a s'
           | (Raise e, s') => (Raise e, s')
           end.
Definition of_py {A} (m : py A) : U A := fun s => (m, s).
Definition shows (text : string) : U unit :=
  fun s => (Ret (), (s.1, (s.2 ++ [Shown text])%list)).
Definition asks {A} (server_name : string) (r : request)
    (answer : list uevent -> py A) : U A :=
  fun s => (answer s.2, (s.1, (s.2 ++ [ToServer server_name r])%list)).
Definition update (f : Client -> Client) : U unit :=
  fun s => (Ret (), (f s.1, s.2)).
(** [try: body / except Exception as e: handler e] *)
Definition attempt {A} (body : U A) (handler : exn -> U A) : U A :=
  fun s => match body s with
           | (Ret a, s') => (Ret a, s')
           | (Raise e, s') => handler e s'
           end.
Fixpoint each {A} (l : list A) (body : A -> U unit) : U unit :=
  match l with
  | [] => unit_ ()
  | x :: rest => then_ (body x) (fun _ => each rest body)
  end.

Local Notation "x <~ m ;; k" := (then_ m (fun x => k))
  (at level 100, m at next level, right associativity).
Local Notation "m ;;; k" := (then_ m (fun _ => k))
  (at level 100, right associativity).

(** [d.items()] *)
Definition py_items (v : pyval) : py (list (string * pyval)) :=
  match v with
  | PDict d => Ret d
  | _ => no_attribute v "items"
  end.

(** How a call of [connect_to_servers] ends: it returns, or the process
    exits in [load_config]. *)
Inductive outcome : Type :=
| Returned (success : bool)
| Exited.

Section WithServers.
Context (sv : Servers).

(** [def load_config(self, config_path: str)]; [file] is what opening
    and parsing the file gives, and [None] stands for [sys.exit(1)]. *)
Definition load_config (file : py pyval) : U (option pyval) :=
  match file with
  | Ret config => unit_ (Some config)
  | Raise e =>
      shows ("Error loading configuration file: " ++ exn_msg e);;;
      unit_ None
  end.

(** The [try] block of the loop of [connect_to_servers] for one server. *)
Definition connect_one (server_name : string) (server_config : pyval)
    : U unit :=
  command <~ of_py (get_method server_config "command" (PStr ""));;
  args <~ of_py (get_method server_config "args" (PList []));;
  env <~ of_py (get_method server_config "env" (PDict []));;
  of_py (parameters sv command args env);;;
  shows ("Connecting to MCP server: " ++ server_name);;;
  asks server_name Open (fun h => starts sv h server_name);;;
  asks server_name Initialize (fun h => initializes sv h server_name);;;
  update (add_session server_name);;;
  tools <~ asks server_name ListTools (fun h => lists sv h server_name);;
  match tools with
  | [] => shows ("Warning: No tools available from server '" ++ server_name
                 ++ "'.")
  | _ =>
      shows (NotesServer.nl ++ "Connected to server '" ++ server_name
             ++ "' with tools:");;;
      each tools (fun tool =>
        shows ("  - " ++ name tool ++ ": " ++ description tool))
  end.

(** [for server_name, server_config in config['mcpServers'].items():
    try: ...; success = True / except Exception as e: ...] *)
Fixpoint connect_each (items : list (string * pyval)) (success : bool)
    : U bool :=
  match items with
  | [] => unit_ success
  | (server_name, server_config) :: rest =>
      connected <~
        attempt
          (connect_one server_name server_config;;; unit_ true)
          (fun e =>
             shows ("Error connecting to server '" ++ server_name ++ "': "
                    ++ exn_msg e);;;
             unit_ success);;
      connect_each rest connected
  end.

(** [async def connect_to_servers(self, config_path: str) -> bool] *)
Definition connect_to_servers (file : py pyval) : U outcome :=
  attempt
    (loaded <~ load_config file;;
     match loaded with
     | None => unit_ Exited
     | Some config =>
         has <~ of_py (py_in (PStr "mcpServers") config);;
         none <~
           (if has : bool then
              servers <~ of_py (getitem config "mcpServers");;
              unit_ (negb (truthy servers))
            else unit_ true);;
         if none : bool then
           shows "Error: No MCP servers found in configuration.";;;
           unit_ (Returned false)
         else
           servers <~ of_py (getitem config "mcpServers");;
           items <~ of_py (py_items servers);;
           success <~ connect_each items false;;
           unit_ (Returned success)
     end)
    (fun e =>
       shows ("Error connecting to servers: " ++ exn_msg e);;;
       unit_ (Returned false)).

End WithServers.

(** Servers that answer the same whatever happened before: [start_of],
    [init_of] and [tools_of] give the answers by server name. *)
Definition is_ret {A} (m : py A) : bool :=
  match m with Ret _ => true | Raise _ => false end.


(** With such servers: the server [n] completed the handshake; it also
    listed its tools. *)
Definition joined (start_of init_of : string -> py unit) (n : string) : bool :=
  (is_ret (start_of n) && is_ret (init_of n))%bool.
Definition connected (start_of init_of : string -> py unit)
    (tools_of : string -> py (list Tool)) (n : string) : bool :=
  (joined start_of init_of n && is_ret (tools_of n))%bool.

End UniversalClient.

(** Three servers: [weather] cannot be started, [notes] fails when its
    tools are listed, [math] answers; and a configuration that names
    them. *)
Module UniversalSamples.
Import Protocol UniversalClient.

Definition start_of (n : string) : py unit :=
  if String.eqb n "weather" then Raise (Exn OSError "No such file or directory")
  else Ret ().
Definition init_of (n : string) : py unit := Ret ().
Definition tools_of (n : string) : py (list Tool) :=
  if String.eqb n "notes" then Raise (Exn RuntimeError "Connection closed")
  else Ret [Example.add_tool].

Definition servers : Servers :=
  {| parameters := fun _ _ _ => Ret ();
     starts := fun _ n => start_of n;
     initializes := fun _ n => init_of n;
     lists := fun _ n => tools_of n |}.

Definition entries : list (string * pyval) :=
  [("weather", PDict [("command", PStr "node")]);
   ("notes", PDict [("command", PStr "python")]);
   ("math", PDict [("command", PStr "python"); ("args", PList [PStr "math_server.py"])])].

Definition config : list (string * pyval) := [("mcpServers", PDict entries)].

End UniversalSamples.

(** * Properties *)

(** ** The exception monad *)

Lemma bind_ret_inv {A B} (m : py A) (k : A -> py B) (b : B) :
  m ≫= k = Ret b -> exists a, m = Ret a /\ k a = Ret b.
Proof.
  destruct m as [a|e]; cbn; intros Hk; [|discriminate Hk].
  exists a. split; [reflexivity|assumption].
Qed.

Lemma bind_ret {A B} (a : A) (k : A -> py B) : Ret a ≫= k = k a.
Proof. reflexivity. Qed.

(** ** Strings *)

Lemma append_cons (c : ascii) (r t : string) :
  String c r ++ t = String c (r ++ t).
Proof. reflexivity. Qed.

Lemma append_nil (t : string) : "" ++ t = t.
Proof. reflexivity. Qed.

Lemma append_assoc (a b c : string) : (a ++ b) ++ c = a ++ b ++ c.
Proof.
  induction a as [|x r IH]; [reflexivity|].
  rewrite !append_cons, IH. reflexivity.
Qed.

Lemma prefix_app (p t : string) : String.prefix p (p ++ t) = true.
Proof.
  induction p as [|c r IH]; [destruct t; reflexivity|].
  change (String c r ++ t) with (String c (r ++ t)). cbn [String.prefix].
  destruct (ascii_dec c c) as [_|Hne]; [exact IH|contradiction].
Qed.

Lemma length_app_string (a b : string) :
  String.length (a ++ b) = (String.length a + String.length b)%nat.
Proof. induction a as [|c r IH]; simpl; [reflexivity|]. f_equal. exact IH. Qed.

Lemma str_drop_app (a b : string) : str_drop (String.length a) (a ++ b) = b.
Proof. induction a as [|c r IH]; cbn; [reflexivity|exact IH]. Qed.

Lemma endswith_app (a p : string) : endswith (a ++ p) p = true.
Proof.
  unfold endswith. rewrite length_app_string.
  replace (String.length a + String.length p - String.length p)%nat
    with (String.length a) by lia.
  rewrite str_drop_app, String.eqb_refl.
  rewrite andb_true_r. apply Nat.leb_le. lia.
Qed.

Lemma str_contains_prefix (sub s : string) :
  String.prefix sub s = true -> str_contains sub s = true.
Proof. intros Hp. destruct s; cbn [str_contains]; rewrite Hp; reflexivity. Qed.

Lemma str_contains_middle (a c b : string) :
  str_contains c (a ++ c ++ b) = true.
Proof.
  induction a as [|x r IH].
  - change ("" ++ c ++ b) with (c ++ b).
    apply str_contains_prefix. apply prefix_app.
  - change (String x r ++ c ++ b) with (String x (r ++ c ++ b)).
    cbn [str_contains]. rewrite IH. apply orb_true_r.
Qed.

(** ** The dispatcher and the math servers *)

Section DispatcherProperties.
Context `{Builtins}.
Import Dispatcher.

Lemma lookup_math_add :
  math_registry !! "add" = Some (int_tool MathServer.add).
Proof. reflexivity. Qed.

Lemma lookup_math_divide : math_registry !! "divide" = Some divide_tool.
Proof. reflexivity. Qed.

Lemma call_tool_registered (registry : gmap string ToolEntry)
    (name : string) (t : ToolEntry) (args : list (string * pyval)) :
  registry !! name = Some t ->
  exists env, call_tool registry name args = Response env /\
    forall e, handler t args = Raise e -> env = failure_envelope (exn_msg e).
Proof.
  intros Hreg. unfold call_tool. rewrite Hreg.
  destruct (handler t args) as [v|e0]; eexists; split; try reflexivity.
  - intros e He. discriminate He.
  - intros e He. injection He as <-. reflexivity.
Qed.

Lemma divide_by_zero_raises (a b : float) :
  PrimFloat.eqb b 0%float = true ->
  MathServer.divide a b = raise ValueError "Cannot divide by zero".
Proof. intros Hb. unfold MathServer.divide. rewrite Hb. reflexivity. Qed.

Lemma call_divide_by_zero (a b : float) :
  PrimFloat.eqb b 0%float = true ->
  call_tool math_registry "divide" [("a", PFloat a); ("b", PFloat b)]
  = Response (failure_envelope "Cannot divide by zero").
Proof.
  intros Hb. unfold call_tool. rewrite lookup_math_divide.
  cbn [handler divide_tool float_param assoc String.eqb Ascii.eqb Bool.eqb
       mbind py_bind fmap py_fmap].
  rewrite (divide_by_zero_raises a b Hb). reflexivity.
Qed.

Lemma create_note_disk_failure (w : NotesServer.World)
    (fs : gmap string NotesServer.file) (title content : string)
    (tags : option (list pyval)) :
  NotesServer.disk w <> NotesServer.Written ->
  exists msg,
    (NotesServer.create_note w fs title content tags).1
    = PDict [("success", PBool false); ("error", PStr msg)].
Proof.
  intros Hd. unfold NotesServer.create_note, NotesServer.write_json.
  destruct (NotesServer.disk w) as [|msg|msg partial];
    [congruence | exists msg; reflexivity | exists msg; reflexivity].
Qed.

(** C1.  Every handler registered on the dispatcher, called with any
    argument mapping, gives the caller a response envelope; when the
    handler raises, the envelope has its success flag false and carries
    the exception's message.  A call of [divide] with [b == 0] gives the
    failure envelope "Cannot divide by zero".  [create_note] itself turns
    an exception of its body (the disk refusing the write) into the dict
    [{"success": False, "error": ...}]. *)
Theorem tool_exception_gives_failure_envelope :
  (forall (registry : gmap string ToolEntry) (name : string) (t : ToolEntry)
          (args : list (string * pyval)),
     registry !! name = Some t ->
     exists env, call_tool registry name args = Response env /\
       forall e, handler t args = Raise e ->
                 env = failure_envelope (exn_msg e)) /\
  (forall a b : float,
     PrimFloat.eqb b 0%float = true ->
     call_tool math_registry "divide" [("a", PFloat a); ("b", PFloat b)]
     = Response (failure_envelope "Cannot divide by zero")) /\
  (forall (w : NotesServer.World) (fs : gmap string NotesServer.file)
          (title content : string) (tags : option (list pyval)),
     NotesServer.disk w <> NotesServer.Written ->
     exists msg,
       (NotesServer.create_note w fs title content tags).1
       = PDict [("success", PBool false); ("error", PStr msg)]).
Proof.
  split; [|split].
  - apply call_tool_registered.
  - apply call_divide_by_zero.
  - apply create_note_disk_failure.
Qed.

(** C5.  The [add] handlers return [a + b]; the dispatcher, asked for
    [add] with [a] and [b], answers with one text block holding the sum in
    decimal: [8] for [a = 5] and [b = 3], also when the client sends the
    two numbers as floats. *)
Theorem add_request_returns_sum :
  (forall a b : Z, MathServer.add a b = a + b /\ DemoServer.add a b = a + b) /\
  (forall a b : Z,
     call_tool math_registry "add" [("a", PInt a); ("b", PInt b)]
     = Response {| success := true; error := None;
                   content := [TextBlock (pretty (a + b))] |}) /\
  call_tool math_registry "add" [("a", PInt 5); ("b", PInt 3)]
  = Response {| success := true; error := None; content := [TextBlock "8"] |} /\
  call_tool math_registry "add" [("a", PFloat 5); ("b", PFloat 3)]
  = Response {| success := true; error := None; content := [TextBlock "8"] |} /\
  call_tool demo_registry "add" [("a", PInt 5); ("b", PInt 3)]
  = Response {| success := true; error := None; content := [TextBlock "8"] |}.
Proof.
  split; [|split; [|split; [|split]]].
  - intros a b. split; reflexivity.
  - intros a b. unfold call_tool. rewrite lookup_math_add. reflexivity.
  - reflexivity.
  - reflexivity.
  - reflexivity.
Qed.

End DispatcherProperties.

#[local] Existing Instance Example.builtins.

(** C1 at a concrete call: [divide(1.0, 0.0)] on the math server. *)
Lemma tool_exception_gives_failure_envelope_witness :
  PrimFloat.eqb 0%float 0%float = true /\
  Dispatcher.call_tool Dispatcher.math_registry "divide"
    [("a", PFloat 1); ("b", PFloat 0)]
  = Dispatcher.Response (Dispatcher.failure_envelope "Cannot divide by zero").
Proof.
  split; [reflexivity|].
  apply (proj1 (proj2 tool_exception_gives_failure_envelope)).
  reflexivity.
Defined.

(** ** The notes server *)

Section NotesProperties.
Context `{Builtins}.
Import NotesServer.

(** C8.  The number of ideas the [ideastorm] prompt asks for is the
    count clamped to 1..20: 1 for a count below 1, 20 for a count above
    20, the count itself in between; and the text of the prompt's single
    user message asks for that number, in decimal, on the line "Generate
    <n> innovative and thought-provoking ideas related to <topic>.". *)
Theorem ideastorm_count_clamped (topic : string) (perspective : option string)
    (count : Z) :
  let n := clamp_count count in
  1 <= n <= 20 /\
  n = (if count <? 1 then 1 else if 20 <? count then 20 else count) /\
  messages (ideastorm_prompt topic perspective (Some count))
  = [ {| role := "user";
         text :=
           nl ++ "# Creative Idea Storm: " ++ topic ++ nl
           ++ nl
           ++ "## Task" ++ nl
           ++ "Generate " ++ pretty n
           ++ " innovative and thought-provoking ideas related to "
           ++ topic ++ "." ++ nl
           ++ nl
           ++ "## Perspective" ++ nl
           ++ "Consider the " ++ default "general" perspective
           ++ " perspective when generating these ideas." ++ nl
           ++ nl
           ++ "## Format" ++ nl
           ++ "Present each idea as a numbered list item with a brief title and 1-2 sentence explanation." ++ nl
           ++ nl
           ++ "1. [Idea Title]: Brief explanation of the idea." ++ nl
           ++ "2. [Idea Title]: Brief explanation of the idea." ++ nl
           ++ "...etc." ++ nl |} ].
Proof.
  cbv zeta. split; [unfold clamp_count; lia|]. split.
  - unfold clamp_count.
    destruct (Z.ltb_spec count 1); [lia|].
    destruct (Z.ltb_spec 20 count); lia.
  - unfold ideastorm_prompt, ideastorm_template. cbn [messages default join].
    rewrite !append_assoc, !append_nil. reflexivity.
Qed.

(** *** The class the resource handlers build *)

Lemma new_response_raises (u : string) (t : pyval) (c : list Content)
    (e : bool) :
  new_response u t c e = Raise missing_class.
Proof. reflexivity. Qed.

Lemma id_step_no_response (u note_id : string) (e : string * file)
    (r : ResourceReadResponse) :
  id_step u note_id e <> Ret (Some r).
Proof.
  unfold id_step. intros Hstep.
  apply bind_ret_inv in Hstep as (note & _ & Hstep).
  apply bind_ret_inv in Hstep as (i & _ & Hstep).
  destruct (py_eq i (PStr note_id) || endswith (stem e.1) (str_take 8 note_id))%bool;
    discriminate Hstep.
Qed.

Lemma first_match_none {A} (step : string * file -> py (option A))
    (listing : list (string * file)) :
  (forall e r, e ∈ listing -> step e <> Ret (Some r)) ->
  first_match step listing = None.
Proof.
  induction listing as [|e rest IH]; intros Hnone; [reflexivity|].
  cbn [first_match]. destruct (step e) as [[r|]|err] eqn:Hstep.
  - exfalso. exact (Hnone e r (list_elem_of_here _ _) Hstep).
  - apply IH. intros e' r' Hin. apply Hnone. right. exact Hin.
  - apply IH. intros e' r' Hin. apply Hnone. right. exact Hin.
Qed.

Lemma get_notes_resource_body_raises (listing : list (string * file))
    (u : string) :
  exists e, get_notes_resource_body listing u = Raise e.
Proof.
  unfold get_notes_resource_body.
  destruct (String.eqb u "notes:list"); [eexists; apply new_response_raises|].
  destruct (startswith u "notes:id:").
  { destruct (list_item (split u "notes:id:") 1) as [note_id|e];
      [|eexists; reflexivity].
    rewrite bind_ret, first_match_none.
    - eexists. apply new_response_raises.
    - intros e r _. apply id_step_no_response. }
  destruct (startswith u "notes:search:").
  { destruct (list_item (split u "notes:search:") 1) as [q|e];
      [|eexists; reflexivity].
    rewrite bind_ret. eexists. apply new_response_raises. }
  eexists. apply new_response_raises.
Qed.

Lemma get_notes_resource_raises (listing : list (string * file)) (u : string) :
  get_notes_resource listing u = Raise missing_class.
Proof.
  unfold get_notes_resource.
  destruct (get_notes_resource_body_raises listing u) as [e ->].
  reflexivity.
Qed.

(** C9.  The notes resource handler returns no response: on every URI,
    [notes:recent] among them, and in every state of the notes directory
    it raises [AttributeError].  The default branch, like every other
    branch and like the [except] clause that is to catch their failures,
    builds its response from [types.ResourceReadResponse], a name the
    module [mcp.types] does not define. *)
Theorem notes_resource_handler_raises :
  (forall (listing : list (string * file)) (u : string),
     get_notes_resource listing u
     = Raise (Exn AttributeError
                "module 'mcp.types' has no attribute 'ResourceReadResponse'")) /\
  (forall r, get_notes_resource [] "notes:recent" <> Ret r).
Proof.
  split.
  - apply get_notes_resource_raises.
  - intros r. rewrite get_notes_resource_raises. discriminate.
Qed.

Lemma elem_of_collect {A} (step : string * file -> py (option A))
    (listing : list (string * file)) (r : A) :
  r ∈ collect step listing ->
  exists e, e ∈ listing /\ step e = Ret (Some r).
Proof.
  induction listing as [|e rest IH]; cbn [collect]; intros Hin.
  - inversion Hin.
  - destruct (step e) as [[r0|]|err] eqn:Hstep.
    + apply elem_of_cons in Hin as [->|Hin].
      * exists e. split; [left|assumption].
      * destruct (IH Hin) as (e' & He' & Hs). exists e'. split; [right|]; assumption.
    + destruct (IH Hin) as (e' & He' & Hs). exists e'. split; [right|]; assumption.
    + destruct (IH Hin) as (e' & He' & Hs). exists e'. split; [right|]; assumption.
Qed.

Lemma preview_of_spec (note p : pyval) :
  preview_of note = Ret p ->
  exists c, getitem note "content" = Ret c /\ preview_spec c p.
Proof.
  unfold preview_of. intros Hp.
  destruct (getitem note "content") as [c|e] eqn:Hc; [|discriminate Hp].
  exists c. split; [reflexivity|].
  cbn [mbind py_bind] in Hp.
  destruct (py_len c) as [n|e] eqn:Hn; [|discriminate Hp].
  cbn [mbind py_bind] in Hp.
  destruct (Nat.ltb_spec 150 n) as [Hlong|Hshort].
  - destruct c; cbn in Hp; try discriminate Hp.
    cbn in Hn. injection Hn as <-. injection Hp as <-. cbn [preview_spec].
    destruct (Nat.leb_spec (String.length s) 150); [lia|reflexivity].
  - injection Hp as <-. destruct c; cbn [preview_spec]; try reflexivity.
    cbn in Hn. injection Hn as <-.
    destruct (Nat.leb_spec (String.length s) 150); [reflexivity|lia].
Qed.

Lemma find_notes_step_result (query : option string)
    (tags : option (list pyval)) (f : file) (r : pyval) :
  find_notes_step query tags f = Ret (Some r) ->
  exists note id p,
    load_json f = Ret note /\
    getitem note "id" = Ret id /\ getitem r "id" = Ret id /\
    preview_of note = Ret p /\ getitem r "preview" = Ret p.
Proof.
  unfold find_notes_step. intros Hstep.
  apply bind_ret_inv in Hstep as (note & Hload & Hstep).
  apply bind_ret_inv in Hstep as ([|] & _ & Hstep); [discriminate Hstep|].
  apply bind_ret_inv in Hstep as ([|] & _ & Hstep); [discriminate Hstep|].
  apply bind_ret_inv in Hstep as (id & Hid & Hstep).
  apply bind_ret_inv in Hstep as (t & _ & Hstep).
  apply bind_ret_inv in Hstep as (ts & _ & Hstep).
  apply bind_ret_inv in Hstep as (ca & _ & Hstep).
  apply bind_ret_inv in Hstep as (ua & _ & Hstep).
  apply bind_ret_inv in Hstep as (p & Hp & Hstep).
  injection Hstep as <-.
  exists note, id, p. repeat split; assumption || reflexivity.
Qed.

(** C10.  Every entry of the results of [find_notes] comes from a note of
    the directory, and its preview is the note's content when that has at
    most 150 characters, and the first 150 characters followed by "..."
    when it is longer. *)
Theorem find_notes_preview (listing : list (string * file))
    (query : option string) (tags : option (list pyval))
    (rs : list pyval) (r : pyval) :
  getitem (find_notes listing query tags) "results" = Ret (PList rs) ->
  r ∈ rs ->
  exists name f note id c p,
    (name, f) ∈ listing /\ load_json f = Ret note /\
    getitem note "id" = Ret id /\ getitem r "id" = Ret id /\
    getitem note "content" = Ret c /\ getitem r "preview" = Ret p /\
    match c with
    | PStr s =>
        p = PStr (if Nat.leb (String.length s) 150 then s
                  else str_take 150 s ++ "...")
    | _ => p = c
    end.
Proof.
  intros Hres Hin. cbn in Hres. injection Hres as <-.
  apply elem_of_collect in Hin as ([name f] & Hin & Hstep).
  cbn [snd] in Hstep.
  apply find_notes_step_result in Hstep
    as (note & id & p & Hload & Hid & Hrid & Hp & Hrp).
  apply preview_of_spec in Hp as (c & Hc & Hspec).
  exists name, f, note, id, c, p. repeat (split; [assumption|]). exact Hspec.
Qed.

(** *** Creating a note and reading it back *)

Lemma create_note_written (w : World) (fs : gmap string file)
    (title content : string) (tags : option (list pyval)) (id : string) :
  getitem (create_note w fs title content tags).1 "note_id" = Ret (PStr id) ->
  id = uuid4 w /\
  (create_note w fs title content tags).2
  = <[note_file_name title id := FJson (note_data w title content (default [] tags))]> fs.
Proof.
  unfold create_note, write_json, note_file_name.
  destruct (disk w) as [|msg|msg partial]; cbn; intros Hid;
    [|discriminate Hid|discriminate Hid].
  injection Hid as <-. split; [reflexivity|].
  destruct tags; reflexivity.
Qed.

Lemma glob_lookup (fs : gmap string file) (listing : list (string * file))
    (e : string * file) :
  is_glob_json fs listing ->
  e ∈ listing <-> endswith e.1 ".json" = true /\ fs !! e.1 = Some e.2.
Proof.
  unfold is_glob_json. intros ->.
  rewrite list_elem_of_filter, elem_of_map_to_list', Is_true_true. reflexivity.
Qed.

(** C2.  A note that [create_note] has written is not read back: the
    call stores the note, with its title and content, in a file the
    handler's listing of the directory holds, and reading [notes:id:<id>]
    with the identifier returned raises [AttributeError] where the claim
    has a response with the title and the content. *)
Theorem created_note_is_not_read_back (w : World) (fs : gmap string file)
    (T C : string) (tags : option (list pyval)) (id : string)
    (listing : list (string * file)) :
  let created := create_note w fs T C tags in
  getitem created.1 "note_id" = Ret (PStr id) ->
  is_glob_json created.2 listing ->
  (exists name note,
     (name, FJson note) ∈ listing /\
     getitem note "id" = Ret (PStr id) /\
     getitem note "title" = Ret (PStr T) /\
     getitem note "content" = Ret (PStr C)) /\
  get_notes_resource listing ("notes:id:" ++ id)
  = Raise (Exn AttributeError
             "module 'mcp.types' has no attribute 'ResourceReadResponse'").
Proof.
  cbv zeta. intros Hid Hglob. split; [|apply get_notes_resource_raises].
  apply create_note_written in Hid as [-> Hfs]. rewrite Hfs in Hglob.
  exists (note_file_name T (uuid4 w)), (note_data w T C (default [] tags)).
  split; [|split; [|split]; reflexivity].
  apply (glob_lookup _ _ _ Hglob). cbn [fst snd]. split.
  - unfold note_file_name. rewrite <- !append_assoc. apply endswith_app.
  - apply lookup_insert_eq.
Qed.

End NotesProperties.

(** C2 at a concrete run: the note "Plan" is created in an empty
    directory and its identifier is read straight away. *)
Lemma created_note_is_not_read_back_witness :
  (exists name note,
     (name, NotesServer.FJson note)
     ∈ [("plan_0a1b2c3d.json",
         NotesServer.FJson (Example.plan Example.fresh_world [PStr "work"]))] /\
     getitem note "id" = Ret (PStr "0a1b2c3d-2222-4222-8222-222222222222") /\
     getitem note "title" = Ret (PStr "Plan") /\
     getitem note "content" = Ret (PStr "ship it")) /\
  NotesServer.get_notes_resource
    [("plan_0a1b2c3d.json",
      NotesServer.FJson (Example.plan Example.fresh_world [PStr "work"]))]
    "notes:id:0a1b2c3d-2222-4222-8222-222222222222"
  = Raise (Exn AttributeError
             "module 'mcp.types' has no attribute 'ResourceReadResponse'").
Proof.
  apply (created_note_is_not_read_back Example.fresh_world ∅
           "Plan" "ship it" (Some [PStr "work"])
           "0a1b2c3d-2222-4222-8222-222222222222").
  - reflexivity.
  - unfold NotesServer.is_glob_json. vm_compute. reflexivity.
Defined.

(** C10 at a directory of two notes, one of 5 characters and one of 160:
    the entry of the longer one. *)
Lemma find_notes_preview_witness :
  let long := String.concat "" (repeat "0123456789" 16) in
  let note :=
    PDict [("id", PStr "n2"); ("title", PStr "Long"); ("content", PStr long);
           ("tags", PList []); ("created_at", PStr "t0");
           ("updated_at", PStr "t1")] in
  let listing :=
    [ ("groceries_deadbeef.json", NotesServer.FJson Example.groceries);
      ("long_n2.json", NotesServer.FJson note) ] in
  let r :=
    PDict [("id", PStr "n2"); ("title", PStr "Long"); ("tags", PList []);
           ("created_at", PStr "t0"); ("updated_at", PStr "t1");
           ("preview", PStr (str_take 150 long ++ "..."))] in
  exists name f note id c p,
    (name, f) ∈ listing /\ NotesServer.load_json f = Ret note /\
    getitem note "id" = Ret id /\ getitem r "id" = Ret id /\
    getitem note "content" = Ret c /\ getitem r "preview" = Ret p /\
    match c with
    | PStr s =>
        p = PStr (if Nat.leb (String.length s) 150 then s
                  else str_take 150 s ++ "...")
    | _ => p = c
    end.
Proof.
  cbv zeta.
  eapply (find_notes_preview _ None None).
  - vm_compute. reflexivity.
  - right. left.
Defined.

(** ** Client computations: what they emit and what they keep *)

Section Traces.
Import Protocol.
Context {C : Type}.

Context (Inv : C -> Prop) (P : event -> Prop).

Lemma only_silent {A} (m : M C A) :
  (forall s, (m s).2 = s) -> only Inv P m.
Proof.
  intros Hm s Hs. exists []. rewrite Hm, app_nil_r.
  repeat split; [constructor|assumption].
Qed.

Lemma only_ret {A} (a : A) : only Inv P (ret a).
Proof. apply only_silent. reflexivity. Qed.

Lemma only_lift {A} (m : py A) : only Inv P (lift m).
Proof. apply only_silent. reflexivity. Qed.

Lemma only_throw {A} (c : exn_class) (msg : string) :
  only Inv P (throw (A := A) c msg).
Proof. apply only_silent. reflexivity. Qed.

Lemma only_get : only Inv P get.
Proof. apply only_silent. intros [c h]. reflexivity. Qed.

Lemma only_history : only Inv P history.
Proof. apply only_silent. intros [c h]. reflexivity. Qed.

Lemma only_emit (ev : event) : P ev -> only Inv P (emit ev).
Proof.
  intros Hev s Hs. exists [ev]. cbn. repeat split; [|assumption].
  constructor; [assumption|constructor].
Qed.

Lemma only_send {A} (r : request) (answer : list event -> py A) :
  P (Sent r) -> only Inv P (send r answer).
Proof.
  intros Hev s Hs. exists [Sent r]. cbn. repeat split; [|assumption].
  constructor; [assumption|constructor].
Qed.

Lemma only_modify (f : C -> C) :
  (forall c, Inv c -> Inv (f c)) -> only Inv P (modify f).
Proof.
  intros Hf s Hs. exists []. cbn. rewrite app_nil_r.
  repeat split; [constructor|apply Hf; assumption].
Qed.

Lemma only_bind {A B} (m : M C A) (k : A -> M C B) :
  only Inv P m -> (forall a, only Inv P (k a)) -> only Inv P (bind m k).
Proof.
  intros Hm Hk s Hs. unfold bind.
  destruct (Hm s Hs) as (evs & Htr & Hevs & Hc).
  destruct (m s) as [[a|e] s1]; cbn in Htr, Hc.
  - destruct (Hk a s1 Hc) as (evs' & Htr' & Hevs' & Hc').
    exists (evs ++ evs')%list. rewrite Htr', Htr, app_assoc.
    repeat split; [apply Forall_app; split; assumption|assumption].
  - exists evs. cbn. repeat split; assumption.
Qed.

(** Reading the client object: what follows may rely on [Inv]. *)
Lemma only_bind_get {B} (k : C -> M C B) :
  (forall c, Inv c -> only Inv P (k c)) -> only Inv P (bind get k).
Proof. intros Hk [c h] Hs. exact (Hk c Hs (c, h) Hs). Qed.

Lemma only_try_catch {A} (body : M C A) (handler : exn -> M C A) :
  only Inv P body -> (forall e, only Inv P (handler e)) ->
  only Inv P (try_catch body handler).
Proof.
  intros Hm Hk s Hs. unfold try_catch.
  destruct (Hm s Hs) as (evs & Htr & Hevs & Hc).
  destruct (body s) as [[a|e] s1]; cbn in Htr, Hc.
  - exists evs. cbn. repeat split; assumption.
  - destruct (Hk e s1 Hc) as (evs' & Htr' & Hevs' & Hc').
    exists (evs ++ evs')%list. rewrite Htr', Htr, app_assoc.
    repeat split; [apply Forall_app; split; assumption|assumption].
Qed.

Lemma only_try_catch_only {A} (classes : list exn_class) (body : M C A)
    (handler : exn -> M C A) :
  only Inv P body -> (forall e, only Inv P (handler e)) ->
  only Inv P (try_catch_only classes body handler).
Proof.
  intros Hm Hk s Hs. unfold try_catch_only.
  destruct (Hm s Hs) as (evs & Htr & Hevs & Hc).
  destruct (body s) as [[a|e] s1]; cbn in Htr, Hc.
  - exists evs. cbn. repeat split; assumption.
  - destruct (existsb (is_instance (exn_cls e)) classes).
    + destruct (Hk e s1 Hc) as (evs' & Htr' & Hevs' & Hc').
      exists (evs ++ evs')%list. rewrite Htr', Htr, app_assoc.
      repeat split; [apply Forall_app; split; assumption|assumption].
    + exists evs. cbn. repeat split; assumption.
Qed.

Lemma only_for_each {A} (l : list A) (body : A -> M C unit) :
  (forall x, only Inv P (body x)) -> only Inv P (for_each l body).
Proof.
  intros Hbody. induction l as [|x rest IH]; cbn [for_each].
  - apply only_ret.
  - apply only_bind; [apply Hbody|intros _; exact IH].
Qed.

End Traces.

Section Returns.
Import Protocol.
Context {C : Type}.

Lemma returns_ret {A} (a : A) : returns (C := C) (ret a).
Proof. intros s. exists a. reflexivity. Qed.

Lemma returns_emit (ev : event) : returns (C := C) (emit ev).
Proof. intros s. exists (). reflexivity. Qed.

Lemma returns_bind {A B} (m : M C A) (k : A -> M C B) :
  returns m -> (forall a, returns (k a)) -> returns (bind m k).
Proof.
  intros Hm Hk s. unfold bind. destruct (Hm s) as (a & Ha).
  destruct (m s) as [r s1]. cbn in Ha. subst r. apply Hk.
Qed.

Lemma returns_try_catch {A} (body : M C A) (handler : exn -> M C A) :
  (forall e, returns (handler e)) -> returns (try_catch body handler).
Proof.
  intros Hh s. unfold try_catch. destruct (body s) as [[a|e] s1].
  - exists a. reflexivity.
  - apply Hh.
Qed.

End Returns.

(** Steps through a client computation, leaving what each event and each
    update of the client object must satisfy. *)
Ltac only_step :=
  lazymatch goal with
  | |- Protocol.only _ _ (Protocol.bind Protocol.get _) => apply only_bind_get; intros
  | |- Protocol.only _ _ (Protocol.bind _ _) => apply only_bind; [|intros]
  | |- Protocol.only _ _ (Protocol.ret _) => apply only_ret
  | |- Protocol.only _ _ (Protocol.lift _) => apply only_lift
  | |- Protocol.only _ _ (Protocol.throw _ _) => apply only_throw
  | |- Protocol.only _ _ Protocol.get => apply only_get
  | |- Protocol.only _ _ Protocol.history => apply only_history
  | |- Protocol.only _ _ (Protocol.log _ _) => apply only_emit
  | |- Protocol.only _ _ (Protocol.print _) => apply only_emit
  | |- Protocol.only _ _ (Protocol.emit _) => apply only_emit
  | |- Protocol.only _ _ (Protocol.send _ _) => apply only_send
  | |- Protocol.only _ _ (Protocol.modify _) => apply only_modify; intros
  | |- Protocol.only _ _ (Protocol.try_catch _ _) => apply only_try_catch; [|intros]
  | |- Protocol.only _ _ (Protocol.try_catch_only _ _ _) =>
      apply only_try_catch_only; [|intros]
  | |- Protocol.only _ _ (Protocol.for_each _ _) => apply only_for_each; intros
  | |- Protocol.only _ _ (if ?b then _ else _) => destruct b
  | |- Protocol.only _ _ (match ?x with _ => _ end) => destruct x
  | |- Protocol.only _ _ (let '(_, _) := ?x in _) => destruct x
  end.

(** ** The full client *)

Section ExecuteTool.
Import Protocol FullClient.
Context `{Builtins} (env : Env).
Context (Inv : Client -> Prop) (P : event -> Prop).
Context (Hlog : forall l msg, P (Logged l msg)).
Context (Hprint : forall t, P (Printed t)).

Lemma convert_value_only (n : string) (pt v : pyval) :
  only Inv P (convert_value n pt v).
Proof. unfold convert_value. repeat only_step; auto. Qed.

Lemma convert_args_only (properties : pyval) (args : list (string * pyval)) :
  only Inv P (convert_args properties args).
Proof.
  induction args as [|[n v] rest IH]; cbn [convert_args].
  - apply only_ret.
  - repeat only_step; auto using convert_value_only.
Qed.

Lemma find_tool_some (tools : list Tool) (n : string) (t : Tool) :
  find (fun tool => String.eqb (name tool) n) tools = Some t ->
  n ∈ map name tools.
Proof.
  intros Hf. apply find_some in Hf as [Hin Hname].
  apply String.eqb_eq in Hname. subst n.
  apply list_elem_of_In, in_map, Hin.
Qed.

(** [execute_tool] sends nothing but calls of the tool it was asked for,
    and those only when the tool is among [self.available_tools]; it does
    not touch the client object. *)
Lemma execute_tool_only (tool_name : string) (args : list (string * pyval)) :
  (forall c a, Inv c -> tool_name ∈ map name (available_tools c) ->
     P (Sent (CallTool tool_name a))) ->
  only Inv P (execute_tool env tool_name args).
Proof.
  intros Hcall. unfold execute_tool.
  apply only_bind; [apply only_emit, Hlog|intros _].
  apply only_try_catch; [|intros e; repeat only_step; auto].
  apply only_bind_get. intros c Hc.
  destruct (find _ (available_tools c)) as [tool|] eqn:Hfind; [|apply only_throw].
  apply find_tool_some in Hfind.
  repeat only_step; eauto using convert_args_only.
Qed.

Lemma execute_tool_returns (tool_name : string) (args : list (string * pyval)) :
  returns (execute_tool env tool_name args).
Proof.
  unfold execute_tool, log, print.
  apply returns_bind; [apply returns_emit|intros _].
  apply returns_try_catch. intros e.
  repeat (apply returns_bind; [apply returns_emit|intros _]).
  apply returns_ret.
Qed.

End ExecuteTool.

Section UnknownTool.
Import Protocol FullClient.
Context `{Builtins} (env : Env).

Lemma find_tool_none (tools : list Tool) (n : string) :
  n ∉ map name tools ->
  find (fun tool => String.eqb (name tool) n) tools = None.
Proof.
  induction tools as [|t rest IH]; intros Hn; [reflexivity|].
  cbn [find map] in *. apply not_elem_of_cons in Hn as [Hne Hrest].
  destruct (String.eqb_spec (name t) n) as [Heq|_]; [congruence|].
  apply IH, Hrest.
Qed.

Lemma execute_unknown_tool (c : Client) (h : list event) (tool_name : string)
    (tool_args : list (string * pyval)) :
  tool_name ∉ map name (available_tools c) ->
  exists m1 m2 m3,
    execute_tool env tool_name tool_args (c, h)
    = (Ret (not_found_text tool_name),
       (c, (h ++ [Logged INFO m1; Logged ERROR m2; Printed m3])%list)).
Proof.
  intros Hn. unfold execute_tool, bind, try_catch, get, log, print, emit, throw, ret.
  cbn [fst snd]. rewrite (find_tool_none _ _ Hn). cbn [fst snd raise].
  do 3 eexists. rewrite <- !app_assoc. reflexivity.
Qed.

(** C4.  [execute_tool] always returns a string and leaves the client
    object as it was.  Asked for a name that is not among the tool
    descriptors discovered at connection time, it returns the error
    string "Error: Error executing tool <name>: Tool '<name>' not found"
    and sends nothing over the transport; and every tool call it does
    send names a discovered tool. *)
Theorem unknown_tool_is_reported (c : Client) (h : list event)
    (tool_name : string) (tool_args : list (string * pyval)) :
  exists text evs,
    execute_tool env tool_name tool_args (c, h)
    = (Ret text, (c, (h ++ evs)%list)) /\
    (tool_name ∉ map name (available_tools c) ->
       text = "Error: Error executing tool " ++ tool_name ++ ": Tool '"
              ++ tool_name ++ "' not found" /\
       forall r, Sent r ∉ evs) /\
    (forall n a, Sent (CallTool n a) ∈ evs ->
       n ∈ map name (available_tools c)).
Proof.
  destruct (decide (tool_name ∈ map name (available_tools c))) as [Hin|Hout].
  - destruct (execute_tool_returns env tool_name tool_args (c, h)) as (text & Hret).
    destruct (execute_tool_only env (fun c' => c' = c)
                (fun ev => forall r, ev = Sent r -> exists a, r = CallTool tool_name a)
                ltac:(discriminate) ltac:(discriminate) tool_name tool_args
                ltac:(intros c' a _ _ r [= <-]; eauto) (c, h) eq_refl)
      as (evs & Htr & Hevs & Hc).
    exists text, evs. split; [|split].
    + destruct (execute_tool env tool_name tool_args (c, h)) as [r [c' h']].
      cbn in Hret, Htr, Hc. subst. reflexivity.
    + intros Hout. contradiction.
    + intros n a Hsent. rewrite Forall_forall in Hevs.
      destruct (Hevs _ Hsent _ eq_refl) as (a' & [= -> _]). exact Hin.
  - destruct (execute_unknown_tool c h tool_name tool_args Hout)
      as (m1 & m2 & m3 & Hrun).
    exists (not_found_text tool_name), [Logged INFO m1; Logged ERROR m2; Printed m3].
    split; [exact Hrun|]. split.
    + intros _. split; [reflexivity|]. intros r Hr.
      repeat (apply elem_of_cons in Hr as [Hr|Hr]; [discriminate Hr|]).
      inversion Hr.
    + intros n a Hr.
      repeat (apply elem_of_cons in Hr as [Hr|Hr]; [discriminate Hr|]).
      inversion Hr.
Qed.

End UnknownTool.

(** C4 at the connected example client, asked for the tool [nope]. *)
Lemma unknown_tool_is_reported_witness :
  ("nope" ∉ map Protocol.name (FullClient.available_tools Example.connected)) /\
  exists text evs,
    FullClient.execute_tool Example.env "nope" [("x", PInt 1)]
      (Example.connected, [])
    = (Ret text, (Example.connected, evs)) /\
    text = "Error: Error executing tool nope: Tool 'nope' not found" /\
    forall r, Protocol.Sent r ∉ evs.
Proof.
  assert (Hout : "nope" ∉ map Protocol.name
                   (FullClient.available_tools Example.connected)).
  { intros Hin. apply list_elem_of_singleton in Hin. discriminate Hin. }
  split; [exact Hout|].
  destruct (unknown_tool_is_reported Example.env Example.connected []
              "nope" [("x", PInt 1)]) as (text & evs & Hrun & Hunknown & _).
  exists text, evs. split; [exact Hrun|]. exact (Hunknown Hout).
Defined.

Section Coercion.
Import Protocol FullClient.
Context `{Builtins} (env : Env).

(** The conversion of an argument declared [integer]: a value that
    [int()] converts is replaced by the integer; when [int()] raises
    [ValueError] or [TypeError] the value is kept and a warning is
    logged. *)
Lemma convert_integer_falls_back (n : string) (v : pyval) (c : Client)
    (h : list event) (e : exn) :
  isinstance_int v = false ->
  py_int v = Raise e ->
  existsb (is_instance (exn_cls e)) [ValueError; TypeError] = true ->
  exists msg,
    convert_value n (PStr "integer") v (c, h)
    = (Ret v, (c, (h ++ [Logged WARNING msg])%list)).
Proof.
  intros Hv He Hcls. unfold convert_value.
  cbn [py_eq String.eqb Ascii.eqb Bool.eqb andb]. rewrite Hv. cbn [negb].
  unfold try_catch_only, bind, lift, log, emit, ret. cbn [fst snd].
  rewrite He, Hcls. eexists. reflexivity.
Qed.

(** An exception of another class leaves the conversion. *)
Lemma convert_integer_propagates (n : string) (v : pyval) (c : Client)
    (h : list event) (e : exn) :
  isinstance_int v = false ->
  py_int v = Raise e ->
  existsb (is_instance (exn_cls e)) [ValueError; TypeError] = false ->
  convert_value n (PStr "integer") v (c, h) = (Raise e, (c, h)).
Proof.
  intros Hv He Hcls. unfold convert_value.
  cbn [py_eq String.eqb Ascii.eqb Bool.eqb andb]. rewrite Hv. cbn [negb].
  unfold try_catch_only, bind, lift, log, emit, ret. cbn [fst snd].
  rewrite He, Hcls. reflexivity.
Qed.

End Coercion.

(** C3 at the failing input.  The tool [add] declares [a] as [integer];
    the call carries [a = inf].  [int(inf)] raises [OverflowError], which
    [except (ValueError, TypeError)] does not catch: no warning is logged,
    nothing is sent to the server, and [execute_tool] returns the error
    string of its outer handler. *)
Theorem coercion_overflow_aborts_call :
  exists evs,
    FullClient.execute_tool Example.env "add"
      [("a", PFloat infinity); ("b", PInt 3)] (Example.connected, [])
    = (Ret "Error: Error executing tool add: cannot convert float infinity to integer",
       (Example.connected, evs)) /\
    (forall r, Protocol.Sent r ∉ evs) /\
    (forall msg, Protocol.Logged Protocol.WARNING msg ∉ evs).
Proof.
  eexists. split; [vm_compute; reflexivity|]. split.
  - intros r Hr.
    repeat (apply elem_of_cons in Hr as [Hr|Hr]; [discriminate Hr|]).
    inversion Hr.
  - intros msg Hr.
    repeat (apply elem_of_cons in Hr as [Hr|Hr]; [discriminate Hr|]).
    inversion Hr.
Qed.

(** The same call with [a = "5"]: the string is converted and the tool
    is called with the integer 5. *)
Lemma coercion_of_digit_string :
  exists evs,
    FullClient.execute_tool Example.env "add"
      [("a", PStr "5"); ("b", PInt 3)] (Example.connected, [])
    = (Ret "8", (Example.connected, evs)) /\
    Protocol.Sent (Protocol.CallTool "add" [("a", PInt 5); ("b", PInt 3)]) ∈ evs.
Proof.
  eexists. split; [vm_compute; reflexivity|].
  do 2 right. left.
Qed.

Section EmptyNotes.
Import Protocol FullClient.
Context `{Builtins} (env : Env).

Lemma list_command_raises (u nothing : string) (c : Client) (h : list event) :
  session c = true ->
  list_command env u nothing (c, h)
  = (Raise match on_read_resource env h u with
           | Ret _ =>
               Exn AttributeError
                 "'ReadResourceResult' object has no attribute 'content'"
           | Raise e => e
           end,
     (c, (h ++ [Sent (ReadResource u)])%list)).
Proof.
  intros Hsession.
  unfold list_command, bind, get, send, lift, throw, print, emit, ret.
  cbn [fst snd]. rewrite Hsession. cbn [fst snd].
  destruct (on_read_resource env h u); reflexivity.
Qed.

(** C7.  With no note on disk the "list notes" command ends in an error,
    not in the line "No notes found": the handler raises [AttributeError]
    on [notes:list] where the claim has a response holding the empty
    list, and the client, whatever the session gives it for the request,
    raises as well, the server's error or, on a result, the
    [AttributeError] of reading the attribute [content] of an object that
    has [contents]; all it has done by then is send the request. *)
Theorem list_notes_command_raises
    (use_prompt : string -> M Client bool) (c : Client) (h : list event) :
  session c = true ->
  (forall listing,
     NotesServer.get_notes_resource listing "notes:list"
     = Raise (Exn AttributeError
                "module 'mcp.types' has no attribute 'ResourceReadResponse'")) /\
  handle_resource_commands env use_prompt "list notes" (c, h)
  = (Raise match on_read_resource env h "notes:list" with
           | Ret _ =>
               Exn AttributeError
                 "'ReadResourceResult' object has no attribute 'content'"
           | Raise e => e
           end,
     (c, (h ++ [Sent (ReadResource "notes:list")])%list)).
Proof.
  intros Hsession. split; [intros listing; apply get_notes_resource_raises|].
  unfold handle_resource_commands.
  change (is_command "list notes" ["list notes"; "list all notes"]) with true.
  cbv iota. apply list_command_raises. exact Hsession.
Qed.

End EmptyNotes.

(** C7 at the example server, whose notes directory is empty: the client
    is left with the server's error. *)
Lemma list_notes_command_raises_witness :
  (forall listing,
     NotesServer.get_notes_resource listing "notes:list"
     = Raise (Exn AttributeError
                "module 'mcp.types' has no attribute 'ResourceReadResponse'")) /\
  FullClient.handle_resource_commands Example.env (fun _ => Protocol.ret true)
    "list notes" (Example.connected, [])
  = (Raise (Exn OtherException
              "module 'mcp.types' has no attribute 'ResourceReadResponse'"),
     (Example.connected,
      [Protocol.Sent (Protocol.ReadResource "notes:list")])).
Proof.
  apply (list_notes_command_raises Example.env (fun _ => Protocol.ret true)
           Example.connected []).
  reflexivity.
Defined.

(** *** Listing the tools *)

Section Running.
Import Protocol.
Context {C : Type}.

Lemma run_bind {A B} (m : M C A) (k : A -> M C B) (s : C * list event) :
  bind m k s
  = match m s with
    | (Ret a, s') => k a s'
    | (Raise e, s') => (Raise e, s')
    end.
Proof. reflexivity. Qed.

Lemma run_send {A} (r : request) (answer : list event -> py A) (c : C)
    (h : list event) :
  send r answer (c, h) = (answer h, (c, (h ++ [Sent r])%list)).
Proof. reflexivity. Qed.

Lemma run_modify (f : C -> C) (c : C) (h : list event) :
  modify f (c, h) = (Ret (), (f c, h)).
Proof. reflexivity. Qed.

Lemma list_tools_calls_app (h1 h2 : list event) :
  list_tools_calls (h1 ++ h2) = (list_tools_calls h1 + list_tools_calls h2)%nat.
Proof. unfold list_tools_calls. rewrite List.filter_app, length_app. reflexivity. Qed.

Lemma list_tools_calls_none (h : list event) :
  Forall (fun ev => is_list_tools ev = false) h -> list_tools_calls h = 0%nat.
Proof.
  unfold list_tools_calls. induction 1 as [|ev rest Hev _ IH]; [reflexivity|].
  cbn [List.filter]. rewrite Hev. exact IH.
Qed.

End Running.

Create HintDb cache.

Section ListTools.
Import Protocol FullClient.
Context `{Builtins} (env : Env) (tools : list Tool).

Lemma uses_cache_logged (l : level) (msg : string) :
  uses_cache tools (Logged l msg).
Proof. split; [reflexivity|]. split; intros ? ?; discriminate. Qed.

Lemma uses_cache_printed (t : string) : uses_cache tools (Printed t).
Proof. split; [reflexivity|]. split; intros ? ?; discriminate. Qed.

Lemma uses_cache_model (msgs : list Message) :
  uses_cache tools (ModelCall msgs (model_tools tools)).
Proof.
  split; [reflexivity|]. split; [|intros ? ?; discriminate].
  intros msgs' tls [= _ <-]. reflexivity.
Qed.

Lemma uses_cache_call (c : Client) (n : string) (a : list (string * pyval)) :
  holds_tools tools c -> n ∈ map name (available_tools c) ->
  uses_cache tools (Sent (CallTool n a)).
Proof.
  intros Hc Hn. rewrite Hc in Hn.
  split; [reflexivity|]. split; [intros ? ?; discriminate|].
  intros n' a' [= <- _]. exact Hn.
Qed.

#[local] Hint Resolve uses_cache_logged uses_cache_printed uses_cache_model
  : cache.

Lemma holds_append (m : Message) (c : Client) :
  holds_tools tools c -> holds_tools tools (append_history m c).
Proof. intros Hc. exact Hc. Qed.

Lemma create_message_cached :
  only (holds_tools tools) (uses_cache tools)
    (create_message env (model_tools tools)).
Proof. unfold create_message. repeat only_step; auto with cache. Qed.

Lemma use_tool_cached (tool_id tool_name : string)
    (tool_args : list (string * pyval)) :
  only (holds_tools tools) (uses_cache tools)
    (use_tool env (model_tools tools) tool_id tool_name tool_args).
Proof.
  unfold use_tool, print_texts.
  repeat only_step;
    auto using holds_append, create_message_cached with cache.
  apply execute_tool_only; auto with cache.
  intros ? ?. apply uses_cache_call.
Qed.

Lemma handle_blocks_cached (blocks : list Block) (acc : list string) :
  only (holds_tools tools) (uses_cache tools)
    (handle_blocks env (model_tools tools) blocks acc).
Proof.
  revert acc. induction blocks as [|b rest IH]; intros acc; cbn [handle_blocks].
  - apply only_ret.
  - destruct b; repeat only_step; auto using use_tool_cached with cache.
Qed.

Lemma process_query_cached (query : string) :
  only (holds_tools tools) (uses_cache tools) (process_query env query).
Proof.
  unfold process_query. apply only_bind_get. intros c Hc.
  unfold get_anthropic_tools. rewrite Hc.
  repeat only_step;
    auto using holds_append, create_message_cached, handle_blocks_cached
      with cache.
Qed.

End ListTools.

Section Connection.
Import Protocol FullClient.
Context `{Builtins} (env : Env).

Lemma read_roots_quiet (tools : list Tool) (items : list ContentItem) :
  only (holds_tools tools) not_list_tools (read_roots items).
Proof.
  induction items as [|item rest IH]; cbn [read_roots].
  - apply only_ret.
  - destruct item as [t|d|]; [|exact IH|exact IH].
    repeat only_step; auto; reflexivity.
Qed.

Lemma after_discovery_quiet (tools : list Tool) :
  only (holds_tools tools) not_list_tools
    (bind (discover_roots env) (fun _ => bind announce (fun _ => ret true))).
Proof.
  unfold discover_roots, announce.
  repeat only_step; auto using read_roots_quiet; reflexivity.
Qed.

(** A connection that succeeds has sent "list tools" once, after the
    handshake, and holds the descriptors it was answered. *)
Lemma connect_lists_once (c1 : Client) (h1 : list event) :
  connect_to_server env (initial, []) = (Ret true, (c1, h1)) ->
  list_tools_calls h1 = 1%nat /\
  on_list_tools env [Sent Open; Sent Initialize] = Ret (available_tools c1).
Proof.
  unfold connect_to_server, try_catch.
  rewrite run_bind, run_send.
  destruct (on_open env []) as [[]|e]; [|discriminate].
  rewrite run_bind, run_modify, run_bind, run_send.
  destruct (on_initialize env _) as [[]|e]; [|discriminate].
  rewrite run_bind, run_send. cbn [app].
  destruct (on_list_tools env _) as [tools|e] eqn:Htools; [|discriminate].
  rewrite run_bind, run_modify, run_bind, run_send.
  destruct (on_list_prompts env _) as [prompts|e]; [|discriminate].
  rewrite run_bind, run_modify.
  match goal with
  | |- context [match ?m ?s with _ => _ end] =>
      destruct (after_discovery_quiet tools s eq_refl) as (evs & Htr & Hevs & Hc);
      destruct (m s) as [[b|e] [c' h']]
  end; [|discriminate].
  intros [= -> -> ->]. cbn [fst snd] in Htr, Hc. subst h1.
  split; [|rewrite Hc; reflexivity].
  rewrite list_tools_calls_app, (list_tools_calls_none evs Hevs). reflexivity.
Qed.

End Connection.

Section Relisting.
Import Protocol.
Context `{Builtins} (env : Env).

Lemma basic_use_tool_grows (tools : list ModelTool)
    (tool_id tool_name : string) (tool_args : list (string * pyval)) :
  only (fun _ : BasicClient.Client => True) (fun _ => True)
    (BasicClient.use_tool env tools tool_id tool_name tool_args).
Proof.
  unfold BasicClient.use_tool, BasicClient.create_message.
  repeat only_step; auto.
Qed.

Lemma send_then {C A B} (r : request) (answer : list event -> py A)
    (k : A -> M C B) (c : C) (h : list event) :
  (forall a, only (fun _ : C => True) (fun _ => True) (k a)) ->
  exists rest, (bind (send r answer) k (c, h)).2.2 = (h ++ Sent r :: rest)%list.
Proof.
  intros Hk. rewrite run_bind, run_send.
  destruct (answer h) as [a|e]; [|exists []; reflexivity].
  destruct (Hk a (c, (h ++ [Sent r])%list) I) as (evs & Htr & _).
  exists evs. rewrite Htr. cbn [snd]. rewrite <- app_assoc. reflexivity.
Qed.

(** The basic client asks for the tool list again at the start of every
    query it processes while connected. *)
Lemma basic_process_query_relists (c : BasicClient.Client) (h : list event)
    (query : string) :
  BasicClient.session c = true ->
  exists rest,
    (BasicClient.process_query env query (c, h)).2.2
    = (h ++ Sent ListTools :: rest)%list.
Proof.
  intros Hsession. unfold BasicClient.process_query.
  rewrite run_bind. cbn [get fst snd]. rewrite Hsession. cbn [negb].
  rewrite run_bind, run_modify.
  apply send_then. intros tools. unfold BasicClient.create_message.
  repeat only_step; auto using basic_use_tool_grows.
Qed.

End Relisting.

Section OncePerConnection.
Import Protocol.
Context `{Builtins}.

(** C6, as amended.  In the full client a connection that succeeds has
    sent "list tools" exactly once, and the descriptors answered are
    cached: whatever queries follow, the session sends no further "list
    tools", every model call is given those descriptors, every tool call
    names one of them, and the cache is unchanged at the end.  The basic
    client does not cache: connected, it sends "list tools" again at the
    start of every query. *)
Theorem list_tools_once_in_full_client :
  (forall (env : Env) (queries : list string) (c1 : FullClient.Client)
          (h1 : list event),
     FullClient.connect_to_server env (FullClient.initial, [])
     = (Ret true, (c1, h1)) ->
     list_tools_calls h1 = 1%nat /\
     on_list_tools env [Sent Open; Sent Initialize]
     = Ret (FullClient.available_tools c1) /\
     exists c evs,
       (FullClient.run_queries env queries (FullClient.initial, [])).2
       = (c, (h1 ++ evs)%list) /\
       FullClient.available_tools c = FullClient.available_tools c1 /\
       list_tools_calls (h1 ++ evs) = 1%nat /\
       (forall msgs tls, ModelCall msgs tls ∈ evs ->
          tls = model_tools (FullClient.available_tools c1)) /\
       (forall n a, Sent (CallTool n a) ∈ evs ->
          n ∈ map name (FullClient.available_tools c1))) /\
  (forall (env : Env) (c : BasicClient.Client) (h : list event)
          (query : string),
     BasicClient.session c = true ->
     exists rest,
       (BasicClient.process_query env query (c, h)).2.2
       = (h ++ Sent ListTools :: rest)%list).
Proof.
  split; [|intros env c h query; apply basic_process_query_relists].
  intros env queries c1 h1 Hconnect.
  destruct (connect_lists_once env c1 h1 Hconnect) as [Hone Htools].
  split; [exact Hone|]. split; [exact Htools|].
  unfold FullClient.run_queries. rewrite run_bind, Hconnect.
  destruct (only_for_each (FullClient.holds_tools (FullClient.available_tools c1))
              (FullClient.uses_cache (FullClient.available_tools c1)) queries
              (FullClient.process_query env)
              (process_query_cached env (FullClient.available_tools c1))
              (c1, h1) eq_refl) as (evs & Htr & Hevs & Hc).
  destruct (for_each queries (FullClient.process_query env) (c1, h1))
    as [r [c h]].
  cbn [fst snd] in Htr, Hc |- *. subst h.
  exists c, evs. split; [reflexivity|]. split; [exact Hc|].
  rewrite Forall_forall in Hevs. split; [|split].
  - rewrite list_tools_calls_app, Hone.
    rewrite (list_tools_calls_none evs); [reflexivity|].
    apply Forall_forall. intros ev Hev. exact (proj1 (Hevs ev Hev)).
  - intros msgs tls Hin. exact (proj1 (proj2 (Hevs _ Hin)) msgs tls eq_refl).
  - intros n a Hin. exact (proj2 (proj2 (Hevs _ Hin)) n a eq_refl).
Qed.

End OncePerConnection.

(** C6 fails as stated: the basic client, connected to the example server
    and given one query, sends "list tools" twice over its one
    connection, once in [connect_to_server] and once in
    [process_query]. *)
Lemma list_tools_once_counterexample :
  Protocol.list_tools_calls
    (BasicClient.main Example.env "server.py" ["add 5 and 3"]
       (BasicClient.initial, [])).2.2
  = 2%nat.
Proof. vm_compute. reflexivity. Qed.

(** C6 as amended, at the example server and a session of two queries. *)
Lemma list_tools_once_in_full_client_witness :
  Protocol.list_tools_calls
    (FullClient.run_queries Example.env ["add 5 and 3"; "thanks"]
       (FullClient.initial, [])).2.2
  = 1%nat.
Proof.
  destruct (proj1 list_tools_once_in_full_client Example.env
              ["add 5 and 3"; "thanks"]
              (FullClient.connect_to_server Example.env
                 (FullClient.initial, [])).2.1
              (FullClient.connect_to_server Example.env
                 (FullClient.initial, [])).2.2)
    as (_ & _ & c & evs & Hrun & _ & Hone & _).
  - vm_compute. reflexivity.
  - rewrite Hrun. exact Hone.
Defined.

(** * Further properties *)

(** ** The notes server: searching and listing *)

Section NotesSearch.
Context `{Builtins}.
Import NotesServer NotesFilters.

Lemma collect_app {A} (step : string * file -> py (option A))
    (l1 l2 : list (string * file)) :
  collect step (l1 ++ l2)%list = (collect step l1 ++ collect step l2)%list.
Proof.
  induction l1 as [|e rest IH]; [reflexivity|].
  cbn [collect app]. destruct (step e) as [[r|]|err]; rewrite IH; reflexivity.
Qed.

Lemma collect_elem {A} (step : string * file -> py (option A))
    (listing : list (string * file)) (e : string * file) (r : A) :
  e ∈ listing -> step e = Ret (Some r) -> r ∈ collect step listing.
Proof.
  intros Hin Hstep. apply list_elem_of_split in Hin as (l1 & l2 & ->).
  rewrite collect_app. cbn [collect]. rewrite Hstep.
  apply elem_of_app. right. left.
Qed.




(** X2.  A file that cannot be opened or does not parse is skipped: with
    or without it in the directory, [find_notes] returns the same dict,
    and the [notes:list] branch of the resource handler gathers the same
    entries and ends in the same way. *)
Theorem unreadable_file_is_skipped (l1 l2 : list (string * file))
    (name : string) (f : file) (e : exn) (query : option string)
    (tags : option (list pyval)) :
  load_json f = Raise e ->
  find_notes (l1 ++ (name, f) :: l2) query tags
  = find_notes (l1 ++ l2) query tags /\
  get_notes_resource (l1 ++ (name, f) :: l2) "notes:list"
  = get_notes_resource (l1 ++ l2) "notes:list" /\
  collect (fun e => list_step e.2) (l1 ++ (name, f) :: l2)
  = collect (fun e => list_step e.2) (l1 ++ l2).
Proof.
  intros Hload. unfold find_notes, get_notes_resource, get_notes_resource_body.
  cbn [String.eqb Ascii.eqb Bool.eqb].
  rewrite !collect_app. cbn [collect snd].
  unfold find_notes_step, list_step. rewrite Hload. cbn [mbind py_bind].
  rewrite <- !collect_app. repeat split; reflexivity.
Qed.

End NotesSearch.

Section NotesLookup.
Context `{Builtins}.
Import NotesServer.

(** X5.  A note that [create_note] has written is found by [find_notes]
    without filters, whatever its tags are and in whatever order the
    directory is enumerated: the results hold an entry with its id,
    title, tags, creation and update times, and as preview its content,
    cut to 150 characters and "..." when it is longer. *)
Theorem created_note_is_found (w : World) (fs : gmap string file)
    (T C : string) (tags : option (list pyval)) (id : string)
    (listing : list (string * file)) :
  let created := create_note w fs T C tags in
  getitem created.1 "note_id" = Ret (PStr id) ->
  is_glob_json created.2 listing ->
  exists rs,
    getitem (find_notes listing None None) "results" = Ret (PList rs) /\
    PDict [("id", PStr id); ("title", PStr T);
           ("tags", PList (default [] tags));
           ("created_at", PStr (now_created w));
           ("updated_at", PStr (now_updated w));
           ("preview",
            PStr (if Nat.leb (String.length C) 150 then C
                  else str_take 150 C ++ "..."))] ∈ rs.
Proof.
  cbv zeta. intros Hid Hglob.
  apply create_note_written in Hid as [-> Hfs]. rewrite Hfs in Hglob.
  eexists. split; [reflexivity|].
  apply (collect_elem _ listing
           (note_file_name T (uuid4 w),
            FJson (note_data w T C (default [] tags)))).
  - apply (glob_lookup _ _ _ Hglob). cbn [fst snd]. split.
    + unfold note_file_name. rewrite <- !append_assoc. apply endswith_app.
    + apply lookup_insert_eq.
  - cbn [snd]. unfold find_notes_step, note_data, preview_of.
    cbn [load_json mbind py_bind getitem assoc String.eqb Ascii.eqb Bool.eqb
         py_len].
    destruct (Nat.leb_spec (String.length C) 150) as [Hshort|Hlong].
    + destruct (Nat.ltb_spec 150 (String.length C)); [lia|reflexivity].
    + destruct (Nat.ltb_spec 150 (String.length C)); [reflexivity|lia].
Qed.

(** X6.  [create_note] touches one file only: whatever the disk does,
    every file of the directory under another name is afterwards what it
    was before; and when the file cannot be opened the directory is
    unchanged. *)
Theorem create_note_keeps_other_files (w : World) (fs : gmap string file)
    (T C : string) (tags : option (list pyval)) :
  (forall other, other <> note_file_name T (uuid4 w) ->
     (create_note w fs T C tags).2 !! other = fs !! other) /\
  (forall msg, disk w = OpenError msg -> (create_note w fs T C tags).2 = fs).
Proof.
  unfold create_note, write_json, note_file_name. split.
  - intros other Hother.
    destruct (disk w); cbn [snd]; [|reflexivity|];
      apply lookup_insert_ne; intros Heq; apply Hother; symmetry; exact Heq.
  - intros msg ->. reflexivity.
Qed.

End NotesLookup.

Section NoteFileName.
Import NotesServer NotesFilters.

Lemma all_chars_app (P : ascii -> bool) (a b : string) :
  all_chars P (a ++ b) = (all_chars P a && all_chars P b)%bool.
Proof.
  induction a as [|c r IH]; [reflexivity|].
  rewrite append_cons. cbn [all_chars]. rewrite IH, andb_assoc. reflexivity.
Qed.

Lemma all_chars_take (P : ascii -> bool) (n : nat) (s : string) :
  all_chars P s = true -> all_chars P (str_take n s) = true.
Proof.
  revert s. induction n as [|n IH]; intros [|c r] Hs; try reflexivity.
  cbn [all_chars str_take] in *. apply andb_prop in Hs as [Hc Hr].
  rewrite Hc, (IH r Hr). reflexivity.
Qed.

Lemma sub_unsafe_plain (s : string) : all_chars plain_char (sub_unsafe s) = true.
Proof.
  induction s as [|c r IH]; [reflexivity|].
  cbn [sub_unsafe all_chars]. rewrite IH, andb_true_r. unfold plain_char.
  destruct (is_word c) eqn:Hw; cbn [orb]; [rewrite Hw; reflexivity|].
  destruct (Ascii.eqb c "-") eqn:Hh; [rewrite Hw, Hh; reflexivity|reflexivity].
Qed.

Lemma is_hex_plain (c : ascii) : is_hex c = true -> plain_char c = true.
Proof.
  unfold is_hex, plain_char, is_word, is_lower, is_digit, is_upper.
  intros Hc. apply orb_prop in Hc as [Hd|Hl].
  - rewrite Hd, !orb_true_r. reflexivity.
  - apply andb_prop in Hl as [Hlo Hhi]. apply Nat.leb_le in Hhi.
    rewrite Hlo. cbn [andb].
    replace (Nat.leb (nat_of_ascii c) 122) with true
      by (symmetry; apply Nat.leb_le; lia).
    rewrite !orb_true_r. reflexivity.
Qed.

Lemma uuid_chars_plain (i : nat) (s : string) :
  uuid_chars i s = true -> all_chars plain_char s = true.
Proof.
  revert i. induction s as [|c r IH]; intros i Hs; [reflexivity|].
  cbn [uuid_chars all_chars] in *. apply andb_prop in Hs as [Hc Hr].
  rewrite (IH _ Hr), andb_true_r.
  destruct (existsb (Nat.eqb i) [8; 13; 18; 23]%nat).
  - apply Ascii.eqb_eq in Hc as ->. reflexivity.
  - apply is_hex_plain, Hc.
Qed.

Lemma all_chars_plain_lacks_slash (s : string) :
  all_chars plain_char s = true -> lacks "/" s = true.
Proof.
  induction s as [|c r IH]; intros Hs; [reflexivity|].
  cbn [all_chars lacks] in *. apply andb_prop in Hs as [Hc Hr].
  rewrite (IH Hr), andb_true_r.
  destruct (Ascii.eqb_spec c "/") as [->|_]; [discriminate Hc|reflexivity].
Qed.

(** X7.  Whatever the title, the name of the file [create_note] writes
    is made of word characters (what [\w] matches: letters, digits and
    [_], accented letters among them), [-] and [.] only, and ends in
    [.json]: it holds no path separator, so the note lands in the notes
    directory itself. *)
Theorem note_file_name_is_plain (T id : string) :
  is_uuid id = true ->
  all_chars plain_char (note_file_name T id) = true /\
  lacks "/" (note_file_name T id) = true /\
  endswith (note_file_name T id) ".json" = true.
Proof.
  intros Hid. unfold is_uuid in Hid. apply andb_prop in Hid as [_ Hid].
  assert (Hplain : all_chars plain_char (note_file_name T id) = true).
  { unfold note_file_name. rewrite !all_chars_app, sub_unsafe_plain.
    rewrite (all_chars_take _ 8 id (uuid_chars_plain _ _ Hid)). reflexivity. }
  split; [exact Hplain|]. split; [exact (all_chars_plain_lacks_slash _ Hplain)|].
  unfold note_file_name. rewrite <- !append_assoc. apply endswith_app.
Qed.

End NoteFileName.

(** *** The notes properties on the example directory *)


(** X2 at the example directory with a file that is not JSON put in front
    of it. *)
Lemma unreadable_file_is_skipped_witness :
  NotesServer.find_notes
    ([] ++ ("broken.json", NotesServer.FRaw "oops")
        :: [("groceries_deadbeef.json", NotesServer.FJson Example.groceries)])
    (Some "milk") None
  = NotesServer.find_notes
      ([] ++ [("groceries_deadbeef.json", NotesServer.FJson Example.groceries)])
      (Some "milk") None /\
  NotesServer.get_notes_resource
    ([] ++ ("broken.json", NotesServer.FRaw "oops")
        :: [("groceries_deadbeef.json", NotesServer.FJson Example.groceries)])
    "notes:list"
  = NotesServer.get_notes_resource
      ([] ++ [("groceries_deadbeef.json", NotesServer.FJson Example.groceries)])
      "notes:list" /\
  NotesServer.collect (fun e => NotesServer.list_step e.2)
    ([] ++ ("broken.json", NotesServer.FRaw "oops")
        :: [("groceries_deadbeef.json", NotesServer.FJson Example.groceries)])
  = NotesServer.collect (fun e => NotesServer.list_step e.2)
      ([] ++ [("groceries_deadbeef.json", NotesServer.FJson Example.groceries)]).
Proof.
  apply (unreadable_file_is_skipped [] _ "broken.json"
           (NotesServer.FRaw "oops")
           (Exn JSONDecodeError "Expecting value")).
  reflexivity.
Defined.

(** X5 for the note "Plan" written next to the groceries note. *)
Lemma created_note_is_found_witness :
  exists rs,
    getitem
      (NotesServer.find_notes
         [ ("groceries_deadbeef.json", NotesServer.FJson Example.groceries);
           ("plan_0a1b2c3d.json",
            NotesServer.FJson (Example.plan Example.fresh_world [PStr "work"])) ]
         None None) "results" = Ret (PList rs) /\
    PDict [("id", PStr "0a1b2c3d-2222-4222-8222-222222222222");
           ("title", PStr "Plan");
           ("tags", PList (default [] (Some [PStr "work"])));
           ("created_at", PStr (NotesServer.now_created Example.fresh_world));
           ("updated_at", PStr (NotesServer.now_updated Example.fresh_world));
           ("preview",
            PStr (if Nat.leb (String.length "ship it") 150 then "ship it"
                  else str_take 150 "ship it" ++ "..."))] ∈ rs.
Proof.
  apply (created_note_is_found Example.fresh_world Example.notes
           "Plan" "ship it" (Some [PStr "work"])
           "0a1b2c3d-2222-4222-8222-222222222222").
  - reflexivity.
  - unfold NotesServer.is_glob_json. vm_compute.
    first [reflexivity | apply perm_swap].
Defined.

(** X7 for a title with a path in it. *)
Lemma note_file_name_is_plain_witness :
  NotesServer.note_file_name "../../etc/passwd"
    "0a1b2c3d-2222-4222-8222-222222222222"
  = "______etc_passwd_0a1b2c3d.json" /\
  lacks "/" "______etc_passwd_0a1b2c3d.json" = true.
Proof.
  split; [reflexivity|].
  exact (proj1 (proj2 (note_file_name_is_plain "../../etc/passwd"
                         "0a1b2c3d-2222-4222-8222-222222222222" eq_refl))).
Defined.

(** ** More on what client computations emit *)

Section TracesWithResults.
Import Protocol Observations.
Context {C : Type} (Inv : C -> Prop) (P : event -> Prop).

(** Sequencing, when what follows relies on a property of the value
    returned. *)
Lemma only_bind_result {A B} (Q : A -> Prop) (m : M C A) (k : A -> M C B) :
  only Inv P m ->
  (forall s a, (m s).1 = Ret a -> Q a) ->
  (forall a, Q a -> only Inv P (k a)) ->
  only Inv P (bind m k).
Proof.
  intros Hm HQ Hk s Hs. unfold bind.
  destruct (Hm s Hs) as (evs & Htr & Hevs & Hc). specialize (HQ s).
  destruct (m s) as [[a|e] s1]; cbn in Htr, Hc.
  - destruct (Hk a (HQ a eq_refl) s1 Hc) as (evs' & Htr' & Hevs' & Hc').
    exists (evs ++ evs')%list. rewrite Htr', Htr, app_assoc.
    repeat split; [apply Forall_app; split; assumption|assumption].
  - exists evs. cbn. repeat split; assumption.
Qed.

Lemma requests_app (h1 h2 : list event) :
  requests (h1 ++ h2) = (requests h1 ++ requests h2)%list.
Proof. unfold requests. apply omap_app. Qed.

Lemma requests_silent (evs : list event) :
  Forall silent evs -> requests evs = [].
Proof.
  induction 1 as [|ev rest Hev _ IH]; [reflexivity|].
  destruct ev as [r| | |]; [destruct (Hev r eq_refl)|exact IH..].
Qed.

Lemma run_bind_assoc {A B D} (m : M C A) (k : A -> M C B) (k' : B -> M C D)
    (s : C * list event) :
  bind m (fun x => bind (k x) k') s = bind (bind m k) k' s.
Proof. unfold bind. destruct (m s) as [[a|e] s1]; reflexivity. Qed.

(** The run of a computation that keeps the client object. *)
Lemma only_run {A} (m : M C A) (c : C) (h : list event) :
  only (fun c' => c' = c) P m ->
  exists r evs, m (c, h) = (r, (c, (h ++ evs)%list)) /\ Forall P evs.
Proof.
  intros Hm. destruct (Hm (c, h) eq_refl) as (evs & Htr & Hevs & Hc).
  destruct (m (c, h)) as [r [c' h']]. cbn [fst snd] in Htr, Hc. subst c' h'.
  exists r, evs. split; [reflexivity|exact Hevs].
Qed.

End TracesWithResults.

(** ** The full client: calling a tool *)

Section CallingTools.
Import Protocol FullClient Observations.
Context `{Builtins} (env : Env).

Lemma find_tool_in (tools : list Tool) (n : string) :
  n ∈ map name tools ->
  exists t, find (fun tool => String.eqb (name tool) n) tools = Some t.
Proof.
  intros Hin. destruct (find _ tools) as [t|] eqn:Hfind; [exists t; reflexivity|].
  apply list_elem_of_In, in_map_iff in Hin as (t & Hname & Ht).
  pose proof (find_none _ _ Hfind t Ht) as Hno. cbn in Hno.
  rewrite Hname, String.eqb_refl in Hno. discriminate Hno.
Qed.

Lemma append_empty_r (s : string) : s ++ "" = s.
Proof. induction s as [|c r IH]; [reflexivity|]. rewrite append_cons, IH. reflexivity. Qed.

Lemma gather_text (items : list ContentItem) (acc : string) (d : option pyval) :
  (gather items acc d).1 = acc ++ items_text items.
Proof.
  revert acc d. induction items as [|item rest IH]; intros acc d.
  - cbn [gather items_text fold_right fst]. rewrite append_empty_r. reflexivity.
  - change (items_text (item :: rest)) with (item_text item ++ items_text rest).
    rewrite <- append_assoc.
    destruct item as [t|[| | | |s| |]|]; cbn [gather item_text]; rewrite IH;
      try reflexivity.
    rewrite append_empty_r. reflexivity.
Qed.

(** The run of [execute_tool] on a connected client for a tool whose
    schema has no properties. *)
Lemma execute_plain_tool (c : Client) (h : list event) (n : string)
    (args : list (string * pyval)) (t : Tool) :
  find (fun tool => String.eqb (name tool) n) (available_tools c) = Some t ->
  session c = true ->
  has_no_properties (inputSchema t) ->
  let m1 := "Executing tool: " ++ n ++ " with args: "
            ++ json_dumps None (PDict args) in
  let m2 := "Converted arguments: " ++ json_dumps None (PDict args) in
  execute_tool env n args (c, h)
  = match on_call_tool env (h ++ [Logged INFO m1; Logged INFO m2]) n args with
    | Ret r =>
        let text := match content r with
                    | [] => no_content
                    | items => items_text items
                    end in
        let panel := match content r with
                     | [] => no_content
                     | items => shown (gather items "" None).1
                                      (gather items "" None).2
                     end in
        (Ret text,
         (c, (h ++ [Logged INFO m1; Logged INFO m2; Sent (CallTool n args);
                    Printed panel])%list))
    | Raise e =>
        (Ret ("Error: Error executing tool " ++ n ++ ": " ++ exn_msg e),
         (c, (h ++ [Logged INFO m1; Logged INFO m2; Sent (CallTool n args);
                    Logged ERROR ("Error executing tool " ++ n ++ ": "
                                  ++ exn_msg e);
                    Printed ("[bold red]"
                             ++ ("Error executing tool " ++ n ++ ": "
                                 ++ exn_msg e)
                             ++ "[/bold red]")])%list))
    end.
Proof.
  intros Hfind Hsession Hplain. cbv zeta.
  unfold execute_tool. rewrite run_bind. unfold log at 1, emit at 1.
  cbn [fst snd]. unfold try_catch. rewrite run_bind. unfold get at 1.
  cbn [fst snd]. rewrite Hfind, Hsession. rewrite run_bind.
  assert (Hhas : forall s : Client * list event,
            (if truthy (inputSchema t)
             then lift (py_in (PStr "properties") (inputSchema t))
             else ret false) s = (Ret false, s)).
  { intros s. destruct Hplain as [Hempty|Hnone].
    - rewrite Hempty. reflexivity.
    - destruct (truthy (inputSchema t)); [|reflexivity].
      unfold lift. rewrite Hnone. reflexivity. }
  rewrite Hhas. rewrite run_bind. unfold ret at 1.
  rewrite run_bind. unfold log at 1, emit at 1. cbn [fst snd].
  rewrite run_bind, run_send. rewrite <- !app_assoc. cbn [app].
  destruct (on_call_tool env _ n args) as [r|e].
  - destruct (content r) as [|item rest] eqn:Hcontent.
    + unfold bind, print, emit, ret. cbn [fst snd].
      rewrite <- !app_assoc. reflexivity.
    + pose proof (gather_text (item :: rest) "" None) as Htext.
      destruct (gather (item :: rest) "" None) as [text data].
      cbn [fst snd] in Htext |- *. rewrite append_nil in Htext. subst text.
      unfold bind, print, emit, ret. cbn [fst snd].
      rewrite <- !app_assoc. reflexivity.
  - unfold bind, log, print, emit, ret. cbn [fst snd].
    rewrite <- !app_assoc. cbn [app]. reflexivity.
Qed.

Lemma convert_args_names (properties : pyval)
    (args conv : list (string * pyval)) (s : Client * list event) :
  (convert_args properties args s).1 = Ret conv ->
  map fst conv = map fst args.
Proof.
  revert s conv. induction args as [|[k v] rest IH]; intros s conv Hrun.
  - injection Hrun as <-. reflexivity.
  - cbn [convert_args] in Hrun. rewrite run_bind in Hrun.
    unfold lift at 1 in Hrun.
    destruct (py_in (PStr k) properties) as [present|e]; [|discriminate Hrun].
    rewrite run_bind in Hrun.
    lazymatch type of Hrun with
    | (match ?x with _ => _ end).1 = _ => destruct x as [[v'|e] s1]
    end; [|discriminate Hrun].
    rewrite run_bind in Hrun.
    destruct (convert_args properties rest s1) as [[rest'|e] s2] eqn:Hrest;
      [|discriminate Hrun].
    injection Hrun as <-. cbn [map fst]. f_equal.
    apply (IH s1). rewrite Hrest. reflexivity.
Qed.

(** X8.  Asked for a tool it knows while no session is open,
    [execute_tool] sends nothing: it returns the error string "Error:
    Error executing tool <name>: Not connected to server" and leaves the
    client object as it was. *)
Theorem execute_tool_needs_session (c : Client) (h : list event) (n : string)
    (args : list (string * pyval)) :
  n ∈ map name (available_tools c) ->
  session c = false ->
  exists evs,
    execute_tool env n args (c, h)
    = (Ret ("Error: Error executing tool " ++ n ++ ": Not connected to server"),
       (c, (h ++ evs)%list)) /\
    forall r, Sent r ∉ evs.
Proof.
  intros Hin Hsession. apply find_tool_in in Hin as (t & Hfind).
  eexists. split.
  - unfold execute_tool, bind, try_catch, get, log, print, emit, throw, ret.
    cbn [fst snd]. rewrite Hfind, Hsession. cbn [fst snd raise exn_msg].
    rewrite <- !app_assoc. cbn [app]. reflexivity.
  - intros r Hr.
    repeat (apply elem_of_cons in Hr as [Hr|Hr]; [discriminate Hr|]).
    inversion Hr.
Qed.

(** X9.  The conversion of the arguments never adds, drops, renames or
    reorders one: whatever the schema and the values, every tool call
    [execute_tool] sends is for the tool it was asked for and carries the
    argument names it was given, in the same order. *)
Theorem conversion_keeps_argument_names (c : Client) (h : list event)
    (n : string) (args : list (string * pyval)) :
  exists evs,
    (execute_tool env n args (c, h)).2.2 = (h ++ evs)%list /\
    forall m a, Sent (CallTool m a) ∈ evs ->
      m = n /\ map fst a = map fst args.
Proof.
  assert (Honly : only (fun _ : Client => True)
            (fun ev => forall m a, ev = Sent (CallTool m a) ->
                         m = n /\ map fst a = map fst args)
            (execute_tool env n args)).
  { unfold execute_tool.
    apply only_bind; [apply only_emit; discriminate|intros _].
    apply only_try_catch; [|intros e; repeat only_step; discriminate].
    apply only_bind_get. intros c0 _.
    destruct (find _ _) as [t|]; [|apply only_throw].
    destruct (session c0); [|apply only_throw]. cbv zeta.
    apply only_bind; [destruct (truthy _); [apply only_lift|apply only_ret]|].
    intros has.
    apply (only_bind_result _ _ (fun conv => map fst conv = map fst args)).
    - destruct has; [|apply only_ret].
      apply only_bind; [apply only_lift|intros p].
      apply convert_args_only; discriminate.
    - intros s conv Hrun. destruct has.
      + rewrite run_bind in Hrun. unfold lift at 1 in Hrun.
        destruct (get_method _ _ _) as [p|e]; [|discriminate Hrun].
        exact (convert_args_names _ _ _ _ Hrun).
      + injection Hrun as <-. reflexivity.
    - intros conv Hconv. repeat only_step; try discriminate.
      intros ? ? [= <- <-]. split; [reflexivity|exact Hconv]. }
  destruct (Honly (c, h) I) as (evs & Htr & Hevs & _).
  exists evs. split; [exact Htr|].
  intros m a Hin. rewrite Forall_forall in Hevs. exact (Hevs _ Hin m a eq_refl).
Qed.

(** X10.  A tool whose schema is empty or has no ["properties"] entry is
    called with the arguments exactly as given, in one request.  The
    string returned is the texts of the content items of the answer put
    together (the text of a text item, the data of a data item that is a
    string, the JSON text of other data, nothing for other items), or the
    sentence "Tool executed successfully, but returned no content" when
    the answer has no content. *)
Theorem plain_tool_is_called_as_given (c : Client) (h : list event)
    (n : string) (args : list (string * pyval)) (t : Tool)
    (r : CallToolResult) :
  find (fun tool => String.eqb (name tool) n) (available_tools c) = Some t ->
  session c = true ->
  has_no_properties (inputSchema t) ->
  (forall h', on_call_tool env h' n args = Ret r) ->
  exists evs,
    execute_tool env n args (c, h)
    = (Ret (match content r with
            | [] => "Tool executed successfully, but returned no content"
            | items => items_text items
            end), (c, (h ++ evs)%list)) /\
    requests evs = [CallTool n args].
Proof.
  intros Hfind Hsession Hplain Hanswer.
  rewrite (execute_plain_tool c h n args t Hfind Hsession Hplain).
  cbv zeta. rewrite Hanswer. eexists. split; reflexivity.
Qed.

(** X11.  When the server fails the calls of a tool, [execute_tool] does
    not raise and leaves the client object as it was, whatever the schema
    of the tool and the arguments: it returns "Error: Error executing
    tool <name>: " followed by a message.  It has sent nothing or the one
    call of the tool, and when it has sent the call the message is the
    one of the server's exception; for a connected client and a tool
    without properties the call is sent, with the arguments as given. *)
Theorem failed_call_is_reported (c : Client) (h : list event)
    (n : string) (args : list (string * pyval)) (e : exn) :
  (forall h' a, on_call_tool env h' n a = Raise e) ->
  exists msg evs,
    execute_tool env n args (c, h)
    = (Ret ("Error: Error executing tool " ++ n ++ ": " ++ msg),
       (c, (h ++ evs)%list)) /\
    (requests evs = [] \/
     exists a, requests evs = [CallTool n a] /\ msg = exn_msg e) /\
    (forall t,
       find (fun tool => String.eqb (name tool) n) (available_tools c) = Some t ->
       session c = true ->
       has_no_properties (inputSchema t) ->
       requests evs = [CallTool n args] /\ msg = exn_msg e).
Proof.
  intros Hfail.
  unfold execute_tool. rewrite run_bind. unfold log at 1, emit at 1.
  cbn [fst snd]. unfold try_catch. rewrite run_bind. unfold get at 1.
  cbn [fst snd].
  destruct (find _ (available_tools c)) as [t|] eqn:Hfind.
  2: { unfold throw, bind, log, print, emit, ret. cbn [fst snd raise exn_msg].
       eexists _, _. split; [rewrite <- !app_assoc; reflexivity|].
       split; [left; reflexivity|discriminate]. }
  destruct (session c) eqn:Hsession.
  2: { unfold throw, bind, log, print, emit, ret. cbn [fst snd raise exn_msg].
       eexists _, _. split; [rewrite <- !app_assoc; reflexivity|].
       split; [left; reflexivity|discriminate]. }
  cbv zeta.
  match goal with
  | |- context [bind ?A (fun has => bind (@?B has) ?REST) (c, ?h0)] =>
      rewrite (run_bind_assoc A B REST (c, h0));
      assert (Hconv : only (fun c' : Client => c' = c) silent (bind A B));
      [|destruct (only_run silent (bind A B) c h0 Hconv)
          as (r & evs & Hrun & Hevs)]
  end.
  { apply only_bind; [destruct (truthy _); [apply only_lift|apply only_ret]|].
    intros has. destruct has; [|apply only_ret].
    apply only_bind; [apply only_lift|intros p].
    apply convert_args_only; intros; discriminate. }
  assert (Hplain : has_no_properties (inputSchema t) ->
            r = Ret args /\ evs = []).
  { intros Hplain. rewrite run_bind in Hrun.
    assert (Hhas : forall s : Client * list event,
              (if truthy (inputSchema t)
               then lift (py_in (PStr "properties") (inputSchema t))
               else ret false) s = (Ret false, s)).
    { intros s. destruct Hplain as [Hempty|Hnone].
      - rewrite Hempty. reflexivity.
      - destruct (truthy (inputSchema t)); [|reflexivity].
        unfold lift. rewrite Hnone. reflexivity. }
    rewrite Hhas in Hrun. unfold ret in Hrun.
    injection Hrun as <- Hh. split; [reflexivity|].
    rewrite <- (app_nil_r (h ++ _)) in Hh at 1.
    exact (eq_sym (app_inv_head _ _ _ Hh)). }
  rewrite run_bind, Hrun. destruct r as [a|e1].
  - rewrite run_bind. unfold log at 1, emit at 1. cbn [fst snd].
    rewrite run_bind, run_send, Hfail.
    unfold bind, log, print, emit, ret. cbn [fst snd].
    exists (exn_msg e). eexists.
    split; [rewrite <- !app_assoc; reflexivity|].
    assert (Hreq : requests
              ([Logged INFO ("Executing tool: " ++ n ++ " with args: "
                             ++ json_dumps None (PDict args))]
               ++ evs
               ++ [Logged INFO ("Converted arguments: "
                                ++ json_dumps None (PDict a))]
               ++ [Sent (CallTool n a)]
               ++ [Logged ERROR ("Error executing tool " ++ n ++ ": "
                                 ++ exn_msg e)]
               ++ [Printed ("[bold red]"
                            ++ ("Error executing tool " ++ n ++ ": "
                                ++ exn_msg e)
                            ++ "[/bold red]")])
            = [CallTool n a]).
    { rewrite !requests_app, (requests_silent _ Hevs). reflexivity. }
    split; [right; exists a; split; [exact Hreq|reflexivity]|].
    intros t0 [= <-] _ Hp. destruct (Hplain Hp) as [[= ->] _].
    split; [exact Hreq|reflexivity].
  - unfold bind, log, print, emit, ret. cbn [fst snd].
    exists (exn_msg e1). eexists.
    split; [rewrite <- !app_assoc; reflexivity|].
    split.
    + left. rewrite !requests_app, (requests_silent _ Hevs). reflexivity.
    + intros t0 [= <-] _ Hp. destruct (Hplain Hp) as [Hr _]. discriminate Hr.
Qed.

End CallingTools.

(** ** Counting the events of one kind *)

Section Counting.
Import Protocol Observations.
Context {C : Type} (f : event -> bool).

Lemma count_app {A} (g : A -> bool) (l1 l2 : list A) :
  count g (l1 ++ l2) = (count g l1 + count g l2)%nat.
Proof. unfold count. rewrite List.filter_app, length_app. reflexivity. Qed.

Lemma count_none (l : list event) :
  Forall (fun ev => f ev = false) l -> count f l = 0%nat.
Proof.
  unfold count. induction 1 as [|ev rest Hev _ IH]; [reflexivity|].
  cbn [List.filter]. rewrite Hev. exact IH.
Qed.

Lemma counted_quiet {A} (n : nat) (m : M C A) :
  only (fun _ => True) (fun ev => f ev = false) m -> counted f n m.
Proof.
  intros Hm s. destruct (Hm s I) as (evs & Htr & Hevs & _).
  exists evs. split; [exact Htr|]. rewrite (count_none _ Hevs). lia.
Qed.

Lemma counted_bind {A B} (n1 n2 : nat) (m : M C A) (k : A -> M C B) :
  counted f n1 m -> (forall a, counted f n2 (k a)) ->
  counted f (n1 + n2) (bind m k).
Proof.
  intros Hm Hk s. unfold bind. destruct (Hm s) as (evs & Htr & Hn).
  destruct (m s) as [[a|e] s1]; cbn [fst snd] in Htr.
  - destruct (Hk a s1) as (evs' & Htr' & Hn').
    exists (evs ++ evs')%list. rewrite Htr', Htr, app_assoc, count_app.
    split; [reflexivity|lia].
  - exists evs. cbn [fst snd]. split; [exact Htr|lia].
Qed.

Lemma counted_bind_get {B} (n : nat) (k : C -> M C B) :
  (forall c, counted f n (k c)) -> counted f n (bind get k).
Proof. intros Hk [c h]. exact (Hk c (c, h)). Qed.

Lemma counted_try_catch {A} (n1 n2 : nat) (body : M C A)
    (handler : exn -> M C A) :
  counted f n1 body -> (forall e, counted f n2 (handler e)) ->
  counted f (n1 + n2) (try_catch body handler).
Proof.
  intros Hm Hk s. unfold try_catch. destruct (Hm s) as (evs & Htr & Hn).
  destruct (body s) as [[a|e] s1]; cbn [fst snd] in Htr.
  - exists evs. cbn [fst snd]. split; [exact Htr|lia].
  - destruct (Hk e s1) as (evs' & Htr' & Hn').
    exists (evs ++ evs')%list. rewrite Htr', Htr, app_assoc, count_app.
    split; [reflexivity|lia].
Qed.

Lemma counted_send {A} (r : request) (answer : list event -> py A) :
  counted (C := C) f 1 (send r answer).
Proof.
  intros s. exists [Sent r]. split; [reflexivity|].
  unfold count. cbn [List.filter]. destruct (f (Sent r)); cbn; lia.
Qed.

Lemma counted_emit (ev : event) : counted (C := C) f 1 (emit ev).
Proof.
  intros s. exists [ev]. split; [reflexivity|].
  unfold count. cbn [List.filter]. destruct (f ev); cbn; lia.
Qed.

End Counting.

(** ** The full client: one query *)

Section FullQueries.
Import Protocol FullClient Observations.
Context `{Builtins} (env : Env).

Section Generic.
Context (Inv : Client -> Prop) (P : event -> Prop).
Context (Hlog : forall l msg, P (Logged l msg)).
Context (Hprint : forall t, P (Printed t)).
Context (Hmodel : forall msgs tls, P (ModelCall msgs tls)).
Context (Hcall : forall n a, P (Sent (CallTool n a))).
Context (Hhist : forall m c, Inv c -> Inv (append_history m c)).

Lemma create_message_only (tls : list ModelTool) :
  only Inv P (create_message env tls).
Proof. unfold create_message. repeat only_step; auto. Qed.

Lemma use_tool_only (tls : list ModelTool) (tool_id tool_name : string)
    (tool_args : list (string * pyval)) :
  only Inv P (use_tool env tls tool_id tool_name tool_args).
Proof.
  unfold use_tool, print_texts.
  repeat only_step; auto using create_message_only.
  apply execute_tool_only; auto.
Qed.

Lemma handle_blocks_only (tls : list ModelTool) (blocks : list Block)
    (acc : list string) :
  only Inv P (handle_blocks env tls blocks acc).
Proof.
  revert acc. induction blocks as [|b rest IH]; intros acc; cbn [handle_blocks].
  - apply only_ret.
  - destruct b; repeat only_step; auto using use_tool_only.
Qed.

End Generic.

Lemma process_query_returns (query : string) :
  returns (process_query env query).
Proof.
  unfold process_query. intros [c h]. rewrite run_bind. unfold get at 1.
  cbn [fst snd]. rewrite run_bind, run_modify.
  apply returns_try_catch. intros e.
  apply returns_bind; [apply returns_emit|intros _]. apply returns_emit.
Qed.

Lemma extends_append (c : Client) (query : string) (m : Message)
    (c' : Client) :
  extends c query c' -> extends c query (append_history m c').
Proof.
  intros ((msgs & Hh) & Hs & Ht & Hp & Hr). split; [|repeat split; assumption].
  exists (msgs ++ [m])%list. cbn [append_history chat_history]. rewrite Hh.
  rewrite <- app_assoc. reflexivity.
Qed.

(** X12.  [process_query] never raises, whatever the model and the server
    do.  It only appends to the chat history, first the user message of
    the query, and changes no other field of the client object. *)
Theorem process_query_extends_history (c : Client) (h : list event)
    (query : string) :
  exists c' evs msgs,
    process_query env query (c, h) = (Ret (), (c', (h ++ evs)%list)) /\
    chat_history c'
    = (chat_history c ++ {| role := "user"; parts := [PText query] |} :: msgs)%list /\
    session c' = session c /\
    available_tools c' = available_tools c /\
    available_prompts c' = available_prompts c /\
    resource_roots c' = resource_roots c.
Proof.
  destruct (process_query_returns query (c, h)) as ([] & Hret).
  unfold process_query in Hret |- *. rewrite run_bind in Hret |- *.
  unfold get at 1 in Hret. unfold get at 1. cbn [fst snd] in Hret |- *.
  rewrite run_bind, run_modify in Hret |- *. cbv zeta in Hret |- *.
  lazymatch type of Hret with
  | (?m ?s).1 = _ =>
      assert (Honly : only (extends c query) (fun _ => True) m)
  end.
  { repeat only_step;
      auto using create_message_only, handle_blocks_only, extends_append. }
  lazymatch type of Hret with
  | (?m ?s).1 = _ =>
      destruct (Honly s) as (evs & Htr & _ & (msgs & Hh) & Hrest);
      [|destruct (m s) as [r [c' h']]]
  end.
  - split; [exists []; reflexivity|repeat split; reflexivity].
  - cbn [fst snd] in *. subst r h'. exists c', evs, msgs.
    split; [reflexivity|]. split; [exact Hh|exact Hrest].
Qed.

Lemma process_query_model_failure (c : Client) (h : list event)
    (query : string) (e : exn) :
  on_model env h (chat_history c ++ [user_message query])
    (get_anthropic_tools c) = Raise e ->
  process_query env query (c, h)
  = (Ret (),
     (append_history (user_message query) c,
      (h ++ [ModelCall (chat_history c ++ [user_message query])
               (get_anthropic_tools c);
             Logged ERROR ("Error processing query: " ++ exn_msg e);
             Printed ("[bold red]Error:[/bold red] " ++ exn_msg e)])%list)).
Proof.
  intros Hmodel.
  unfold process_query, create_message, bind, try_catch, get, history, modify,
    lift, log, print, emit, ret.
  cbn [fst snd append_history chat_history]. unfold user_message in Hmodel.
  rewrite Hmodel. cbn [fst snd]. rewrite <- !app_assoc. reflexivity.
Qed.

(** X13.  When the first call of the model fails, the failure is logged
    and printed and [process_query] returns: the query stays in the chat
    history with no reply after it, and nothing is sent to the server. *)
Theorem model_failure_keeps_query (c : Client) (h : list event)
    (query : string) (e : exn) :
  on_model env h (chat_history c ++ [user_message query])
    (get_anthropic_tools c) = Raise e ->
  exists c' evs,
    process_query env query (c, h) = (Ret (), (c', (h ++ evs)%list)) /\
    chat_history c'
    = (chat_history c ++ [ {| role := "user"; parts := [PText query] |} ])%list /\
    requests evs = [] /\
    Logged ERROR ("Error processing query: " ++ exn_msg e) ∈ evs /\
    Printed ("[bold red]Error:[/bold red] " ++ exn_msg e) ∈ evs.
Proof.
  intros Hmodel. rewrite (process_query_model_failure c h query e Hmodel).
  eexists _, _. split; [reflexivity|]. split; [reflexivity|].
  split; [reflexivity|]. split; [right; left|right; right; left].
Qed.

(** *** How many calls a query costs *)

Lemma create_message_run (tls : list ModelTool) (c : Client)
    (h : list event) :
  create_message env tls (c, h)
  = (on_model env h (chat_history c) tls,
     (c, (h ++ [ModelCall (chat_history c) tls])%list)).
Proof. reflexivity. Qed.

Lemma execute_tool_calls_once (n : string) (args : list (string * pyval)) :
  counted is_call_tool 1 (execute_tool env n args).
Proof.
  unfold execute_tool.
  apply (counted_bind _ 0 1); [apply counted_quiet, only_emit; reflexivity|].
  intros _.
  apply (counted_try_catch _ 1 0);
    [|intros e; apply counted_quiet; repeat only_step; reflexivity].
  apply counted_bind_get. intros c.
  destruct (find _ _) as [t|]; [|apply counted_quiet, only_throw].
  destruct (session c); [|apply counted_quiet, only_throw]. cbv zeta.
  apply (counted_bind _ 0 1);
    [apply counted_quiet; repeat only_step; reflexivity|intros has].
  apply (counted_bind _ 0 1).
  { apply counted_quiet. destruct has; [|apply only_ret].
    apply only_bind; [apply only_lift|intros p].
    apply convert_args_only; reflexivity. }
  intros conv.
  apply (counted_bind _ 0 1); [apply counted_quiet, only_emit; reflexivity|].
  intros _.
  apply (counted_bind _ 1 0); [apply counted_send|intros r].
  apply counted_quiet. repeat only_step; reflexivity.
Qed.

Lemma use_tool_calls_once (tls : list ModelTool) (tool_id tool_name : string)
    (tool_args : list (string * pyval)) :
  counted is_call_tool 1 (use_tool env tls tool_id tool_name tool_args).
Proof.
  unfold use_tool.
  apply (counted_bind _ 0 1); [apply counted_quiet, only_emit; reflexivity|].
  intros _.
  apply (counted_bind _ 0 1); [apply counted_quiet, only_emit; reflexivity|].
  intros _.
  apply (counted_try_catch _ 1 0);
    [|intros e; apply counted_quiet; repeat only_step; reflexivity].
  apply (counted_bind _ 1 0); [apply execute_tool_calls_once|intros text].
  apply counted_quiet. unfold print_texts, create_message.
  repeat only_step; auto; reflexivity.
Qed.

Lemma create_message_asks_once (tls : list ModelTool) :
  counted is_model_call 1 (create_message env tls).
Proof.
  unfold create_message. apply counted_bind_get. intros c.
  apply (counted_bind _ 0 1); [apply counted_quiet, only_history|intros h].
  apply (counted_bind _ 1 0); [apply counted_emit|intros _].
  apply counted_quiet, only_lift.
Qed.

Lemma use_tool_asks_once (tls : list ModelTool) (tool_id tool_name : string)
    (tool_args : list (string * pyval)) :
  counted is_model_call 1 (use_tool env tls tool_id tool_name tool_args).
Proof.
  unfold use_tool.
  apply (counted_bind _ 0 1); [apply counted_quiet, only_emit; reflexivity|].
  intros _.
  apply (counted_bind _ 0 1); [apply counted_quiet, only_emit; reflexivity|].
  intros _.
  apply (counted_try_catch _ 1 0);
    [|intros e; apply counted_quiet; repeat only_step; reflexivity].
  apply (counted_bind _ 0 1).
  { apply counted_quiet, execute_tool_only; reflexivity. }
  intros text.
  apply (counted_bind _ 0 1);
    [apply counted_quiet, only_modify; auto|intros _].
  apply (counted_bind _ 0 1);
    [apply counted_quiet, only_modify; auto|intros _].
  apply (counted_bind _ 1 0); [apply create_message_asks_once|intros reply].
  apply counted_quiet. unfold print_texts. repeat only_step; reflexivity.
Qed.

Lemma handle_blocks_counted (f : event -> bool) (tls : list ModelTool)
    (blocks : list Block) (acc : list string) :
  (forall t, f (Printed t) = false) ->
  (forall tool_id tool_name tool_args,
     counted f 1 (use_tool env tls tool_id tool_name tool_args)) ->
  counted f (count is_tool_use blocks) (handle_blocks env tls blocks acc).
Proof.
  intros Hprint Huse. revert acc.
  induction blocks as [|b rest IH]; intros acc; cbn [handle_blocks].
  - apply counted_quiet, only_ret.
  - destruct b as [t|tool_id tool_name tool_args|].
    + apply (counted_bind _ 0 (count is_tool_use rest));
        [apply counted_quiet, only_emit, Hprint|intros _; apply IH].
    + apply (counted_bind _ 1 (count is_tool_use rest));
        [apply Huse|intros _; apply IH].
    + apply IH.
Qed.

(** X14.  A query costs at most one tool call and one further call of the
    model for each [tool_use] block of the first reply: tool requests in
    the replies that follow a tool result are not executed.  When the
    first call of the model fails, the model was called once and no tool
    at all. *)
Theorem process_query_calls_bounded (c : Client) (h : list event)
    (query : string) :
  exists evs,
    (process_query env query (c, h)).2.2 = (h ++ evs)%list /\
    match on_model env h (chat_history c ++ [user_message query])
            (get_anthropic_tools c) with
    | Ret blocks =>
        (count is_call_tool evs <= count is_tool_use blocks)%nat /\
        (count is_model_call evs <= 1 + count is_tool_use blocks)%nat
    | Raise _ =>
        count is_call_tool evs = 0%nat /\ count is_model_call evs = 1%nat
    end.
Proof.
  destruct (on_model env h _ (get_anthropic_tools c)) as [blocks|e] eqn:Hmodel.
  - unfold process_query. rewrite run_bind. unfold get at 1. cbn [fst snd].
    cbv zeta. rewrite run_bind, run_modify.
    unfold try_catch. rewrite run_bind, create_message_run.
    cbn [append_history chat_history]. unfold user_message in Hmodel.
    rewrite Hmodel. rewrite run_bind.
    set (s1 := (_, (h ++ [ModelCall _ _])%list)).
    destruct (handle_blocks_counted is_call_tool (get_anthropic_tools c)
                blocks [] ltac:(reflexivity)
                (use_tool_calls_once (get_anthropic_tools c)) s1)
      as (evs1 & Htr1 & Hn1).
    destruct (handle_blocks_counted is_model_call (get_anthropic_tools c)
                blocks [] ltac:(reflexivity)
                (use_tool_asks_once (get_anthropic_tools c)) s1)
      as (evs2 & Htr2 & Hn2).
    rewrite Htr1 in Htr2. apply app_inv_head in Htr2. subst evs2.
    destruct (handle_blocks env (get_anthropic_tools c) blocks [] s1)
      as [[texts|e] [c2 h2]]; cbn [fst snd] in Htr1; subst h2 s1.
    + rewrite run_modify. cbn [fst snd]. rewrite <- app_assoc.
      eexists. split; [reflexivity|].
      rewrite !(count_app _ [_] evs1). cbn. split; lia.
    + unfold bind, log, print, emit. cbn [fst snd]. rewrite <- !app_assoc.
      eexists. split; [reflexivity|].
      rewrite !(count_app _ [_]), !(count_app _ evs1). cbn. split; lia.
  - rewrite (process_query_model_failure c h query e Hmodel). cbn [fst snd].
    eexists. split; [reflexivity|]. split; reflexivity.
Qed.

End FullQueries.

(** ** The full client: connecting *)

Section Connecting.
Import Protocol FullClient Observations.
Context `{Builtins} (env : Env).

Lemma read_roots_silent (c : Client) (items : list ContentItem) :
  only (same_but_roots c) silent (read_roots items).
Proof.
  induction items as [|item rest IH]; cbn [read_roots].
  - apply only_ret.
  - repeat only_step; auto; discriminate.
Qed.

Lemma read_roots_returns (items : list ContentItem) :
  returns (read_roots items).
Proof.
  induction items as [|item rest IH]; intros s; cbn [read_roots].
  - exists (). reflexivity.
  - destruct item as [t| |]; [|apply IH..].
    rewrite run_bind. unfold log at 1, emit at 1. cbn [fst snd].
    destruct (json_parse t) as [[| | | | | |d]|]; try apply IH.
    destruct (assoc "roots" d); [|apply IH]. exists (). reflexivity.
Qed.

Lemma discover_roots_run (c : Client) (h : list event) :
  exists c' evs,
    discover_roots env (c, h) = (Ret (), (c', (h ++ evs)%list)) /\
    requests evs = [CallTool "get_resource_roots" []] /\
    same_but_roots c c'.
Proof.
  unfold discover_roots, try_catch. rewrite run_bind.
  unfold log at 1, emit at 1. cbn [fst snd]. rewrite run_bind, run_send.
  destruct (on_call_tool env _ _ _) as [r|e].
  - rewrite run_bind. unfold log at 1, emit at 1. cbn [fst snd].
    match goal with
    | |- context [read_roots (content r) ?s] => set (s1 := s)
    end.
    destruct (read_roots_silent c (content r) s1)
      as (evs & Htr & Hevs & Hc); [repeat split|].
    destruct (read_roots_returns (content r) s1) as ([] & Hret).
    destruct (read_roots (content r) s1) as [res [c' h']].
    subst s1. cbn [fst snd] in *. subst res h'. rewrite <- !app_assoc.
    eexists _, _. split; [reflexivity|]. split; [|exact Hc].
    rewrite !requests_app, (requests_silent _ Hevs). reflexivity.
  - unfold bind, log, emit, modify. cbn [fst snd]. rewrite <- !app_assoc.
    eexists _, _. split; [reflexivity|]. split; [reflexivity|].
    repeat split.
Qed.

Lemma announce_run (c : Client) (h : list event) :
  exists r evs,
    announce (c, h) = (r, (c, (h ++ evs)%list)) /\ requests evs = [].
Proof.
  unfold announce, bind, get, lift, print, emit. cbn [fst snd].
  destruct (join_method ", " (resource_roots c)) as [roots|e]; cbn [fst snd].
  - eexists _, [_]. split; reflexivity.
  - eexists _, []. rewrite app_nil_r. split; reflexivity.
Qed.

(** X15.  What [connect_to_server] sends follows the handshake: the
    transport is opened, the session initialised, the tools listed, the
    prompts listed and the tool [get_resource_roots] called with no
    argument, in this order and each once; a failure stops the sequence
    where it is.  When the method returns all five requests were sent;
    when it does not, the last thing it did was print "Error connecting
    to server:" and the message of the failure. *)
Theorem connect_requests_in_order (c : Client) (h : list event) :
  exists evs,
    (connect_to_server env (c, h)).2.2 = (h ++ evs)%list /\
    requests evs `prefix_of`
      [Open; Initialize; ListTools; ListPrompts;
       CallTool "get_resource_roots" []] /\
    ((connect_to_server env (c, h)).1 = Ret true ->
       requests evs = [Open; Initialize; ListTools; ListPrompts;
                       CallTool "get_resource_roots" []]) /\
    ((connect_to_server env (c, h)).1 <> Ret true ->
       exists msg,
         last evs
         = Some (Printed ("[bold red]Error connecting to server:[/bold red] "
                          ++ msg))).
Proof.
  unfold connect_to_server, try_catch. rewrite run_bind, run_send.
  destruct (on_open env h) as [[]|e].
  2:{ unfold bind, print, emit, ret. cbn [fst snd]. rewrite <- app_assoc.
      eexists. split; [reflexivity|]. split; [eexists; reflexivity|].
      split; [discriminate|]. intros _. eexists. reflexivity. }
  rewrite run_bind, run_modify, run_bind, run_send.
  destruct (on_initialize env _) as [[]|e].
  2:{ unfold bind, print, emit, ret. cbn [fst snd]. rewrite <- !app_assoc.
      eexists. split; [reflexivity|]. split; [eexists; reflexivity|].
      split; [discriminate|]. intros _. eexists. reflexivity. }
  rewrite run_bind, run_send.
  destruct (on_list_tools env _) as [tools|e].
  2:{ unfold bind, print, emit, ret. cbn [fst snd]. rewrite <- !app_assoc.
      eexists. split; [reflexivity|]. split; [eexists; reflexivity|].
      split; [discriminate|]. intros _. eexists. reflexivity. }
  rewrite run_bind, run_modify, run_bind, run_send.
  destruct (on_list_prompts env _) as [prompts|e].
  2:{ unfold bind, print, emit, ret. cbn [fst snd]. rewrite <- !app_assoc.
      eexists. split; [reflexivity|]. split; [eexists; reflexivity|].
      split; [discriminate|]. intros _. eexists. reflexivity. }
  rewrite run_bind, run_modify, run_bind.
  match goal with
  | |- context [discover_roots env (?c1, ?h1)] =>
      destruct (discover_roots_run c1 h1) as (c2 & evs2 & -> & Hreq2 & _)
  end.
  rewrite run_bind.
  match goal with
  | |- context [announce (c2, ?h2)] =>
      destruct (announce_run c2 h2) as (r & evs3 & -> & Hreq3)
  end.
  destruct r as [[]|e].
  - unfold ret. cbn [fst snd]. rewrite <- !app_assoc.
    eexists. split; [reflexivity|].
    rewrite !requests_app, Hreq2, Hreq3. split; [reflexivity|].
    split; [reflexivity|]. intros Hne. destruct (Hne eq_refl).
  - unfold bind, print, emit, ret. cbn [fst snd].
    exists (([Sent Open; Sent Initialize; Sent ListTools; Sent ListPrompts]
             ++ evs2 ++ evs3)
            ++ [Printed ("[bold red]Error connecting to server:[/bold red] "
                         ++ exn_msg e)])%list.
    split; [rewrite <- !app_assoc; reflexivity|].
    rewrite !requests_app, Hreq2, Hreq3. split; [reflexivity|].
    split; [discriminate|]. intros _. eexists. apply last_snoc.
Qed.

(** X16.  A failure of the tool [get_resource_roots] does not fail the
    connection: with a server that answers the handshake and the two
    listings, [connect_to_server] succeeds, logs the error, keeps the
    tools and prompts answered and holds an empty list of roots. *)
Theorem roots_failure_is_not_fatal (c : Client) (h : list event)
    (tools : list Tool) (prompts : list Prompt) (e : exn) :
  (forall h', on_open env h' = Ret ()) ->
  (forall h', on_initialize env h' = Ret ()) ->
  (forall h', on_list_tools env h' = Ret tools) ->
  (forall h', on_list_prompts env h' = Ret prompts) ->
  (forall h', on_call_tool env h' "get_resource_roots" [] = Raise e) ->
  exists c' evs,
    connect_to_server env (c, h) = (Ret true, (c', (h ++ evs)%list)) /\
    session c' = true /\
    available_tools c' = tools /\
    available_prompts c' = prompts /\
    resource_roots c' = PList [] /\
    Logged ERROR ("Error calling get_resource_roots: " ++ exn_msg e) ∈ evs.
Proof.
  intros Hopen Hinit Htools Hprompts Hroots.
  unfold connect_to_server, discover_roots, announce, try_catch.
  rewrite run_bind, run_send, Hopen.
  rewrite run_bind, run_modify, run_bind, run_send, Hinit.
  rewrite run_bind, run_send, Htools.
  rewrite run_bind, run_modify, run_bind, run_send, Hprompts.
  rewrite run_bind, run_modify, run_bind, run_bind.
  unfold log at 1, emit at 1. cbn [fst snd].
  rewrite run_bind, run_send, Hroots.
  unfold bind, log, print, emit, modify, get, lift, ret.
  cbn [fst snd set_resource_roots resource_roots join_method strs_of].
  rewrite <- !app_assoc. eexists _, _. split; [reflexivity|].
  repeat (split; [reflexivity|]).
  cbn [app]. do 6 right. left.
Qed.

End Connecting.

(** ** The basic client *)

Section BasicBehaviour.
Import Protocol Observations.
Context `{Builtins} (env : Env).

Lemma for_each_sends {C A} (body : A -> M C unit) (l : list A) (x : A)
    (ev : event) :
  (forall y, returns (body y)) ->
  (forall y, only (fun _ => True) (fun _ => True) (body y)) ->
  (forall s, exists evs, (body x s).2.2 = (s.2 ++ evs)%list /\ ev ∈ evs) ->
  x ∈ l ->
  forall s, exists evs, (for_each l body s).2.2 = (s.2 ++ evs)%list /\ ev ∈ evs.
Proof.
  intros Hret Hgrow Hx. induction l as [|y rest IH]; intros Hin s.
  - inversion Hin.
  - cbn [for_each]. rewrite run_bind.
    destruct (Hret y s) as ([] & Hy).
    apply elem_of_cons in Hin as [<-|Hin].
    + destruct (Hx s) as (evs & Htr & Hev).
      destruct (body x s) as [r s1]. cbn [fst snd] in Hy, Htr. subst r.
      destruct (only_for_each (fun _ => True) (fun _ => True) rest body Hgrow s1 I)
        as (evs' & Htr' & _).
      exists (evs ++ evs')%list. rewrite Htr', Htr, app_assoc.
      split; [reflexivity|]. apply elem_of_app. left. exact Hev.
    + destruct (Hgrow y s I) as (evs & Htr & _).
      destruct (body y s) as [r s1]. cbn [fst snd] in Hy, Htr. subst r.
      destruct (IH Hin s1) as (evs' & Htr' & Hev).
      exists (evs ++ evs')%list. rewrite Htr', Htr, app_assoc.
      split; [reflexivity|]. apply elem_of_app. right. exact Hev.
Qed.

Lemma basic_use_tool_returns (tools : list ModelTool)
    (tool_id tool_name : string) (tool_args : list (string * pyval)) :
  returns (BasicClient.use_tool env tools tool_id tool_name tool_args).
Proof.
  unfold BasicClient.use_tool, print.
  apply returns_bind; [apply returns_emit|intros _].
  apply returns_bind; [apply returns_emit|intros _].
  apply returns_try_catch. intros e.
  apply returns_bind; [apply returns_emit|intros _].
  intros s. exists (). reflexivity.
Qed.

Lemma basic_use_tool_sends (tools : list ModelTool)
    (tool_id tool_name : string) (tool_args : list (string * pyval))
    (s : BasicClient.Client * list event) :
  exists evs,
    (BasicClient.use_tool env tools tool_id tool_name tool_args s).2.2
    = (s.2 ++ evs)%list /\
    Sent (CallTool tool_name tool_args) ∈ evs.
Proof.
  destruct s as [c h]. unfold BasicClient.use_tool.
  rewrite run_bind. unfold print at 1, emit at 1. cbn [fst snd].
  rewrite run_bind. unfold print at 1, emit at 1. cbn [fst snd].
  unfold try_catch.
  match goal with
  | |- context [bind (send ?r ?answer) ?k (?c1, ?h1)] =>
      destruct (send_then r answer k c1 h1) as (rest & Htr);
      [intros a; unfold BasicClient.create_message; repeat only_step; auto|];
      destruct (bind (send r answer) k (c1, h1)) as [[u|e] [c2 h2]]
  end; cbn [fst snd] in Htr; subst h2.
  - cbn [fst snd]. rewrite <- !app_assoc. eexists. split; [reflexivity|].
    cbn [app]. do 2 right. left.
  - unfold bind, print, emit, modify. cbn [fst snd]. rewrite <- !app_assoc.
    eexists. split; [reflexivity|]. cbn [app]. do 2 right. left.
Qed.

Lemma basic_block_returns (tools : list ModelTool) (b : Block) :
  returns (basic_block env tools b).
Proof.
  destruct b as [t|tool_id tool_name tool_args|]; cbn [basic_block].
  - intros s. exists (). reflexivity.
  - apply basic_use_tool_returns.
  - apply returns_ret.
Qed.

Lemma basic_block_grows (tools : list ModelTool) (b : Block) :
  only (fun _ => True) (fun _ => True) (basic_block env tools b).
Proof.
  destruct b as [t|tool_id tool_name tool_args|]; cbn [basic_block].
  - repeat only_step; auto.
  - apply basic_use_tool_grows.
  - apply only_ret.
Qed.

Lemma basic_create_message_run (tls : list ModelTool)
    (c : BasicClient.Client) (h : list event) :
  BasicClient.create_message env tls (c, h)
  = (on_model env h (BasicClient.resolve c) tls,
     (c, (h ++ [ModelCall (BasicClient.resolve c) tls])%list)).
Proof. reflexivity. Qed.

Lemma warn_run {A} (l : list A) (w : string) (c : BasicClient.Client)
    (h : list event) :
  (match l with [] => print w | _ => ret () end) (c, h)
  = (Ret (), (c, (h ++ match l with [] => [Printed w] | _ => [] end)%list)).
Proof. destruct l; [reflexivity|]. rewrite app_nil_r. reflexivity. Qed.

(** X17.  The basic client forwards every [tool_use] block of the first
    reply to the server, with the name and the arguments as the model
    gave them: it neither looks the name up among the tools the server
    listed nor converts the arguments. *)
Theorem basic_client_forwards_tool_use (c : BasicClient.Client)
    (h : list event) (query : string) (tools : list Tool)
    (blocks : list Block) (tool_id tool_name : string)
    (tool_args : list (string * pyval)) :
  BasicClient.session c = true ->
  on_list_tools env h = Ret tools ->
  (forall h', on_model env h' [user_message query] (model_tools tools)
              = Ret blocks) ->
  ToolUse tool_id tool_name tool_args ∈ blocks ->
  exists evs,
    (BasicClient.process_query env query (c, h)).2.2 = (h ++ evs)%list /\
    Sent (CallTool tool_name tool_args) ∈ evs.
Proof.
  intros Hsession Htools Hmodel Hin.
  unfold BasicClient.process_query. rewrite run_bind. unfold get at 1.
  cbn [fst snd]. rewrite Hsession. cbn [negb].
  rewrite run_bind, run_modify, run_bind, run_send, Htools. cbv zeta.
  rewrite run_bind.
  rewrite warn_run.
  cbn [fst snd]. rewrite run_bind. unfold print at 1, emit at 1.
  cbn [fst snd]. rewrite run_bind, basic_create_message_run.
  cbn [BasicClient.resolve BasicClient.set_locals BasicClient.messages map].
  unfold user_message in Hmodel. rewrite Hmodel. rewrite run_bind.
  match goal with
  | |- context [for_each blocks ?body ?s] =>
      destruct (for_each_sends (basic_block env (model_tools tools)) blocks
                  (ToolUse tool_id tool_name tool_args)
                  (Sent (CallTool tool_name tool_args))
                  (basic_block_returns _) (basic_block_grows _)
                  (basic_use_tool_sends _ _ _ _) Hin s)
        as (evs & Htr & Hev);
      destruct (only_for_each (fun _ => True) (fun _ => True) blocks
                  (basic_block env (model_tools tools)) (basic_block_grows _) s I)
        as (evs' & _);
      change (for_each blocks body s)
        with (for_each blocks (basic_block env (model_tools tools)) s);
      destruct (for_each blocks (basic_block env (model_tools tools)) s)
        as [[[]|e] [c2 h2]]
  end; cbn [fst snd] in Htr; subst h2; cbn [fst snd];
    rewrite <- !app_assoc; (eexists; split; [reflexivity|]);
    rewrite !elem_of_app; repeat right; exact Hev.
Qed.



(** X18.  Given a script path that ends in neither [.py] nor [.js], the
    basic client opens no transport and processes no query: the session
    prints the error and the disconnection line and leaves the client
    object as it was. *)
Theorem bad_script_path_opens_nothing (c : BasicClient.Client)
    (h : list event) (path : string) (queries : list string) :
  endswith path ".py" = false ->
  endswith path ".js" = false ->
  BasicClient.main env path queries (c, h)
  = (Ret (),
     (c, (h ++ [Printed ("Error: Server script must be a .py or .js file. Got: "
                         ++ path);
                Printed (NotesServer.nl ++ "Disconnected from MCP server.")])%list)).
Proof.
  intros Hpy Hjs.
  unfold BasicClient.main, BasicClient.connect_to_server, try_catch, bind.
  rewrite Hpy, Hjs. unfold print, emit, ret. cbn [fst snd orb negb].
  rewrite <- !app_assoc. reflexivity.
Qed.


End BasicBehaviour.

(** *** The client properties on example servers *)

(** X8 at a client that knows the tool [add] and has no session. *)
Lemma execute_tool_needs_session_witness :
  exists evs,
    FullClient.execute_tool Example.env "add" [("a", PInt 1); ("b", PInt 2)]
      (Samples.offline_client, [])
    = (Ret ("Error: Error executing tool " ++ "add"
            ++ ": Not connected to server"),
       (Samples.offline_client, ([] ++ evs)%list)) /\
    forall r, Protocol.Sent r ∉ evs.
Proof.
  apply (execute_tool_needs_session Example.env Samples.offline_client []
           "add" [("a", PInt 1); ("b", PInt 2)]).
  - left.
  - reflexivity.
Defined.

(** X10 at the tool [echo], which declares no schema. *)
Lemma plain_tool_is_called_as_given_witness :
  exists evs,
    FullClient.execute_tool Samples.echo_env "echo" [("x", PStr "1")]
      (Samples.echo_client, [])
    = (Ret "ab", (Samples.echo_client, ([] ++ evs)%list)) /\
    Observations.requests evs = [Protocol.CallTool "echo" [("x", PStr "1")]].
Proof.
  apply (plain_tool_is_called_as_given Samples.echo_env Samples.echo_client []
           "echo" [("x", PStr "1")] Samples.echo_tool Samples.echo_result).
  - reflexivity.
  - reflexivity.
  - left. reflexivity.
  - intros h'. reflexivity.
Defined.

(** X11 at the tool [echo] of a server that has closed the connection. *)
Lemma failed_call_is_reported_witness :
  exists msg evs,
    FullClient.execute_tool Samples.failing_env "echo" [("x", PStr "1")]
      (Samples.echo_client, [])
    = (Ret ("Error: Error executing tool " ++ "echo" ++ ": " ++ msg),
       (Samples.echo_client, ([] ++ evs)%list)) /\
    (Observations.requests evs = [] \/
     exists a, Observations.requests evs = [Protocol.CallTool "echo" a] /\
               msg = exn_msg Samples.closed) /\
    (forall t,
       find (fun tool => String.eqb (Protocol.name tool) "echo")
         (FullClient.available_tools Samples.echo_client) = Some t ->
       FullClient.session Samples.echo_client = true ->
       Observations.has_no_properties (Protocol.inputSchema t) ->
       Observations.requests evs = [Protocol.CallTool "echo" [("x", PStr "1")]] /\
       msg = exn_msg Samples.closed).
Proof.
  apply (failed_call_is_reported Samples.failing_env Samples.echo_client []
           "echo" [("x", PStr "1")] Samples.closed).
  intros h' a. reflexivity.
Defined.

(** X13 at a model that is overloaded. *)
Lemma model_failure_keeps_query_witness :
  exists c' evs,
    FullClient.process_query Samples.failing_env "hello"
      (Samples.echo_client, [])
    = (Ret (), (c', ([] ++ evs)%list)) /\
    FullClient.chat_history c'
    = (FullClient.chat_history Samples.echo_client
       ++ [ {| Protocol.role := "user";
               Protocol.parts := [Protocol.PText "hello"] |} ])%list /\
    Observations.requests evs = [] /\
    Protocol.Logged Protocol.ERROR
      ("Error processing query: " ++ exn_msg Samples.overloaded) ∈ evs /\
    Protocol.Printed ("[bold red]Error:[/bold red] "
                      ++ exn_msg Samples.overloaded) ∈ evs.
Proof.
  apply (model_failure_keeps_query Samples.failing_env Samples.echo_client []
           "hello" Samples.overloaded).
  reflexivity.
Defined.

(** X16 at a server whose tools fail. *)
Lemma roots_failure_is_not_fatal_witness :
  exists c' evs,
    FullClient.connect_to_server Samples.failing_env (FullClient.initial, [])
    = (Ret true, (c', ([] ++ evs)%list)) /\
    FullClient.session c' = true /\
    FullClient.available_tools c' = [Samples.echo_tool] /\
    FullClient.available_prompts c' = [] /\
    FullClient.resource_roots c' = PList [] /\
    Protocol.Logged Protocol.ERROR
      ("Error calling get_resource_roots: " ++ exn_msg Samples.closed) ∈ evs.
Proof.
  apply (roots_failure_is_not_fatal Samples.failing_env FullClient.initial []
           [Samples.echo_tool] [] Samples.closed);
    intros h'; reflexivity.
Defined.

(** X17 at a model that asks for the tool [undeclared], which the server
    did not list. *)
Lemma basic_client_forwards_tool_use_witness :
  ("undeclared" ∉ map Protocol.name [Samples.echo_tool]) /\
  exists evs,
    (BasicClient.process_query Samples.echo_env "hello"
       (BasicClient.set_session true BasicClient.initial, [])).2.2
    = ([] ++ evs)%list /\
    Protocol.Sent (Protocol.CallTool "undeclared" [("x", PStr "1")]) ∈ evs.
Proof.
  split.
  - intros Hin. apply list_elem_of_singleton in Hin. discriminate Hin.
  - apply (basic_client_forwards_tool_use Samples.echo_env
             (BasicClient.set_session true BasicClient.initial) [] "hello"
             [Samples.echo_tool]
             [Protocol.ToolUse "t1" "undeclared" [("x", PStr "1")]]
             "t1" "undeclared" [("x", PStr "1")]).
    + reflexivity.
    + reflexivity.
    + intros h'. reflexivity.
    + left.
Defined.

(** X18 at a text file. *)
Lemma bad_script_path_opens_nothing_witness :
  BasicClient.main Example.env "server.txt" ["add 5 and 3"]
    (BasicClient.initial, [])
  = (Ret (),
     (BasicClient.initial,
      ([] ++ [Protocol.Printed
                ("Error: Server script must be a .py or .js file. Got: "
                 ++ "server.txt");
              Protocol.Printed
                (NotesServer.nl ++ "Disconnected from MCP server.")])%list)).
Proof.
  apply (bad_script_path_opens_nothing Example.env BasicClient.initial []
           "server.txt" ["add 5 and 3"]); reflexivity.
Defined.


(** ** The research tools *)

Section Web.
Import NotesServer WebTools.

Lemma search_url_is_example (n : string) :
  str_contains "example.com" ("https://example.com/result-" ++ n) = true.
Proof.
  change ("https://example.com/result-" ++ n)
    with ("https://" ++ "example.com" ++ "/result-" ++ n).
  apply str_contains_middle.
Qed.

Lemma length_str_take (n : nat) (s : string) :
  (String.length (str_take n s) <= n)%nat.
Proof.
  revert s. induction n as [|n IH]; intros [|c r]; cbn; try lia.
  specialize (IH r). lia.
Qed.

(** X20.  [search_web] never fails and returns as many results as asked
    for (five by default, none for a count that is zero or negative), and
    every URL among them is one [fetch_webpage_content] serves from its
    simulated page, without any request, whatever the network would
    do. *)
Theorem search_results_are_served_offline (now query : string)
    (max_results : option Z) :
  exists rs,
    search_web now query max_results
    = PDict [("success", PBool true); ("results", PList rs);
             ("query", PStr query); ("timestamp", PStr now)] /\
    length rs = Z.to_nat (default 5 max_results) /\
    forall r, r ∈ rs ->
      exists u,
        getitem r "url" = Ret (PStr u) /\
        forall (fetch : string -> py Soup) (now' : string),
          fetch_webpage_content fetch now' u
          = PDict [("success", PBool true);
                   ("title", PStr ("Example Page for " ++ u));
                   ("content", PStr (simulated_content u));
                   ("url", PStr u);
                   ("timestamp", PStr now')].
Proof.
  eexists. split; [reflexivity|]. split.
  - rewrite List.length_map, List.length_seq. reflexivity.
  - intros r Hin. apply list_elem_of_In, in_map_iff in Hin as (i & <- & _).
    eexists. split; [reflexivity|]. intros fetch now'.
    unfold fetch_webpage_content. rewrite search_url_is_example. reflexivity.
Qed.

(** X21.  For a URL outside [example.com], [fetch_webpage_content] does
    not raise: a page that was fetched comes back with success and a
    content of at most 10000 characters, and a failure of the request
    comes back as the dict with [success] false, the message of the
    exception and the URL. *)
Theorem fetched_content_is_bounded (fetch : string -> py Soup)
    (now url : string) :
  str_contains "example.com" url = false ->
  match fetch url with
  | Ret soup =>
      exists c,
        getitem (fetch_webpage_content fetch now url) "success"
        = Ret (PBool true) /\
        getitem (fetch_webpage_content fetch now url) "content"
        = Ret (PStr c) /\
        (String.length c <= 10000)%nat
  | Raise e =>
      fetch_webpage_content fetch now url
      = PDict [("success", PBool false); ("error", PStr (exn_msg e));
               ("url", PStr url)]
  end.
Proof.
  intros Hreal. unfold fetch_webpage_content. rewrite Hreal.
  destruct (fetch url) as [soup|e]; [|reflexivity].
  eexists. split; [reflexivity|]. split; [reflexivity|].
  apply length_str_take.
Qed.

End Web.

(** X21 for a page of one paragraph. *)
Lemma fetched_content_is_bounded_witness :
  exists c,
    getitem (WebTools.fetch_webpage_content
               (fun _ => Ret {| WebTools.soup_title := None;
                                WebTools.paragraphs := ["Hello"] |})
               "2025-01-02T10:00:00" "https://rocq-prover.org/") "success"
    = Ret (PBool true) /\
    getitem (WebTools.fetch_webpage_content
               (fun _ => Ret {| WebTools.soup_title := None;
                                WebTools.paragraphs := ["Hello"] |})
               "2025-01-02T10:00:00" "https://rocq-prover.org/") "content"
    = Ret (PStr c) /\
    (String.length c <= 10000)%nat.
Proof.
  apply (fetched_content_is_bounded
           (fun _ => Ret {| WebTools.soup_title := None;
                            WebTools.paragraphs := ["Hello"] |})
           "2025-01-02T10:00:00" "https://rocq-prover.org/").
  reflexivity.
Defined.

(** ** The documents *)

Section DocumentStrings.
Import NotesServer DocumentsServer.

Lemma str_drop_add (a b : string) (n : nat) :
  str_drop (String.length a + n) (a ++ b) = str_drop n b.
Proof. induction a as [|c r IH]; [reflexivity|exact IH]. Qed.

Lemma html_is_not_md (x : string) : endswith (x ++ ".html") ".md" = false.
Proof.
  unfold endswith. rewrite length_app_string. cbn [String.length].
  replace (String.length x + 5 - 3)%nat with (String.length x + 2)%nat by lia.
  rewrite str_drop_add. cbn [str_drop]. apply andb_false_r.
Qed.

End DocumentStrings.

Section Documents.
Context `{Builtins}.
Import NotesServer DocumentsServer.

Lemma generate_written (w : DocWorld) (fs : documents_dir) (title : string)
    (sections : list pyval) (content_type : option string) (id : string) :
  getitem (generate_markdown_doc w fs title sections content_type).1 "doc_id"
  = Ret (PStr id) ->
  id = doc_uuid4 w /\
  exists html,
    (generate_markdown_doc w fs title sections content_type).2
    = <[document_stem title id ++ ".html" := html]>
        (<[document_stem title id ++ ".md" :=
             {| text_of := Readable (markdown_content w title sections);
                mtime := doc_mtime w |}]> fs).
Proof.
  unfold generate_markdown_doc, write_text.
  destruct (md_disk w) as [|msg|msg partial]; cbn;
    [|intros Hid; discriminate Hid..].
  destruct (html_disk w) as [|msg|msg partial]; cbn;
    [|intros Hid; discriminate Hid..].
  intros Hid. injection Hid as <-. split; [reflexivity|].
  eexists. reflexivity.
Qed.

Lemma glob_md_lookup (fs : documents_dir) (listing : list (string * doc_file))
    (e : string * doc_file) :
  is_glob_md fs listing ->
  e ∈ listing <-> endswith e.1 ".md" = true /\ fs !! e.1 = Some e.2.
Proof.
  unfold is_glob_md. intros ->.
  rewrite list_elem_of_filter, elem_of_map_to_list', Is_true_true. reflexivity.
Qed.

Lemma doc_id_step_raises (u doc_id : string) (e : string * doc_file)
    (r : py ResourceReadResponse) :
  doc_id_step u doc_id e = Some r -> r = Raise missing_class.
Proof.
  unfold doc_id_step. destruct (str_contains doc_id (stem e.1)); [|discriminate].
  intros [= <-]. destruct (text_of e.2); reflexivity.
Qed.

Lemma first_doc_raises (u doc_id : string) (listing : list (string * doc_file))
    (r : py ResourceReadResponse) :
  first_doc (doc_id_step u doc_id) listing = Some r -> r = Raise missing_class.
Proof.
  induction listing as [|e rest IH]; cbn [first_doc]; [discriminate|].
  destruct (doc_id_step u doc_id e) as [r'|] eqn:Hstep; [|exact IH].
  intros [= <-]. exact (doc_id_step_raises _ _ _ _ Hstep).
Qed.

Lemma get_documents_resource_raises (listing : list (string * doc_file))
    (u : string) :
  get_documents_resource listing u = Raise missing_class.
Proof.
  unfold get_documents_resource.
  assert (Hbody : exists e, get_documents_resource_body listing u = Raise e).
  { unfold get_documents_resource_body.
    destruct (String.eqb u "documents:list"); [eexists; reflexivity|].
    destruct (startswith u "documents:id:"); [|eexists; reflexivity].
    destruct (list_item (split u "documents:id:") 1) as [doc_id|e];
      [|eexists; reflexivity].
    rewrite bind_ret.
    destruct (first_doc (doc_id_step u doc_id) listing) as [r|] eqn:Hfirst;
      [|eexists; reflexivity].
    rewrite (first_doc_raises _ _ _ _ Hfirst). eexists. reflexivity. }
  destruct Hbody as [e ->]. reflexivity.
Qed.

(** X22.  A document that [generate_markdown_doc] has written is not
    read back through the documents resource: the Markdown file with the
    text returned is among the files the handler lists, and the handler
    raises [AttributeError] on every URI, [documents:list] and
    [documents:id:<id>] included: each of its branches and its [except]
    clause builds the response from [types.ResourceReadResponse], which
    the module [mcp.types] does not define. *)
Theorem generated_document_is_not_read_back (w : DocWorld) (fs : documents_dir)
    (T : string) (sections : list pyval) (content_type : option string)
    (id : string) (listing : list (string * doc_file)) :
  let generated := generate_markdown_doc w fs T sections content_type in
  getitem generated.1 "doc_id" = Ret (PStr id) ->
  is_glob_md generated.2 listing ->
  (exists text,
     getitem generated.1 "content" = Ret (PStr text) /\
     (document_stem T id ++ ".md",
      {| text_of := Readable text; mtime := doc_mtime w |}) ∈ listing) /\
  forall u,
    get_documents_resource listing u
    = Raise (Exn AttributeError
               "module 'mcp.types' has no attribute 'ResourceReadResponse'").
Proof.
  cbv zeta. intros Hid Hglob. split; [|intros u; apply get_documents_resource_raises].
  exists (markdown_content w T sections). split.
  - revert Hid. unfold generate_markdown_doc, write_text.
    destruct (md_disk w) as [|msg|msg partial]; cbn;
      [|intros Hid; discriminate Hid..].
    destruct (html_disk w) as [|msg|msg partial]; cbn;
      [|intros Hid; discriminate Hid..].
    reflexivity.
  - apply generate_written in Hid as (_ & html & Hfs). rewrite Hfs in Hglob.
    apply (glob_md_lookup _ _ _ Hglob). cbn [fst snd]. split.
    + apply endswith_app.
    + rewrite lookup_insert_ne; [apply lookup_insert_eq|].
      intros Heq. pose proof (html_is_not_md (document_stem T id)) as Hhtml.
      rewrite Heq, endswith_app in Hhtml. discriminate Hhtml.
Qed.

(** X23.  [generate_markdown_doc] is not all or nothing: when the
    Markdown file has been written and the HTML file cannot be opened,
    the tool returns the failure dict with the message of the error, and
    the Markdown file it wrote stays in the directory, while no HTML
    file is written. *)
Theorem failed_html_write_keeps_markdown (w : DocWorld) (fs : documents_dir)
    (T : string) (sections : list pyval) (content_type : option string)
    (msg : string) :
  let generated := generate_markdown_doc w fs T sections content_type in
  md_disk w = Written ->
  html_disk w = OpenError msg ->
  generated.1 = PDict [("success", PBool false); ("error", PStr msg)] /\
  generated.2 !! (document_stem T (doc_uuid4 w) ++ ".md")
  = Some {| text_of := Readable (markdown_content w T sections);
            mtime := doc_mtime w |} /\
  generated.2 !! (document_stem T (doc_uuid4 w) ++ ".html")
  = fs !! (document_stem T (doc_uuid4 w) ++ ".html").
Proof.
  cbv zeta. intros Hmd Hhtml.
  unfold generate_markdown_doc, write_text. rewrite Hmd, Hhtml. cbn.
  split; [reflexivity|]. split; [apply lookup_insert_eq|].
  apply lookup_insert_ne.
  intros Heq. pose proof (html_is_not_md (document_stem T (doc_uuid4 w))) as Hne.
  rewrite <- Heq, endswith_app in Hne. discriminate Hne.
Qed.

End Documents.

(** X22 for the document "Plan" generated next to the guide. *)
Lemma generated_document_is_not_read_back_witness :
  (exists text,
     getitem
       (DocumentsServer.generate_markdown_doc DocSamples.world
          DocSamples.documents "Plan" [PStr "Goals"] None).1 "content"
     = Ret (PStr text) /\
     (DocumentsServer.document_stem "Plan" "0a1b2c3d-2222-4222-8222-222222222222"
      ++ ".md",
      {| DocumentsServer.text_of := DocumentsServer.Readable text;
         DocumentsServer.mtime := "2025-01-02T10:00:01" |})
     ∈ [ ("guide_deadbeef.md", DocSamples.guide);
         ("plan_0a1b2c3d.md", DocSamples.plan) ]) /\
  forall u,
    DocumentsServer.get_documents_resource
      [ ("guide_deadbeef.md", DocSamples.guide);
        ("plan_0a1b2c3d.md", DocSamples.plan) ] u
    = Raise (Exn AttributeError
               "module 'mcp.types' has no attribute 'ResourceReadResponse'").
Proof.
  apply (generated_document_is_not_read_back DocSamples.world
           DocSamples.documents "Plan" [PStr "Goals"] None
           "0a1b2c3d-2222-4222-8222-222222222222").
  - reflexivity.
  - unfold DocumentsServer.is_glob_md. vm_compute.
    first [reflexivity | apply perm_swap].
Defined.

(** X23 for the document "Plan" on a disk that fills up after the first
    file. *)
Lemma failed_html_write_keeps_markdown_witness :
  let generated :=
    DocumentsServer.generate_markdown_doc DocSamples.full_disk_world
      DocSamples.documents "Plan" [PStr "Goals"] None in
  generated.1
  = PDict [("success", PBool false); ("error", PStr "No space left on device")] /\
  generated.2 !! ("plan_0a1b2c3d" ++ ".md") = Some DocSamples.plan /\
  generated.2 !! ("plan_0a1b2c3d" ++ ".html")
  = DocSamples.documents !! ("plan_0a1b2c3d" ++ ".html").
Proof.
  apply (failed_html_write_keeps_markdown DocSamples.full_disk_world
           DocSamples.documents "Plan" [PStr "Goals"] None
           "No space left on device");
    reflexivity.
Defined.

(** ** The prompts *)

Section PromptTemplates.
Import NotesServer Prompts.

Lemma str_contains_app_r (c a s : string) :
  str_contains c s = true -> str_contains c (a ++ s) = true.
Proof.
  intros Hs. induction a as [|x r IH]; [exact Hs|].
  rewrite append_cons. cbn [str_contains]. rewrite IH. apply orb_true_r.
Qed.

Lemma str_contains_here (c b : string) : str_contains c (c ++ b) = true.
Proof. apply str_contains_prefix, prefix_app. Qed.

Lemma dict_get_unknown (key : string) (d : list (string * string))
    (fallback : string) :
  key ∉ map fst d -> dict_get key d fallback = fallback.
Proof.
  unfold dict_get. induction d as [|[k v] rest IH]; intros Hkey; [reflexivity|].
  cbn [assoc map fst] in *. apply not_elem_of_cons in Hkey as [Hne Hrest].
  destruct (String.eqb_spec key k) as [Heq|_]; [contradiction|].
  exact (IH Hrest).
Qed.

Lemma perform_line (t rest : string) :
  "Perform a " ++ t ++ " analysis of the following text:" ++ rest
  = ("Perform a " ++ t ++ " analysis") ++ " of the following text:" ++ rest.
Proof. rewrite !append_assoc. reflexivity. Qed.

(** X24.  [summarize_prompt] returns one user message whose text holds
    the content to summarise unchanged.  A target length other than
    [short], [medium] and [long] is not refused: the text asks for "a
    paragraph", as for [medium], while the description still names the
    length that was given. *)
Theorem summarize_prompt_falls_back (context : string)
    (target_length : option string) :
  exists body,
    messages (summarize_prompt context target_length)
    = [ {| role := "user"; text := body |} ] /\
    str_contains context body = true /\
    forall t, target_length = Some t -> t ∉ ["short"; "medium"; "long"] ->
      body = summarize_template context "a paragraph" /\
      description (summarize_prompt context target_length)
      = "Summarize content to " ++ t ++ " length".
Proof.
  eexists. split; [reflexivity|]. split.
  - unfold summarize_template.
    repeat first [apply str_contains_here | apply str_contains_app_r].
  - intros t -> Hunknown. split; [|reflexivity].
    cbn [default]. rewrite dict_get_unknown; [reflexivity|exact Hunknown].
Qed.

(** X25.  [structured_analysis_prompt] returns one user message whose
    text holds the text to analyse unchanged, and the line that asks for
    a summary unless [include_summary] is false.  An analysis type other
    than [general], [academic] and [business] gets the instructions of
    [general] under its own name. *)
Theorem analysis_prompt_falls_back (body : string)
    (analysis_type : option string) (include_summary : option bool) :
  exists prompt,
    messages (structured_analysis_prompt body analysis_type include_summary)
    = [ {| role := "user"; text := prompt |} ] /\
    str_contains body prompt = true /\
    (include_summary <> Some false ->
       str_contains "- Begin with a brief summary of the text" prompt = true) /\
    forall t, analysis_type = Some t ->
      t ∉ ["general"; "academic"; "business"] ->
      str_contains ("Perform a " ++ t ++ " analysis") prompt = true /\
      str_contains
        "Analyze the main themes, arguments, and notable elements of the text."
        prompt = true.
Proof.
  eexists. split; [reflexivity|]. split; [|split].
  - unfold analysis_template.
    repeat first [apply str_contains_here | apply str_contains_app_r].
  - intros Hsummary. unfold analysis_template.
    destruct include_summary as [[|]|]; [|contradiction|]; cbn [default id];
      unfold summary_line; rewrite (append_assoc _ nl);
      repeat first [apply str_contains_here | apply str_contains_app_r].
  - intros t -> Hunknown. cbn [default].
    rewrite dict_get_unknown by exact Hunknown. unfold analysis_template.
    split.
    + do 3 apply str_contains_app_r. rewrite perform_line.
      apply str_contains_here.
    + repeat first [apply str_contains_here | apply str_contains_app_r].
Qed.

End PromptTemplates.

(** ** The math client *)

Section MathSession.
Import Protocol Observations MathClient.
Context `{Builtins} (env : Env) (show : list ContentItem -> string).

Lemma math_call_printed (t : string) : math_call (Printed t).
Proof. intros r Hr. discriminate Hr. Qed.

Lemma call_math_tool_only (op : string) (a b : float) :
  op ∈ operations ->
  only (fun _ => True) math_call (call_math_tool env op a b).
Proof.
  intros Hop. unfold call_math_tool.
  repeat only_step; auto using math_call_printed.
  intros r [= <-]. exists op, a, b. split; [reflexivity|exact Hop].
Qed.

Lemma one_command_only (line : string) :
  only (fun _ => True) math_call (one_command env show line).
Proof.
  unfold one_command.
  apply only_try_catch;
    [|intros e; repeat only_step; auto using math_call_printed].
  cbv zeta. destruct (String.eqb _ "quit"); [apply only_ret|].
  destruct (split_ws _) as [|op [|a_str [|b_str [|extra rest]]]].
  1, 2, 3, 5: repeat only_step; auto using math_call_printed.
  apply only_bind; [repeat only_step; auto using math_call_printed|].
  intros [[a b]|]; [|apply only_ret].
  destruct (existsb (String.eqb op) operations) eqn:Hop; cbn [negb];
    [|repeat only_step; auto using math_call_printed].
  apply only_bind.
  - apply call_math_tool_only. apply existsb_exists in Hop as (x & Hx & Heq).
    apply String.eqb_eq in Heq. subst x. apply list_elem_of_In, Hx.
  - intros [items|]; repeat only_step; auto using math_call_printed.
Qed.

Lemma loop_only (fuel : nat) (lines : list string) :
  only (fun _ => True) math_call (loop env show fuel lines).
Proof.
  revert lines. induction fuel as [|fuel IH]; intros lines; cbn [loop].
  - apply only_ret.
  - destruct lines as [|line rest].
    + apply only_bind; [apply only_emit, math_call_printed|intros _; apply IH].
    + apply only_bind; [apply one_command_only|].
      intros [|]; [apply only_ret|apply IH].
Qed.

(** A line that is not [quit] does not end the loop, whatever happens
    while it is processed. *)
Lemma one_command_continues (line : string) (s : Client * list event) :
  String.eqb (lower (strip line)) "quit" = false ->
  (one_command env show line s).1 = Ret false.
Proof.
  intros Hline. unfold one_command, try_catch. cbv zeta. rewrite Hline.
  destruct (split_ws _) as [|op [|a_str [|b_str [|extra rest]]]];
    try reflexivity.
  rewrite run_bind.
  lazymatch goal with
  | |- context [try_catch_only ?cs ?body ?handler s] =>
      destruct (try_catch_only cs body handler s) as [[[[a b]|]|e] s1]
  end; try reflexivity.
  destruct (existsb (String.eqb op) operations); cbn [negb]; [|reflexivity].
  rewrite run_bind.
  destruct (call_math_tool env op a b s1) as [[[items|]|e] s2]; reflexivity.
Qed.

Lemma one_command_requests (line : string) (c : Client) (h : list event) :
  String.eqb (lower (strip line)) "quit" = false ->
  exists evs,
    (one_command env show line (c, h)).2 = (c, (h ++ evs)%list) /\
    requests evs
    = if session c
      then match command_call line with Some r => [r] | None => [] end
      else [].
Proof.
  intros Hline.
  unfold one_command, command_call, try_catch, try_catch_only, call_math_tool,
    bind, lift, get, send, print, emit, ret.
  cbv zeta. rewrite Hline. cbn [fst snd].
  destruct (split_ws _) as [|op [|a_str [|b_str [|extra rest]]]].
  1, 2, 3, 5: cbn [fst snd]; eexists; split; [reflexivity|];
    destruct (session c); reflexivity.
  cbn [fst snd].
  destruct (py_float (PStr a_str)) as [a|ea]; cbn [fst snd].
  2:{ destruct (existsb _ [ValueError]); cbn [fst snd];
        eexists; (split; [reflexivity|]); destruct (session c); reflexivity. }
  destruct (py_float (PStr b_str)) as [b|eb]; cbn [fst snd].
  2:{ destruct (existsb _ [ValueError]); cbn [fst snd];
        eexists; (split; [reflexivity|]); destruct (session c); reflexivity. }
  destruct (existsb (String.eqb op) operations); cbn [negb fst snd].
  2:{ eexists; (split; [reflexivity|]); destruct (session c); reflexivity. }
  destruct (session c); cbn [negb fst snd].
  2:{ eexists. split; reflexivity. }
  unfold try_catch. cbn [fst snd].
  destruct (on_call_tool env h op _) as [result|e]; cbn [fst snd].
  - rewrite <- app_assoc. eexists. split; reflexivity.
  - rewrite <- app_assoc. eexists. split; reflexivity.
Qed.

Lemma loop_requests (fuel : nat) (lines : list string) (c : Client)
    (h : list event) :
  exists evs,
    (loop env show fuel lines (c, h)).2 = (c, (h ++ evs)%list) /\
    requests evs
    = if session c then omap command_call (entered fuel lines) else [].
Proof.
  revert lines h. induction fuel as [|fuel IH]; intros lines h.
  - exists []. rewrite app_nil_r. split; [reflexivity|].
    destruct (session c); reflexivity.
  - destruct lines as [|line rest]; cbn [loop entered].
    + rewrite run_bind. unfold print at 1, emit at 1. cbn [fst snd].
      destruct (IH [] (h ++ [Printed ("Error: " ++ "EOF when reading a line")])%list)
        as (evs & -> & Hreq).
      rewrite <- app_assoc. eexists. split; [reflexivity|].
      rewrite requests_app, Hreq.
      destruct (session c); [destruct fuel|]; reflexivity.
    + rewrite run_bind.
      destruct (String.eqb (lower (strip line)) "quit") eqn:Hline.
      * unfold one_command at 1, try_catch at 1. cbv zeta. rewrite Hline.
        unfold ret. exists []. rewrite app_nil_r. split; [reflexivity|].
        destruct (session c); reflexivity.
      * destruct (one_command_requests line c h Hline) as (evs1 & Hrun & Hreq1).
        pose proof (one_command_continues line (c, h) Hline) as Hres.
        destruct (one_command env show line (c, h)) as [r s1].
        cbn [fst snd] in Hrun, Hres. subst r s1.
        destruct (IH rest (h ++ evs1)%list) as (evs & -> & Hreq).
        rewrite <- app_assoc. eexists. split; [reflexivity|].
        rewrite requests_app, Hreq1, Hreq.
        destruct (session c); [|reflexivity].
        change (omap command_call (line :: entered fuel rest))
          with (match command_call line with
                | Some r => r :: omap command_call (entered fuel rest)
                | None => omap command_call (entered fuel rest)
                end).
        destruct (command_call line); reflexivity.
Qed.

(** X26.  What the math client sends is read off the lines typed before
    the first [quit]: on an open session, one call for each line made of
    one of the four operations [add], [subtract], [multiply] and [divide]
    and two numbers [float] accepts, with the two floats under the names
    [a] and [b], in the order of the lines, and nothing for a line of
    another form; without a session, nothing at all.  So every request is
    one of the four operations on two floats. *)
Theorem math_client_sends_what_is_typed (fuel : nat) (lines : list string)
    (c : Client) (h : list event) :
  exists evs,
    (chat_loop env show fuel lines (c, h)).2.2 = (h ++ evs)%list /\
    requests evs
    = (if session c then omap command_call (entered fuel lines) else []) /\
    forall r, Sent r ∈ evs ->
      exists op a b,
        r = CallTool op [("a", PFloat a); ("b", PFloat b)] /\
        op ∈ ["add"; "subtract"; "multiply"; "divide"].
Proof.
  assert (Honly : only (fun _ => True) math_call (chat_loop env show fuel lines)).
  { unfold chat_loop.
    repeat (apply only_bind; [apply only_emit, math_call_printed|intros _]).
    apply loop_only. }
  destruct (Honly (c, h) I) as (evs & Htr & Hevs & _).
  exists evs. split; [exact Htr|]. split.
  - revert Htr. unfold chat_loop.
    repeat (rewrite run_bind; unfold print at 1, emit at 1; cbn [fst snd]).
    match goal with
    | |- context [loop env show fuel lines (c, ?h0)] =>
        destruct (loop_requests fuel lines c h0) as (evs' & -> & Hreq)
    end.
    cbn [snd]. rewrite <- !app_assoc. intros Htr.
    apply app_inv_head in Htr. subst evs.
    rewrite !requests_app, Hreq. reflexivity.
  - intros r Hin. rewrite Forall_forall in Hevs. exact (Hevs _ Hin r eq_refl).
Qed.

Lemma one_command_quits (line : string) (s : Client * list event) :
  String.eqb (lower (strip line)) "quit" = true ->
  one_command env show line s = (Ret true, s).
Proof.
  intros Hline. unfold one_command, try_catch. cbv zeta. rewrite Hline.
  reflexivity.
Qed.

Lemma loop_stops_at_quit (before after : list string) (q : string)
    (fuel : nat) (s : Client * list event) :
  Forall (fun line => String.eqb (lower (strip line)) "quit" = false) before ->
  String.eqb (lower (strip q)) "quit" = true ->
  (length before < fuel)%nat ->
  loop env show fuel (before ++ q :: after) s
  = loop env show fuel (before ++ [q]) s /\
  (loop env show fuel (before ++ q :: after) s).1 = Ret (Some ()).
Proof.
  intros Hbefore Hq. revert fuel s.
  induction Hbefore as [|line rest Hline _ IH]; intros fuel s Hfuel.
  - destruct fuel as [|fuel]; [cbn in Hfuel; lia|].
    cbn [app loop]. rewrite !run_bind, (one_command_quits q s Hq).
    split; reflexivity.
  - destruct fuel as [|fuel]; [cbn in Hfuel; lia|].
    cbn [app loop]. rewrite !run_bind.
    pose proof (one_command_continues line s Hline) as Hcontinue.
    destruct (one_command env show line s) as [r s1].
    cbn [fst] in Hcontinue. subst r.
    apply IH. cbn [length] in Hfuel. lia.
Qed.

Lemma loop_never_ends (fuel : nat) (lines : list string)
    (s : Client * list event) :
  Forall (fun line => String.eqb (lower (strip line)) "quit" = false) lines ->
  (loop env show fuel lines s).1 = Ret None.
Proof.
  revert lines s. induction fuel as [|fuel IH]; intros lines s Hlines;
    [reflexivity|].
  cbn [loop]. destruct Hlines as [|line rest Hline Hrest].
  - rewrite run_bind. unfold print at 1, emit at 1. apply IH. constructor.
  - rewrite run_bind.
    pose proof (one_command_continues line s Hline) as Hcontinue.
    destruct (one_command env show line s) as [r s1].
    cbn [fst] in Hcontinue. subst r. apply IH, Hrest.
Qed.

Lemma chat_loop_run (fuel : nat) (lines : list string) (c : Client)
    (h : list event) :
  chat_loop env show fuel lines (c, h)
  = loop env show fuel lines
      (c, (h ++ [Printed (NotesServer.nl ++ "Simple Math Client Started!");
                 Printed "Format: <operation> <number1> <number2>";
                 Printed "Available operations: add, subtract, multiply, divide";
                 Printed "Example: add 5 3";
                 Printed "Type 'quit' to exit."])%list).
Proof.
  unfold chat_loop, bind, print, emit. cbn [fst snd].
  rewrite <- !app_assoc. reflexivity.
Qed.

(** X27.  The chat loop ends at the first line that reads [quit], in any
    case and with any white space around it: given enough iterations it
    returns, and the lines typed after that one are never read. *)
Theorem chat_loop_stops_at_quit (before after : list string) (q : string)
    (fuel : nat) (c : Client) (h : list event) :
  Forall (fun line => lower (strip line) <> "quit") before ->
  lower (strip q) = "quit" ->
  (length before < fuel)%nat ->
  (chat_loop env show fuel (before ++ q :: after) (c, h)).1 = Ret (Some ()) /\
  chat_loop env show fuel (before ++ q :: after) (c, h)
  = chat_loop env show fuel (before ++ [q]) (c, h).
Proof.
  intros Hbefore Hq Hfuel. rewrite !chat_loop_run.
  assert (Hbefore' : Forall (fun line =>
            String.eqb (lower (strip line)) "quit" = false) before).
  { eapply Forall_impl; [exact Hbefore|]. intros line Hline.
    apply String.eqb_neq. exact Hline. }
  apply String.eqb_eq in Hq.
  match goal with
  | |- context [loop env show fuel (before ++ [q]) ?s] =>
      destruct (loop_stops_at_quit before after q fuel s Hbefore' Hq Hfuel)
        as [Hsame Hends]
  end.
  split; [exact Hends|exact Hsame].
Qed.

(** X28.  Without a line that reads [quit] the chat loop never ends.  At
    the end of the input [input()] raises [EOFError], which the handler
    for [Exception] inside the loop catches: the error is printed and the
    loop reads again, so no number of iterations is enough for it to
    return. *)
Theorem chat_loop_never_ends_without_quit (lines : list string) (fuel : nat)
    (c : Client) (h : list event) :
  Forall (fun line => lower (strip line) <> "quit") lines ->
  (chat_loop env show fuel lines (c, h)).1 = Ret None /\
  ((length lines < fuel)%nat ->
   Printed ("Error: " ++ "EOF when reading a line")
   ∈ (chat_loop env show fuel lines (c, h)).2.2).
Proof.
  intros Hlines. rewrite chat_loop_run.
  assert (Hlines' : Forall (fun line =>
            String.eqb (lower (strip line)) "quit" = false) lines).
  { eapply Forall_impl; [exact Hlines|]. intros line Hline.
    apply String.eqb_neq. exact Hline. }
  split; [apply loop_never_ends, Hlines'|].
  generalize (c, (h ++ [Printed (NotesServer.nl ++ "Simple Math Client Started!");
                 Printed "Format: <operation> <number1> <number2>";
                 Printed "Available operations: add, subtract, multiply, divide";
                 Printed "Example: add 5 3";
                 Printed "Type 'quit' to exit."])%list).
  clear Hlines. revert fuel.
  induction Hlines' as [|line rest Hline _ IH]; intros fuel s Hfuel.
  - destruct fuel as [|fuel]; [cbn in Hfuel; lia|].
    cbn [loop]. rewrite run_bind. unfold print at 1, emit at 1.
    destruct (loop_only fuel [] (s.1, (s.2 ++ [Printed ("Error: " ++ "EOF when reading a line")])%list) I)
      as (evs & -> & _).
    cbn [fst snd]. apply elem_of_app. left. apply elem_of_app. right. left.
  - destruct fuel as [|fuel]; [cbn in Hfuel; lia|].
    cbn [loop]. rewrite run_bind.
    pose proof (one_command_continues line s Hline) as Hcontinue.
    destruct (one_command env show line s) as [r s1].
    cbn [fst] in Hcontinue. subst r. apply IH. cbn [length] in Hfuel. lia.
Qed.

End MathSession.

(** X27 for a session of three lines, the second of which is [quit]. *)
Lemma chat_loop_stops_at_quit_witness :
  (MathClient.chat_loop Example.env (fun _ => "[8]") 3
     (["add 5 3"] ++ " QUIT " :: ["subtract 1 1"])
     ({| MathClient.session := true |}, [])).1 = Ret (Some ()) /\
  MathClient.chat_loop Example.env (fun _ => "[8]") 3
    (["add 5 3"] ++ " QUIT " :: ["subtract 1 1"])
    ({| MathClient.session := true |}, [])
  = MathClient.chat_loop Example.env (fun _ => "[8]") 3
      (["add 5 3"] ++ [" QUIT "])
      ({| MathClient.session := true |}, []).
Proof.
  apply (chat_loop_stops_at_quit Example.env (fun _ => "[8]")
           ["add 5 3"] ["subtract 1 1"] " QUIT " 3
           {| MathClient.session := true |} []).
  - constructor; [discriminate|constructor].
  - reflexivity.
  - cbn. lia.
Defined.

(** X28 for a session of one line, after which the input ends. *)
Lemma chat_loop_never_ends_without_quit_witness :
  (MathClient.chat_loop Example.env (fun _ => "[8]") 4 ["add 5 3"]
     ({| MathClient.session := true |}, [])).1 = Ret None /\
  ((length ["add 5 3"] < 4)%nat ->
   Protocol.Printed ("Error: " ++ "EOF when reading a line")
   ∈ (MathClient.chat_loop Example.env (fun _ => "[8]") 4 ["add 5 3"]
        ({| MathClient.session := true |}, [])).2.2).
Proof.
  apply (chat_loop_never_ends_without_quit Example.env (fun _ => "[8]")
           ["add 5 3"] 4 {| MathClient.session := true |} []).
  constructor; [discriminate|constructor].
Defined.

(** ** The universal client *)

Section UniversalConnection.
Import Protocol UniversalClient.
Context (sv : Servers).
Context (start_of init_of : string -> py unit).
Context (tools_of : string -> py (list Tool)).






(** X30.  [connect_to_servers] on a configuration it cannot use sends
    nothing.  When the file cannot be read or parsed the error is printed
    and the process exits; when the configuration has no [mcpServers]
    entry, or an empty one, the method prints so and returns false; and
    when the entry is not a dict the exception is caught, printed and the
    method returns false. *)
Theorem unusable_configuration_connects_nothing (c : Client)
    (h : list uevent) :
  (forall e,
     connect_to_servers sv (Raise e) (c, h)
     = (Ret Exited,
        (c, (h ++ [Shown ("Error loading configuration file: "
                          ++ exn_msg e)])%list))) /\
  (forall cfg,
     (assoc "mcpServers" cfg = None \/
      exists v, assoc "mcpServers" cfg = Some v /\ truthy v = false) ->
     connect_to_servers sv (Ret (PDict cfg)) (c, h)
     = (Ret (Returned false),
        (c, (h ++ [Shown "Error: No MCP servers found in configuration."])%list))) /\
  (forall cfg v,
     assoc "mcpServers" cfg = Some v -> truthy v = true ->
     (forall d, v <> PDict d) ->
     exists msg,
       connect_to_servers sv (Ret (PDict cfg)) (c, h)
       = (Ret (Returned false),
          (c, (h ++ [Shown ("Error connecting to servers: " ++ msg)])%list))).
Proof.
  split; [|split].
  - intros e. reflexivity.
  - intros cfg [Hnone|(v & Hv & Hfalse)];
      unfold connect_to_servers, attempt, load_config, then_, of_py, unit_,
        shows;
      cbn [py_in getitem fst snd]; rewrite ?Hnone, ?Hv; cbn [fst snd];
      rewrite ?Hfalse; reflexivity.
  - intros cfg v Hv Htrue Hnotdict.
    unfold connect_to_servers, attempt, load_config, then_, of_py, unit_,
      shows.
    cbn [py_in getitem fst snd]. rewrite Hv. cbn [fst snd]. rewrite Htrue.
    cbn [negb fst snd].
    destruct v as [| | | | | |d]; try (eexists; reflexivity).
    destruct (Hnotdict d eq_refl).
Qed.

End UniversalConnection.

